(** * tesseracttrainer: the training pipeline and the pair store

    A shallow embedding of [model_trainer.py] (class [ModelTrainer]) and of
    the file-handling methods of [tesseracttrainer.py] (class
    [ImageTextWindow]), together with the properties of the specification
    that were checked against them.

    Modelling conventions.
    - A Python [str] is a [string]; a character stands for the code point of
      the same number (U+0000 to U+00FF).
    - The file system is a finite map from resolved paths to nodes.  A file
      holds a string: its text as Python reads it (the codec is not
      modelled).  Relative paths are resolved against the root, and there are
      no symbolic links.
    - Python code runs in a state-and-exception monad over a [world] made of
      the file system, the console, the records emitted through [loguru] and
      the list of commands handed to [subprocess.Popen].
    - What a spawned command does belongs to the environment: it is a
      parameter [exec] of the development.  A child always starts, and
      its output reaches Python as decoded lines.
    - The empty string, which Python takes for no path at all, resolves
      like [.], and [..] is resolved by name; the error of a path that
      cannot be reached looks at the directory the path lies in.
      [direct] names the paths for which the first two make no
      difference. *)

From Stdlib Require Import Ascii ZArith Lia DecimalString.
From Stdlib Require String QArith_base.
From stdpp Require Import base option list strings gmap fin_maps.

Local Open Scope stdpp_scope.

(** ** Python strings *)

Module Py.

Definition chr (n : nat) : ascii := ascii_of_nat n.

Definition LF : ascii := chr 10.
Definition CR : ascii := chr 13.
Definition TAB : ascii := chr 9.

Definition nl : string := String LF "".
Definition tab : string := String TAB "".

(** [str.isspace] on one character. *)
Definition isspace (c : ascii) : bool :=
  let n := nat_of_ascii c in
  ((9 <=? n) && (n <=? 13)) || ((28 <=? n) && (n <=? 32))
  || (n =? 133) || (n =? 160).

(** The line boundaries of [str.splitlines] other than CR. *)
Definition islinebreak (c : ascii) : bool :=
  let n := nat_of_ascii c in
  (n =? 10) || (n =? 11) || (n =? 12) || (n =? 28) || (n =? 29)
  || (n =? 30) || (n =? 133).

Definition is_cr (c : ascii) : bool := Ascii.eqb c CR.
Definition is_lf (c : ascii) : bool := Ascii.eqb c LF.

(** Truth value of a string: [if s:]. *)
Definition truthy (s : string) : bool :=
  match s with "" => false | String _ _ => true end.

(** [s.startswith(p)] *)
Fixpoint startswith (s p : string) : bool :=
  match p, s with
  | "", _ => true
  | String c p', String d s' => Ascii.eqb d c && startswith s' p'
  | String _ _, "" => false
  end.

(** [s.endswith(x)]: some suffix of [s] is [x]. *)
Fixpoint endswith (s x : string) : bool :=
  String.eqb s x
  || match s with
     | "" => false
     | String _ r => endswith r x
     end.

Fixpoint lstrip (s : string) : string :=
  match s with
  | "" => ""
  | String c r => if isspace c then lstrip r else s
  end.

Fixpoint rstrip (s : string) : string :=
  match s with
  | "" => ""
  | String c r =>
      match rstrip r with
      | "" => if isspace c then "" else String c ""
      | r' => String c r'
      end
  end.

(** [s.strip()] *)
Definition strip (s : string) : string := lstrip (rstrip s).

(** [s.split(sep)] for a one-character separator. *)
Fixpoint split (sep : ascii) (s : string) : list string :=
  match s with
  | "" => [""]
  | String c r =>
      if Ascii.eqb c sep then "" :: split sep r
      else match split sep r with
           | h :: t => String c h :: t
           | [] => [String c ""]
           end
  end.

(** [s.splitlines()] *)
Fixpoint splitlines (s : string) : list string :=
  match s with
  | "" => []
  | String c r =>
      if is_cr c then
        match r with
        | String c' r' =>
            if is_lf c' then "" :: splitlines r' else "" :: splitlines r
        | "" => "" :: splitlines r
        end
      else if islinebreak c then "" :: splitlines r
      else match splitlines r with
           | h :: t => String c h :: t
           | [] => [String c ""]
           end
  end.

(** What a text-mode [read()] does to line ends (universal newlines). *)
Fixpoint universal_newlines (s : string) : string :=
  match s with
  | "" => ""
  | String c r =>
      if is_cr c then
        match r with
        | String c' r' =>
            if is_lf c' then String LF (universal_newlines r')
            else String LF (universal_newlines r)
        | "" => String LF (universal_newlines r)
        end
      else String c (universal_newlines r)
  end.

(** [x in l] for a list of strings. *)
Definition contains (l : list string) (x : string) : bool :=
  existsb (String.eqb x) l.

(** [s.replace(".gt", "")] *)
Fixpoint remove_dot_gt (s : string) : string :=
  match s with
  | String "."%char (String "g"%char (String "t"%char r)) => remove_dot_gt r
  | String c r => String c (remove_dot_gt r)
  | "" => ""
  end.

(** ["%d" % n] for a natural number and [f"{z}"] for an integer. *)
Definition fmt_nat (n : nat) : string :=
  NilEmpty.string_of_uint (Nat.to_uint n).

Definition fmt_int (z : Z) : string :=
  NilEmpty.string_of_int (Z.to_int z).

(** [posixpath.join(a, b)] *)
Definition path_join (a b : string) : string :=
  if startswith b "/" then b
  else if negb (truthy a) || endswith a "/" then a +:+ b
  else a +:+ "/" +:+ b.

(** Index of the last occurrence of [c] in [s]: [s.rfind(c)]. *)
Fixpoint rfind (c : ascii) (s : string) : option nat :=
  match s with
  | "" => None
  | String d r =>
      match rfind c r with
      | Some i => Some (S i)
      | None => if Ascii.eqb d c then Some 0 else None
      end
  end.

Definition take (n : nat) (s : string) : string := String.substring 0 n s.
Definition drop (n : nat) (s : string) : string :=
  String.substring n (String.length s - n) s.

Fixpoint all_dots (s : string) : bool :=
  match s with
  | "" => true
  | String c r => Ascii.eqb c "."%char && all_dots r
  end.

(** [posixpath.splitext(p)]: the extension starts at the last dot of the
    last component, unless only dots precede it there. *)
Definition splitext (p : string) : string * string :=
  let start := match rfind "/"%char p with Some i => S i | None => 0 end in
  match rfind "."%char p with
  | Some d =>
      if (start <=? d) && negb (all_dots (String.substring start (d - start) p))
      then (take d p, drop d p)
      else (p, "")
  | None => (p, "")
  end.

End Py.

(** ** The file system *)

Module FS.

(** A resolved path: the components from the root. *)
Abbreviation path := (list string) (only parsing).

Inductive node :=
| File (data : string)
| Dir.

Definition step (acc : path) (c : string) : path :=
  if String.eqb c "" || String.eqb c "." then acc
  else if String.eqb c ".." then removelast acc
  else acc ++ [c].

(** The components a path string resolves to, from the root. *)
Definition resolve (s : string) : path :=
  fold_left step (Py.split "/"%char s) [].

Definition parent (p : path) : path := removelast p.

(** The root always exists and is a directory. *)
Definition stat (m : gmap path node) (p : path) : option node :=
  match p with
  | [] => Some Dir
  | _ => m !! p
  end.

Definition is_dir (m : gmap path node) (p : path) : bool :=
  match stat m p with Some Dir => true | _ => false end.

Definition is_file (m : gmap path node) (p : path) : bool :=
  match stat m p with Some (File _) => true | _ => false end.

Definition exists_ (m : gmap path node) (p : path) : bool :=
  match stat m p with Some _ => true | None => false end.

(** The name [k] has inside the directory [d], when it is an entry of it. *)
Fixpoint child_name (d k : path) : option string :=
  match d, k with
  | [], [n] => Some n
  | c :: d', c' :: k' => if String.eqb c c' then child_name d' k' else None
  | _, _ => None
  end.

(** The entry names of a directory, in enumeration order. *)
Definition entries (m : gmap path node) (d : path) : list string :=
  omap (λ kv, child_name d kv.1) (map_to_list m).

(** [strip_prefix d k] is what follows [d] in [k]. *)
Fixpoint strip_prefix (d k : path) : option path :=
  match d, k with
  | [], _ => Some k
  | c :: d', c' :: k' => if String.eqb c c' then strip_prefix d' k' else None
  | _ :: _, [] => None
  end.

End FS.

Import FS.

(** ** Exceptions, log records and the world *)

Inductive exn :=
| FileNotFoundError (what : string)
| NotADirectoryError (what : string)
| IsADirectoryError (what : string)
| FileExistsError (what : string)
| ValueError (what : string)
| UnidentifiedImageError (what : string).

Inductive level := INFO | ERROR.

(** A [loguru] record: the level, the formatted message up to the place of
    a caught exception, and that exception when the message ends with one. *)
Record log_record := LogRecord {
  lvl : level;
  msg : string;
  exc : option exn
}.

Record world := World {
  fs : gmap path node;
  console : list string;
  loguru : list log_record;
  spawned : list string
}.

Definition set_fs (m : gmap path node) (w : world) : world :=
  World m (console w) (loguru w) (spawned w).

Inductive result (A : Type) :=
| Ok (a : A)
| Raise (e : exn).
Arguments Ok {A} a.
Arguments Raise {A} e.

Definition M (A : Type) : Type := world → result A * world.

Definition ret {A} (a : A) : M A := λ w, (Ok a, w).
Definition raise {A} (e : exn) : M A := λ w, (Raise e, w).
Definition bind {A B} (m : M A) (k : A → M B) : M B :=
  λ w, match m w with
       | (Ok a, w') => k a w'
       | (Raise e, w') => (Raise e, w')
       end.

(** [try: body except Exception as e: handler(e)] *)
Definition try_except {A} (body : M A) (handler : exn → M A) : M A :=
  λ w, match body w with
       | (Ok a, w') => (Ok a, w')
       | (Raise e, w') => handler e w'
       end.

Declare Scope py_scope.
Delimit Scope py_scope with py.
Notation "'let*' x ':=' m 'in' k" := (bind m (λ x, k))
  (at level 10, x pattern, m at level 100, k at level 200) : py_scope.
Notation "m >> k" := (bind m (λ _, k))
  (at level 100, k at level 200, right associativity) : py_scope.
Local Open Scope py_scope.

(** [for x in l: body(x)] *)
Fixpoint for_each {A} (l : list A) (body : A → M unit) : M unit :=
  match l with
  | [] => ret tt
  | x :: r => body x >> for_each r body
  end.

Definition logger_info (s : string) : M unit :=
  λ w, (Ok tt, World (fs w) (console w) (loguru w ++ [LogRecord INFO s None]) (spawned w)).

Definition logger_error (s : string) (e : option exn) : M unit :=
  λ w, (Ok tt, World (fs w) (console w) (loguru w ++ [LogRecord ERROR s e]) (spawned w)).

(** [print(line, end="")] *)
Definition print (s : string) : M unit :=
  λ w, (Ok tt, World (fs w) (console w ++ [s]) (loguru w) (spawned w)).

(** *** Files as Python sees them *)

(** The error of opening a path whose last component cannot be reached. *)
Definition unreachable (m : gmap path node) (s : string) : exn :=
  if is_file m (parent (resolve s)) then NotADirectoryError s
  else FileNotFoundError s.

(** [open(s, "r").read()] without newline translation, also [open(s, "rb")]. *)
Definition read_file (s : string) : M string :=
  λ w, match stat (fs w) (resolve s) with
       | Some (File d) => (Ok d, w)
       | Some Dir => (Raise (IsADirectoryError s), w)
       | None => (Raise (unreachable (fs w) s), w)
       end.

(** [open(s, "r").read()] in text mode. *)
Definition read_text (s : string) : M string :=
  let* d := read_file s in ret (Py.universal_newlines d).

(** Opening for writing: ["w"] truncates, ["a"] keeps the content; both
    create the file when its directory exists. *)
Definition open_for (truncate : bool) (s : string) : M unit :=
  λ w, let p := resolve s in
       match stat (fs w) p with
       | Some Dir => (Raise (IsADirectoryError s), w)
       | Some (File d) =>
           (Ok tt, if truncate then set_fs (<[p := File ""]> (fs w)) w else w)
       | None =>
           if is_dir (fs w) (parent p)
           then (Ok tt, set_fs (<[p := File ""]> (fs w)) w)
           else (Raise (unreachable (fs w) s), w)
       end.

Definition open_write : string → M unit := open_for true.
Definition open_append : string → M unit := open_for false.

(** [f.write(text)] on a handle opened on [s]: the text goes to the end of
    the file as long as the file is still linked at that path; the text
    written to a file that was unlinked meanwhile is lost with it. *)
Definition handle_write (s : string) (text : string) : M unit :=
  λ w, let p := resolve s in
       match fs w !! p with
       | Some (File d) => (Ok tt, set_fs (<[p := File (d +:+ text)]> (fs w)) w)
       | _ => (Ok tt, w)
       end.

Definition os_path_exists (s : string) : M bool :=
  λ w, (Ok (exists_ (fs w) (resolve s)), w).

Definition os_listdir (s : string) : M (list string) :=
  λ w, match stat (fs w) (resolve s) with
       | Some Dir => (Ok (entries (fs w) (resolve s)), w)
       | Some (File _) => (Raise (NotADirectoryError s), w)
       | None => (Raise (unreachable (fs w) s), w)
       end.

(** [os.mkdir(s)] inside [os.makedirs(s, exist_ok=True)]: the [OSError] of
    an existing path is dropped when that path is a directory. *)
Definition mkdir_exist_ok (s : string) (p : path) (m : gmap path node)
  : result (gmap path node) :=
  match stat m p with
  | Some Dir => Ok m
  | Some (File _) => Raise (FileExistsError s)
  | None =>
      if is_dir m (parent p) then Ok (<[p := Dir]> m)
      else Raise (if is_file m (parent p) then NotADirectoryError s
                  else FileNotFoundError s)
  end.

(** [os.makedirs(s, exist_ok=True)] on the reversed components of the
    path: a missing parent is made first, and a [FileExistsError] from
    making it is passed over. *)
Fixpoint makedirs_rev (s : string) (rp : path) (m : gmap path node)
  : result (gmap path node) :=
  match rp with
  | [] => Ok m
  | _ :: rhead =>
      let made :=
        if exists_ m (rev rhead) then Ok m
        else match makedirs_rev s rhead m with
             | Raise (FileExistsError _) => Ok m
             | r => r
             end in
      match made with
      | Ok m1 => mkdir_exist_ok s (rev rp) m1
      | Raise e => Raise e
      end
  end.

Definition os_makedirs (s : string) : M unit :=
  λ w, match makedirs_rev s (rev (resolve s)) (fs w) with
       | Ok m => (Ok tt, set_fs m w)
       | Raise e => (Raise e, w)
       end.

(** ** The environment *)

(** What a finished child process leaves behind: the lines read from its
    combined standard output and error, its exit status, and the file
    system. *)
Record completed := Completed {
  out_lines : list string;
  returncode : Z;
  fs_after : gmap path node
}.

Class Environment := {
  (** [/bin/sh -c command], run to completion on a file system *)
  exec : string → gmap path node → completed;
  (** [PIL.Image.open(f).size] on the bytes of a file *)
  image_size : string → option (nat * nat);
  (** [unicodedata.normalize("NFC", s)] *)
  nfc : string → string;
  (** [bidi.algorithm.get_display(s)] *)
  get_display : string → string
}.

(** [subprocess.Popen(command, shell=True, stdout=PIPE, stderr=STDOUT,
    text=True)] followed to the end of the child. *)
Definition popen `{Environment} (command : string) : M completed :=
  λ w, let c := exec command (fs w) in
       (Ok c, World (fs_after c) (console w) (loguru w) (spawned w ++ [command])).

(** ** [model_trainer.py] *)

(** The attributes set by [ModelTrainer.__init__]; [ground_truth_dir] and
    [finetuned_dir] are computed there from the other three and never
    assigned again. *)
Record ModelTrainer := {
  model_name : string;
  base_dir : string;
  tessdata_dir : string
}.

Definition ground_truth_dir (self : ModelTrainer) : string := base_dir self.

Definition finetuned_dir (self : ModelTrainer) : string :=
  base_dir self +:+ "/" +:+ model_name self +:+ "_finetuned".

Definition log_file_path (self : ModelTrainer) : string :=
  Py.path_join (finetuned_dir self) (model_name self +:+ "_finetuned.log").

Definition is_image_name (file : string) : bool :=
  Py.endswith file ".png" || Py.endswith file ".tif".

Section Trainer.
Context `{Environment}.
Variable self : ModelTrainer.

(** The loop over the lines of the child, then the verdict.  The branch
    on [process.stdout is None] cannot be taken with [stdout=PIPE]. *)
Definition run_command (command : string) : M unit :=
  let log := log_file_path self in
  open_append log >>
  let* process := popen command in
  for_each (out_lines process)
    (λ line, print line >> handle_write log line) >>
  if negb (returncode process =? 0)%Z
  then logger_error ("Command failed with return code "
                     +:+ Py.fmt_int (returncode process) +:+ ": " +:+ command) None
  else logger_info ("Command completed successfully: " +:+ command).

Definition prepare_directories : M unit :=
  os_makedirs (finetuned_dir self) >>
  logger_info ("Created or verified existence of directory: " +:+ finetuned_dir self).

Definition tesseract_command (file : string) : string :=
  let image_path := Py.path_join (ground_truth_dir self) file in
  let lstmf_path := (Py.splitext image_path).1 in
  "tesseract " +:+ image_path +:+ " " +:+ lstmf_path +:+ " --psm 6 lstm.train".

Definition lstmf_list_path : string :=
  ground_truth_dir self +:+ "/all-lstmf-list.txt".

Definition find_command : string :=
  "find " +:+ ground_truth_dir self +:+ " -name '*.lstmf' > " +:+ lstmf_list_path.

Definition lstmf_one (file : string) : M unit :=
  if is_image_name file then
    logger_info ("Generating LSTMF file for image: "
                 +:+ Py.path_join (ground_truth_dir self) file) >>
    run_command (tesseract_command file)
  else ret tt.

Definition generate_lstmf_files : M unit :=
  let* files := os_listdir (ground_truth_dir self) in
  for_each files lstmf_one >>
  logger_info ("Creating LSTMF list file: " +:+ lstmf_list_path) >>
  run_command find_command >>
  logger_info ("LSTMF files and list generation completed for model: "
               +:+ model_name self).

Definition unicharset_command : string :=
  "unicharset_extractor --output_unicharset "
  +:+ Py.path_join (base_dir self) "unicharset" +:+ " "
  +:+ ground_truth_dir self +:+ "/*.gt.txt".

Definition generate_unicharset : M unit :=
  logger_info ("Generating unicharset for ground truth files in: "
               +:+ ground_truth_dir self) >>
  try_except
    (run_command unicharset_command >>
     logger_info ("Unicharset generation completed successfully. Output file: "
                  +:+ Py.path_join (base_dir self) "unicharset"))
    (λ e, logger_error "Failed to generate unicharset: " (Some e)).

Definition purge_command : string := "rm -rf " +:+ finetuned_dir self +:+ "/*".

Definition lstmtraining_command (iterations : Z) : string :=
  "lstmtraining --model_output " +:+ finetuned_dir self +:+ "/" +:+ model_name self +:+ " "
  +:+ "--continue_from " +:+ base_dir self +:+ "/" +:+ model_name self +:+ ".lstm "
  +:+ "--traineddata " +:+ tessdata_dir self +:+ "/" +:+ model_name self +:+ ".traineddata "
  +:+ "--train_listfile " +:+ ground_truth_dir self +:+ "/all-lstmf-list.txt "
  +:+ "--max_iterations " +:+ Py.fmt_int iterations +:+ " ".

(** [train(self, iterations, learning_rate, error_rate, remove_old)] with
    every argument given; the body reads neither [learning_rate] nor
    [error_rate]. *)
Definition train_with (iterations : Z) (learning_rate error_rate : QArith_base.Q)
    (remove_old : bool) : M unit :=
  (if remove_old then
     logger_info ("Removing old files in: " +:+ finetuned_dir self) >>
     run_command purge_command
   else ret tt) >>
  logger_info ("Starting training for model: " +:+ model_name self) >>
  try_except
    (run_command (lstmtraining_command iterations) >>
     logger_info ("Training completed successfully for model: " +:+ model_name self))
    (λ e, logger_error ("Training failed for model: " +:+ model_name self +:+ ". Error: ")
                       (Some e)).

(** The defaults of the signature
    [iterations=400, learning_rate=0.0001, error_rate=0.01, remove_old=True]. *)
Definition default_iterations : Z := 400.
Definition default_learning_rate : QArith_base.Q := QArith_base.Qmake 1 10000.
Definition default_error_rate : QArith_base.Q := QArith_base.Qmake 1 100.
Definition default_remove_old : bool := true.

(** A call of [train] with keyword arguments: an argument left out takes
    its default. *)
Definition train (iterations : option Z) (learning_rate error_rate : option QArith_base.Q)
    (remove_old : option bool) : M unit :=
  train_with (default default_iterations iterations)
             (default default_learning_rate learning_rate)
             (default default_error_rate error_rate)
             (default default_remove_old remove_old).

Definition convert_command : string :=
  "lstmtraining --stop_training "
  +:+ "--continue_from " +:+ finetuned_dir self +:+ "/" +:+ model_name self +:+ "_checkpoint "
  +:+ "--traineddata /usr/share/tessdata/" +:+ model_name self +:+ ".traineddata "
  +:+ "--model_output " +:+ finetuned_dir self +:+ "/" +:+ model_name self +:+ ".traineddata".

Definition convert_checkpoint_to_traineddata : M unit :=
  logger_info ("Converting checkpoint to traineddata for model: " +:+ model_name self) >>
  try_except
    (run_command convert_command >>
     logger_info ("Successfully converted checkpoint to traineddata for model: "
                  +:+ model_name self))
    (λ e, logger_error ("Failed to convert checkpoint to traineddata for model: "
                        +:+ model_name self +:+ ". Error: ") (Some e)).

Definition eval_command : string :=
  "lstmeval --model " +:+ finetuned_dir self +:+ "/" +:+ model_name self +:+ ".traineddata "
  +:+ "--eval_listfile " +:+ ground_truth_dir self +:+ "/all-lstmf-list.txt "
  +:+ "--traineddata /usr/share/tessdata/" +:+ model_name self +:+ ".traineddata".

Definition evaluate_model : M unit :=
  logger_info ("Evaluating model: " +:+ model_name self) >>
  try_except
    (run_command eval_command >>
     logger_info ("Model evaluation completed successfully for model: "
                  +:+ model_name self))
    (λ e, logger_error ("Model evaluation failed for model: "
                        +:+ model_name self +:+ ". Error: ") (Some e)).

(** *** [generate_box_files] *)

Definition image_path_of (file : string) : string :=
  Py.path_join (ground_truth_dir self) file.
Definition txt_path_of (file : string) : string :=
  (Py.splitext (image_path_of file)).1 +:+ ".gt.txt".
Definition box_path_of (file : string) : string :=
  (Py.splitext (image_path_of file)).1 +:+ ".box".

(** The two [f.write] calls of the box file. *)
Definition box_line1 (width height : nat) (line : string) : string :=
  "WordStr 0 0 " +:+ Py.fmt_nat width +:+ " " +:+ Py.fmt_nat height
  +:+ " 0 #" +:+ line +:+ Py.nl.
Definition box_line2 (width height : nat) : string :=
  Py.tab +:+ " 0 0 " +:+ Py.fmt_nat width +:+ " " +:+ Py.fmt_nat height
  +:+ " 0" +:+ Py.nl.

Definition wrong_line_count (txt_path : string) (n : nat) : exn :=
  ValueError ("ERROR: " +:+ txt_path
              +:+ ": Ground truth text file should contain exactly one line, not "
              +:+ Py.fmt_nat n).

(** The [try] block of one image. *)
Definition box_try (file : string) : M unit :=
  let* bytes := read_file (image_path_of file) in
  let* size :=
    match image_size bytes with
    | Some wh => ret wh
    | None => raise (UnidentifiedImageError (image_path_of file))
    end in
  let width := size.1 in
  let height := size.2 in
  logger_info ("Image dimensions (width x height): "
               +:+ Py.fmt_nat width +:+ " x " +:+ Py.fmt_nat height) >>
  let* text := read_text (txt_path_of file) in
  let lines := Py.split Py.LF (Py.strip text) in
  (if negb (length lines =? 1)
   then raise (wrong_line_count (txt_path_of file) (length lines))
   else ret tt) >>
  let line := nfc (Py.strip (hd "" lines)) in
  if Py.truthy line then
    let line := get_display line in
    open_write (box_path_of file) >>
    handle_write (box_path_of file) (box_line1 width height line) >>
    handle_write (box_path_of file) (box_line2 width height) >>
    logger_info ("Generated box file: " +:+ box_path_of file)
  else ret tt.

(** The body of the loop of [generate_box_files]. *)
Definition box_one (file : string) : M unit :=
  if is_image_name file then
    logger_info ("Processing image: " +:+ image_path_of file) >>
    try_except (box_try file)
      (λ e, logger_error ("Failed to process " +:+ image_path_of file +:+ ": ") (Some e))
  else ret tt.

Definition generate_box_files : M unit :=
  let* files := os_listdir (ground_truth_dir self) in
  for_each files box_one.

Definition extract_command : string :=
  "combine_tessdata -e " +:+ tessdata_dir self +:+ "/" +:+ model_name self
  +:+ ".traineddata " +:+ base_dir self +:+ "/" +:+ model_name self +:+ ".lstm".

Definition extract_base_lstm : M unit :=
  logger_info ("Extracting base LSTM for model: " +:+ model_name self) >>
  try_except
    (run_command extract_command >>
     logger_info ("Successfully extracted base LSTM to: "
                  +:+ base_dir self +:+ "/" +:+ model_name self +:+ ".lstm"))
    (λ e, logger_error ("Failed to extract base LSTM for model: "
                        +:+ model_name self +:+ ". Error: ") (Some e)).

Definition train_model : M unit :=
  extract_base_lstm >>
  prepare_directories >>
  generate_box_files >>
  generate_lstmf_files >>
  generate_unicharset >>
  train (Some 1000%Z) None None None >>
  convert_checkpoint_to_traineddata >>
  evaluate_model.

End Trainer.

(** ** [tesseracttrainer.py]: the pair store of [ImageTextWindow] *)

Section PairStore.
(** [self.base_path] *)
Variable base_path : string.

(** The loop of [get_file_base_names] over the directory listing, with
    the list built so far. *)
Fixpoint pair_loop (names file_base_paths : list string) : M (list string) :=
  match names with
  | [] => ret file_base_paths
  | file_name :: rest =>
      if Py.endswith file_name ".tif" then
        let base_name := (Py.splitext file_name).1 in
        let gt_file := Py.path_join base_path (base_name +:+ ".gt.txt") in
        let* found := os_path_exists gt_file in
        if found
        then pair_loop rest (file_base_paths ++ [Py.path_join base_path base_name])
        else raise (FileNotFoundError ("Ground truth file not found for " +:+ file_name))
      else if Py.endswith file_name ".gt.txt" then
        let base_name := Py.remove_dot_gt (Py.splitext file_name).1 in
        let image_file := Py.path_join base_path (base_name +:+ ".tif") in
        let* found := os_path_exists image_file in
        if negb found
        then raise (FileNotFoundError ("Image file not found for " +:+ file_name))
        else pair_loop rest file_base_paths
      else pair_loop rest file_base_paths
  end.

Definition get_file_base_names : M (list string) :=
  if Py.truthy base_path then
    let* names := os_listdir base_path in
    pair_loop names []
  else ret [].

Definition removed_pairs_file : string :=
  Py.path_join base_path "removed_pairs.txt".

(** The lines of [removed_pairs.txt], none when the file does not exist. *)
Definition logged_pairs : M (list string) :=
  let* found := os_path_exists removed_pairs_file in
  if found then
    let* text := read_text removed_pairs_file in
    ret (Py.splitlines text)
  else ret [].

Definition log_removed_pair (file_base_name : string) : M unit :=
  let* logged := logged_pairs in
  if negb (Py.contains logged file_base_name) then
    open_append removed_pairs_file >>
    handle_write removed_pairs_file (file_base_name +:+ Py.nl)
  else ret tt.

Definition is_removed_pair (file_base_name : string) : M bool :=
  let* found := os_path_exists removed_pairs_file in
  if found then
    let* text := read_text removed_pairs_file in
    ret (Py.contains (Py.splitlines text) file_base_name)
  else ret false.

End PairStore.

(** ** The two shell commands the trainer writes itself

    [rm -rf D/*] and [find D -name '*.lstmf' > F] are run by [/bin/sh]
    like every other command, but what they do is fixed by POSIX, for
    directory names free of characters that are special to the shell. *)

Module Shell.

(** A character the shell reads as itself: a letter, a digit or one of
    [/ . _ -]. *)
Definition word_char (c : ascii) : bool :=
  let n := nat_of_ascii c in
  ((48 <=? n) && (n <=? 57)) || ((65 <=? n) && (n <=? 90))
  || ((97 <=? n) && (n <=? 122))
  || (n =? 47) || (n =? 46) || (n =? 95) || (n =? 45).

Fixpoint word_chars (s : string) : bool :=
  match s with
  | "" => true
  | String c r => word_char c && word_chars r
  end.

(** A string that reaches a command as one argument and as it is
    written, and that the command does not take for an option. *)
Definition word (s : string) : bool :=
  Py.truthy s && negb (Py.startswith s "-") && word_chars s.

(** A pathname expansion [*] does not match a name with a leading dot. *)
Definition hidden (name : string) : bool := Py.startswith name ".".

(** [k] lies in or below an entry of [d] that [d/*] matches. *)
Definition purged (d k : path) : bool :=
  match strip_prefix d k with
  | Some (name :: _) => negb (hidden name)
  | _ => false
  end.

(** [rm -rf d/*]: silent, and successful also when nothing matches. *)
Definition rm_rf_glob (d : path) (m : gmap path node) : gmap path node :=
  if is_dir m d then filter (λ kv, purged d kv.1 = false) m else m.

Definition purge (d : string) (m : gmap path node) : completed :=
  Completed [] 0 (rm_rf_glob (resolve d) m).

(** Every directory between [d] and [d ++ rel] exists. *)
Fixpoint reachable (m : gmap path node) (d rel : path) : bool :=
  match rel with
  | [] | [_] => true
  | c :: r => is_dir m (d ++ [c]) && reachable m (d ++ [c]) r
  end.

Definition lstmf_name (name : string) : bool := Py.endswith name ".lstmf".

Fixpoint join_components (rel : path) : string :=
  match rel with
  | [] => ""
  | [c] => c
  | c :: r => c +:+ "/" +:+ join_components r
  end.

(** The path [find] prints for what it met at [rel] below [d]. *)
Definition printed (d : string) (rel : path) : string :=
  (if Py.endswith d "/" then d else d +:+ "/") +:+ join_components rel.

(** What [find d -name '*.lstmf'] prints for one entry of the map. *)
Definition find_hit (m : gmap path node) (d : string) (k : path) : option string :=
  match strip_prefix (resolve d) k with
  | Some (c :: r) =>
      if lstmf_name (List.last (c :: r) "") && reachable m (resolve d) (c :: r)
      then Some (printed d (c :: r))
      else None
  | _ => None
  end.

(** The starting point is tested like everything below it. *)
Definition find_start (d : string) : list string :=
  if lstmf_name (List.last (resolve d) "") then [d] else [].

Definition find_lstmf (d : string) (m : gmap path node) : list string :=
  find_start d ++ omap (λ kv, find_hit m d kv.1) (map_to_list m).

Definition lines_text (l : list string) : string :=
  foldr (λ s acc, s +:+ Py.nl +:+ acc) "" l.

(** [find d -name '*.lstmf' > f]: the shell creates or truncates [f]
    first, then [find] writes into it. *)
Definition find_redirect (d f : string) (m : gmap path node) : completed :=
  let p := resolve f in
  if is_dir m p || negb (is_dir m (parent p)) then
    Completed ["sh: 1: cannot create " +:+ f +:+ Py.nl] 2 m
  else
    let m1 := <[p := File ""]> m in
    if exists_ m1 (resolve d) then
      Completed [] 0 (<[p := File (lines_text (find_lstmf d m1))]> m1)
    else
      Completed ["find: " +:+ d +:+ ": No such file or directory" +:+ Py.nl] 1 m1.

(** The shell as the trainer [self] meets it: its own two commands have
    their POSIX meaning, every other command is left to [tools]. *)
Definition sh (self : ModelTrainer)
    (tools : string → gmap path node → completed)
    (command : string) (m : gmap path node) : completed :=
  if String.eqb command (purge_command self) then
    purge (finetuned_dir self) m
  else if String.eqb command (find_command self) then
    find_redirect (ground_truth_dir self) (lstmf_list_path self) m
  else tools command m.

End Shell.


(** ** [tesseracttrainer.py]: the window *)

(** [os.remove(s)] *)
Definition os_remove (s : string) : M unit :=
  λ w, match stat (fs w) (resolve s) with
       | Some (File _) => (Ok tt, set_fs (delete (resolve s) (fs w)) w)
       | Some Dir => (Raise (IsADirectoryError s), w)
       | None => (Raise (unreachable (fs w) s), w)
       end.

(** [posixpath.basename(p)]: what follows the last slash. *)
Definition basename (p : string) : string :=
  match Py.rfind "/"%char p with
  | Some i => Py.drop (S i) p
  | None => p
  end.

(** What a [QLabel] shows. *)
Inductive label :=
| LabelText (text : string)
| LabelPixmap (width height : nat).

(** The attributes of [ImageTextWindow] its methods read and assign, and
    what they last set on its widgets: [text_editor] is the text of the
    line edit, [settings_base_path] the value stored under [base_path]. *)
Record window := Window {
  base_path : string;
  file_base_names : list string;
  current_index : nat;
  settings_base_path : string;
  image_label : label;
  text_editor : string;
  path_label : string;
  window_title : string
}.

(** The two places where the toolkit decides. *)
Class Toolkit := {
  (** the size of [QPixmap(path)] for a file of these bytes, none for a
      null pixmap *)
  pixmap_size : string → option (nat * nat);
  (** [QLineEdit.text()] after [setText(s)] *)
  line_edit_text : string → string
}.

(** Python code of the window raises what file handling raises, and
    [IndexError] on a list. *)
Inductive raised :=
| PyError (e : exn)
| IndexError.

Inductive outcome (A : Type) :=
| Done (a : A)
| Failed (e : raised).
Arguments Done {A} a.
Arguments Failed {A} e.

Definition G (A : Type) : Type := window → world → outcome A * window * world.

Definition gret {A} (a : A) : G A := λ g w, (Done a, g, w).
Definition gfail {A} (e : raised) : G A := λ g w, (Failed e, g, w).
Definition gbind {A B} (m : G A) (k : A → G B) : G B :=
  λ g w, match m g w with
         | (Done a, g', w') => k a g' w'
         | (Failed e, g', w') => (Failed e, g', w')
         end.

Notation "'let+' x ':=' m 'in' k" := (gbind m (λ x, k))
  (at level 10, x pattern, m at level 100, k at level 200) : py_scope.
Notation "m >>> k" := (gbind m (λ _, k))
  (at level 100, k at level 200, right associativity) : py_scope.

(** File handling inside a method of the window. *)
Definition lift {A} (m : M A) : G A :=
  λ g w, match m w with
         | (Ok a, w') => (Done a, g, w')
         | (Raise e, w') => (Failed (PyError e), g, w')
         end.

Definition this : G window := λ g w, (Done g, g, w).
Definition assign (f : window → window) : G unit := λ g w, (Done tt, f g, w).

Definition set_base_path (s : string) (g : window) : window :=
  Window s (file_base_names g) (current_index g) (settings_base_path g)
         (image_label g) (text_editor g) (path_label g) (window_title g).
Definition set_file_base_names (l : list string) (g : window) : window :=
  Window (base_path g) l (current_index g) (settings_base_path g)
         (image_label g) (text_editor g) (path_label g) (window_title g).
Definition set_current_index (i : nat) (g : window) : window :=
  Window (base_path g) (file_base_names g) i (settings_base_path g)
         (image_label g) (text_editor g) (path_label g) (window_title g).
Definition set_settings_base_path (s : string) (g : window) : window :=
  Window (base_path g) (file_base_names g) (current_index g) s
         (image_label g) (text_editor g) (path_label g) (window_title g).
Definition set_image_label (l : label) (g : window) : window :=
  Window (base_path g) (file_base_names g) (current_index g) (settings_base_path g)
         l (text_editor g) (path_label g) (window_title g).
Definition set_text_editor (s : string) (g : window) : window :=
  Window (base_path g) (file_base_names g) (current_index g) (settings_base_path g)
         (image_label g) s (path_label g) (window_title g).
Definition set_path_label (s : string) (g : window) : window :=
  Window (base_path g) (file_base_names g) (current_index g) (settings_base_path g)
         (image_label g) (text_editor g) s (window_title g).
Definition set_window_title (s : string) (g : window) : window :=
  Window (base_path g) (file_base_names g) (current_index g) (settings_base_path g)
         (image_label g) (text_editor g) (path_label g) s.

(** [l[i]] for an index that is not negative. *)
Definition item (l : list string) (i : nat) : G string :=
  match l !! i with
  | Some x => gret x
  | None => gfail IndexError
  end.

(** [bool(l)] for a list. *)
Definition nonempty (l : list string) : bool :=
  match l with [] => false | _ :: _ => true end.

Section Window.
Context `{Toolkit}.

Definition load_image (file_path : string) : G unit :=
  if Py.truthy file_path then
    λ g w,
      let pixmap :=
        match stat (fs w) (resolve file_path) with
        | Some (File bytes) => pixmap_size bytes
        | _ => None
        end in
      match pixmap with
      | Some (width, height) =>
          (Done tt, set_image_label (LabelPixmap (width * 2) (height * 2)) g, w)
      | None => (Done tt, set_image_label (LabelText "Failed to load image") g, w)
      end
  else gret tt.

Definition load_text (file_path : string) : G unit :=
  if Py.truthy file_path then
    let+ text := lift (read_text file_path) in
    assign (set_text_editor (line_edit_text text))
  else gfail (PyError (ValueError ("File path is empty: " +:+ file_path))).

Definition load_pair (file_base_name : string) : G unit :=
  if Py.truthy file_base_name then
    let+ self := this in
    let+ removed := lift (is_removed_pair (base_path self) file_base_name) in
    if negb removed then
      let base_name := (Py.splitext file_base_name).1 in
      let image_file := base_name +:+ ".tif" in
      let gt_file := base_name +:+ ".gt.txt" in
      let+ found := lift (os_path_exists image_file) in
      (if found then load_image image_file
       else gfail (PyError (FileNotFoundError
                     ("Image file not found for " +:+ file_base_name)))) >>>
      let+ found := lift (os_path_exists gt_file) in
      (if found then load_text gt_file
       else gfail (PyError (FileNotFoundError
                     ("Ground truth file not found for " +:+ file_base_name)))) >>>
      assign (set_window_title (basename image_file))
    else gret tt
  else gret tt.

Definition save_text (file_path : string) : G unit :=
  if Py.truthy file_path then
    let+ self := this in
    lift (open_write file_path >> handle_write file_path (text_editor self))
  else gfail (PyError (ValueError ("File path is empty: " +:+ file_path))).

Definition fetch_current_pair (step : Z) : G unit :=
  let+ self := this in
  let+ name := item (file_base_names self) (current_index self) in
  save_text (name +:+ ".gt.txt") >>>
  let new_index := (Z.of_nat (current_index self) + step)%Z in
  if (0 <=? new_index)%Z && (new_index <? Z.of_nat (length (file_base_names self)))%Z
  then
    assign (set_current_index (Z.to_nat new_index)) >>>
    let+ name := item (file_base_names self) (Z.to_nat new_index) in
    load_pair name
  else gret tt.

Definition load_previous : G unit := fetch_current_pair (-1).
Definition load_next : G unit := fetch_current_pair 1.

Definition remove_current_pair : G unit :=
  let+ self := this in
  if nonempty (file_base_names self) then
    let+ file_base_name := item (file_base_names self) (current_index self) in
    lift (os_remove (file_base_name +:+ ".tif")) >>>
    lift (os_remove (file_base_name +:+ ".gt.txt")) >>>
    lift (log_removed_pair (base_path self) file_base_name) >>>
    let names := delete (current_index self) (file_base_names self) in
    assign (set_file_base_names names) >>>
    if nonempty names then
      let+ name := item names (current_index self) in
      load_pair name
    else
      assign (set_image_label (LabelText "No image loaded")) >>>
      assign (set_text_editor "")
  else gret tt.

(** [set_ground_truth_base_path] once the dialog has returned
    [directory], the empty string when it was cancelled. *)
Definition set_ground_truth_base_path (directory : string) : G unit :=
  if Py.truthy directory then
    assign (set_base_path directory) >>>
    assign (set_settings_base_path directory) >>>
    let+ names := lift (get_file_base_names directory) in
    assign (set_file_base_names names) >>>
    assign (set_current_index 0) >>>
    if nonempty names then
      let+ name := item names 0 in
      load_pair name >>>
      assign (set_path_label ("Base Path: " +:+ directory))
    else gret tt
  else gret tt.

(** [ImageTextWindow.train_model]: the trainer of the window is always
    that of the model [deu]. *)
Definition window_trainer (g : window) : ModelTrainer :=
  {| model_name := "deu"; base_dir := base_path g;
     tessdata_dir := "/usr/share/tessdata" |}.

Definition window_train_model `{Environment} : G unit :=
  let+ self := this in
  lift (train_model (window_trainer self)).

End Window.
(** ** Vocabulary of the properties *)

(** Names without a slash. *)
Fixpoint no_slash (s : string) : bool :=
  match s with
  | "" => true
  | String c r => negb (Ascii.eqb c "/"%char) && no_slash r
  end.

(** A name that resolves to itself: a single, ordinary component. *)
Definition plain (n : string) : bool :=
  no_slash n && negb (String.eqb n "") && negb (String.eqb n ".")
  && negb (String.eqb n "..").

(** Opening a path for appending leaves an existing file alone and creates
    an empty one otherwise. *)
Definition touch (p : path) (m : gmap path node) : gmap path node :=
  match m !! p with
  | Some _ => m
  | None => <[p := File ""]> m
  end.

(** Writing lines, one after the other, through a handle opened on [p]. *)
Fixpoint append_all (p : path) (lines : list string) (m : gmap path node)
  : gmap path node :=
  match lines with
  | [] => m
  | l :: r =>
      append_all p r
        (match m !! p with
         | Some (File d) => <[p := File (d +:+ l)]> m
         | _ => m
         end)
  end.

(** All the lines of a child, as one text. *)
Definition text_of (lines : list string) : string :=
  foldr String.append "" lines.

(** The path [s] can be opened for writing: it is not a directory and the
    directory it lies in exists. *)
Definition openable (m : gmap path node) (s : string) : Prop :=
  is_dir m (parent (resolve s)) = true ∧ is_dir m (resolve s) = false.

(** The record [run_command] emits once the child has exited. *)
Definition verdict (c : completed) (command : string) : log_record :=
  if negb (returncode c =? 0)%Z
  then LogRecord ERROR ("Command failed with return code "
                        +:+ Py.fmt_int (returncode c) +:+ ": " +:+ command) None
  else LogRecord INFO ("Command completed successfully: " +:+ command) None.

(** The child [run_command] spawns for [command] in the world [w]: it
    starts once the log file is open. *)
Definition child `{Environment} (self : ModelTrainer) (command : string)
    (w : world) : completed :=
  exec command (touch (resolve (log_file_path self)) (fs w)).

(** The world a completed [run_command] leaves. *)
Definition ran `{Environment} (self : ModelTrainer) (command : string)
    (w : world) : world :=
  let c := child self command w in
  World (append_all (resolve (log_file_path self)) (out_lines c) (fs_after c))
        (console w ++ out_lines c)
        (loguru w ++ [verdict c command])
        (spawned w ++ [command]).

(** One more record in the log of [loguru], nothing else changed. *)
Definition logged (r : log_record) (w : world) : world :=
  World (fs w) (console w) (loguru w ++ [r]) (spawned w).

Definition info (s : string) : log_record := LogRecord INFO s None.
Definition error (s : string) (e : exn) : log_record := LogRecord ERROR s (Some e).

(** The text of the log file of [self], empty when there is none. *)
Definition log_text (self : ModelTrainer) (m : gmap path node) : string :=
  match m !! resolve (log_file_path self) with
  | Some (File d) => d
  | _ => ""
  end.

(** Nothing exists at [p] or below it. *)
Definition absent (m : gmap path node) (p : path) : Prop :=
  ∀ q, p `prefix_of` q → m !! q = None.

(** The file system lets [self] run commands and list its images: the
    output directory and the ground-truth directory exist, and the log
    file is not a directory. *)
Definition ready (self : ModelTrainer) (m : gmap path node) : Prop :=
  is_dir m (resolve (finetuned_dir self)) = true
  ∧ is_dir m (resolve (log_file_path self)) = false
  ∧ is_dir m (resolve (ground_truth_dir self)) = true.

(** The commands [train_model] hands to the shell for [self], when
    [names] are the names the feature step finds in the ground-truth
    directory. *)
Inductive issued (self : ModelTrainer) (names : list string) : string → Prop :=
| issued_extract : issued self names (extract_command self)
| issued_tesseract (file : string) :
    In file names → is_image_name file = true →
    issued self names (tesseract_command self file)
| issued_find : issued self names (find_command self)
| issued_unicharset : issued self names (unicharset_command self)
| issued_purge : issued self names (purge_command self)
| issued_training (iterations : Z) :
    issued self names (lstmtraining_command self iterations)
| issued_convert : issued self names (convert_command self)
| issued_eval : issued self names (eval_command self).

(** None of the commands of the pipeline takes these directories away or
    puts a directory in the place of the log file.  Nothing is asked of
    any other command. *)
Definition well_behaved `{Environment} (self : ModelTrainer) (names : list string)
  : Prop :=
  ∀ command m, issued self names command →
    ready self m → ready self (fs_after (exec command m)).

(** The listing of the ground-truth directory that the feature step
    goes through: the one the first three steps leave. *)
Definition listed `{Environment} (self : ModelTrainer) (w : world) : list string :=
  entries
    (fs ((extract_base_lstm self >> prepare_directories self >>
          generate_box_files self) w).2)
    (resolve (ground_truth_dir self)).

(** A step that spawns nothing, prints nothing, and neither makes nor
    removes a directory. *)
Definition quiet (w w' : world) : Prop :=
  (∀ q, is_dir (fs w') q = is_dir (fs w) q)
  ∧ spawned w' = spawned w
  ∧ console w' = console w.

Definition quietly {A} (m : M A) : Prop :=
  ∀ w r w', m w = (r, w') → quiet w w'.

(** A path string that names what it resolves to: it is not empty, which
    Python takes for no path at all, and it never steps back with [..],
    which the system follows through the directories that are there. *)
Definition direct (s : string) : bool :=
  Py.truthy s && forallb (λ c, negb (String.eqb c "..")) (Py.split "/"%char s).

(** A job can start: the base directory is named directly and exists, the
    log file is not a directory, and the output directory either exists
    or is yet to be made, with nothing in its place. *)
Definition startable (self : ModelTrainer) (m : gmap path node) : Prop :=
  direct (base_dir self) = true
  ∧ is_dir m (resolve (ground_truth_dir self)) = true
  ∧ is_dir m (resolve (log_file_path self)) = false
  ∧ (is_dir m (resolve (finetuned_dir self)) = true
     ∨ absent m (resolve (finetuned_dir self))).

(** The path [s] leads to a file whose content is [d]. *)
Definition holds (m : gmap path node) (s d : string) : Prop :=
  stat m (resolve s) = Some (File d).

(** What reading the picture of [file] gives: its size, or the error of
    opening or decoding it. *)
Definition picture `{Environment} (self : ModelTrainer) (file : string)
    (m : gmap path node) : result (nat * nat) :=
  match stat m (resolve (image_path_of self file)) with
  | Some (File bytes) =>
      match image_size bytes with
      | Some size => Ok size
      | None => Raise (UnidentifiedImageError (image_path_of self file))
      end
  | Some Dir => Raise (IsADirectoryError (image_path_of self file))
  | None => Raise (unreachable m (image_path_of self file))
  end.

(** The check [get_file_base_names] makes on one name of the listing. *)
Definition gt_of (base_path file_name : string) : string :=
  Py.path_join base_path ((Py.splitext file_name).1 +:+ ".gt.txt").

Definition tif_of (base_path file_name : string) : string :=
  Py.path_join base_path (Py.remove_dot_gt (Py.splitext file_name).1 +:+ ".tif").

Definition pair_ok (base_path : string) (m : gmap path node) (file_name : string) : bool :=
  if Py.endswith file_name ".tif" then exists_ m (resolve (gt_of base_path file_name))
  else if Py.endswith file_name ".gt.txt" then exists_ m (resolve (tif_of base_path file_name))
  else true.

Definition pair_error (file_name : string) : exn :=
  if Py.endswith file_name ".tif"
  then FileNotFoundError ("Ground truth file not found for " +:+ file_name)
  else FileNotFoundError ("Image file not found for " +:+ file_name).

(** The base paths of the [.tif] names of a listing, in its order. *)
Definition base_paths (base_path : string) (names : list string) : list string :=
  map (λ n, Py.path_join base_path (Py.splitext n).1)
      (List.filter (λ n, Py.endswith n ".tif") names).

(** [n] without its ending [x], when it ends with [x]. *)
Fixpoint strip_suffix (n x : string) : option string :=
  if String.eqb n x then Some ""
  else match n with
       | "" => None
       | String c r => option_map (String c) (strip_suffix r x)
       end.

(** The file that goes with a name of the listing: [x.gt.txt] with
    [x.tif], and [x.tif] with [x.gt.txt]. *)
Definition counterpart (n : string) : option string :=
  match strip_suffix n ".tif" with
  | Some stem => Some (stem +:+ ".gt.txt")
  | None =>
      match strip_suffix n ".gt.txt" with
      | Some stem => Some (stem +:+ ".tif")
      | None => None
      end
  end.

(** [.gt] occurs in [s]. *)
Fixpoint has_dot_gt (s : string) : bool :=
  Py.startswith s ".gt"
  || match s with "" => false | String _ r => has_dot_gt r end.

(** The names discovery is stated for: entries of a directory, which
    have no slash; in front of [.tif], a stem that is not empty or made
    of dots; in front of [.gt.txt], a stem in which [.gt] does not
    occur. *)
Definition regular (n : string) : bool :=
  no_slash n
  && match strip_suffix n ".tif" with
     | Some stem => negb (Py.all_dots stem)
     | None =>
         match strip_suffix n ".gt.txt" with
         | Some stem => negb (has_dot_gt stem)
         | None => true
         end
     end.

(** The base path [<base_path>/x] of every [x.tif] of a listing, in its
    order. *)
Definition stems (base_path : string) (names : list string) : list string :=
  omap (λ n, option_map (Py.path_join base_path) (strip_suffix n ".tif")) names.

(** Strings that [splitlines] leaves in one piece. *)
Fixpoint no_break (s : string) : bool :=
  match s with
  | "" => true
  | String c r => negb (Py.is_cr c) && negb (Py.islinebreak c) && no_break r
  end.

(** The text [log_removed_pair] builds up: every name ends its line. *)
Definition tombstone_text (names : list string) : string :=
  foldr (λ n acc, n +:+ Py.nl +:+ acc) "" names.

(** [removed_pairs.txt], where it is a file, holds names written whole. *)
Definition tombstones_ok (base_path : string) (m : gmap path node) : Prop :=
  ∀ d, m !! resolve (removed_pairs_file base_path) = Some (File d) →
       ∃ names, Forall (λ n, no_break n = true) names ∧ d = tombstone_text names.

(** A step that changes no entry of the file system outside [P]. *)
Definition keeps {A} (P : path → Prop) (m : M A) : Prop :=
  ∀ w r w' q, m w = (r, w') → ¬ P q → fs w' !! q = fs w !! q.

(** The purge command of [self] has its POSIX meaning: the name of the
    output directory reaches [rm] as it is written, and where that
    directory exists the environment runs the command as [/bin/sh] and
    [rm] are specified. *)
Definition posix_purge `{Environment} (self : ModelTrainer) : Prop :=
  Shell.word (finetuned_dir self) = true
  ∧ ∀ m, is_dir m (resolve (finetuned_dir self)) = true →
         exec (purge_command self) m = Shell.purge (finetuned_dir self) m.

(** A method of the window that only looks: it leaves the world, the
    list of pairs, the index and the base path as they are. *)
Definition browses {A} (m : G A) : Prop :=
  ∀ g w, (m g w).2 = w
         ∧ file_base_names (m g w).1.2 = file_base_names g
         ∧ current_index (m g w).1.2 = current_index g
         ∧ base_path (m g w).1.2 = base_path g.

(** ** A small installation, to run the definitions on *)

Module Toy.

Definition trainer : ModelTrainer :=
  {| model_name := "deu"; base_dir := "/gt"; tessdata_dir := "/usr/share/tessdata" |}.

(** Every tool fails with status 1 after one line of output and leaves
    the file system alone. *)
Definition failing_tools (command : string) (m : gmap path node) : completed :=
  Completed ["oops" +:+ Py.nl] 1 m.

(** A decoder that knows one picture, 100 pixels wide and 50 high. *)
Definition decoder (bytes : string) : option (nat * nat) :=
  if String.eqb bytes "picture-100x50" then Some (100, 50) else None.

#[global] Instance env : Environment := {|
  exec := Shell.sh trainer failing_tools;
  image_size := decoder;
  nfc := λ s, s;
  get_display := λ s, s
|}.

Definition world_of (m : gmap path node) : world := World m [] [] [].

(** A ground-truth directory before the first training run. *)
Definition fresh : gmap path node :=
  list_to_map [
    (["gt"], Dir);
    (["gt"; "a.png"], File "picture-100x50");
    (["gt"; "a.gt.txt"], File ("abc" +:+ Py.nl))
  ].

(** The same directory once the output directory exists. *)
Definition prepared : gmap path node :=
  <[ ["gt"; "deu_finetuned"] := Dir ]> fresh.

(** One more pair, whose transcription is empty. *)
Definition unlabelled : gmap path node :=
  <[ ["gt"; "b.tif"] := File "picture-100x50" ]>
    (<[ ["gt"; "b.gt.txt"] := File "" ]> prepared).

(** One more pair, transcribed on two lines. *)
Definition two_lines : gmap path node :=
  <[ ["gt"; "c.tif"] := File "picture-100x50" ]>
    (<[ ["gt"; "c.gt.txt"] := File ("abc" +:+ Py.nl +:+ "def" +:+ Py.nl) ]> prepared).

(** One more pair, whose transcription ends with blank lines. *)
Definition trailing : gmap path node :=
  <[ ["gt"; "d.tif"] := File "picture-100x50" ]>
    (<[ ["gt"; "d.gt.txt"] := File ("abc" +:+ Py.nl +:+ Py.nl +:+ Py.nl) ]> prepared).

(** A directory with one picture and no transcription. *)
Definition lonely : gmap path node :=
  list_to_map [ (["gt"], Dir); (["gt"; "a.png"], File "picture-100x50") ].

(** A directory with one complete [.tif] pair. *)
Definition paired : gmap path node :=
  list_to_map [ (["gt"], Dir); (["gt"; "b.tif"], File "picture-100x50");
                (["gt"; "b.gt.txt"], File ("xyz" +:+ Py.nl)) ].

(** A directory with one [.tif] and no transcription. *)
Definition halved : gmap path node :=
  list_to_map [ (["gt"], Dir); (["gt"; "b.tif"], File "picture-100x50") ].

(** A complete pair whose stem ends in [.gt]. *)
Definition gt_stem : gmap path node :=
  list_to_map [ (["gt"], Dir); (["gt"; "x.gt.tif"], File "picture-100x50");
                (["gt"; "x.gt.gt.txt"], File ("xyz" +:+ Py.nl)) ].

End Toy.

Module ToyStore.

(** A directory whose tombstone file names one removed pair. *)
Definition buried : gmap path node :=
  list_to_map [ (["gt"], Dir);
                (["gt"; "removed_pairs.txt"], File ("/gt/old" +:+ Py.nl)) ].

(** A directory without tombstone file. *)
Definition clean : gmap path node :=
  list_to_map [ (["gt"], Dir) ].

End ToyStore.

Module ToyBlocked.

(** A regular file sits where the output directory should be. *)
Definition blocked : gmap path node :=
  list_to_map [ (["gt"], Dir); (["gt"; "deu_finetuned"], File "not a directory") ].

End ToyBlocked.

Module ToyUsed.

(** An output directory after an earlier run. *)
Definition used : gmap path node :=
  <[ ["gt"; "deu_finetuned"; "deu_finetuned.log"] := File ("earlier output" +:+ Py.nl) ]>
    (<[ ["gt"; "deu_finetuned"; "deu_checkpoint"] := File "weights" ]> Toy.prepared).

(** The same, with an entry whose name starts with a dot. *)
Definition with_history : gmap path node :=
  <[ ["gt"; "deu_finetuned"; ".history"] := File "kept" ]> used.

End ToyUsed.

Module ToyVerbose.

(** A command that removes the log file of [Toy.trainer] and says so. *)
Definition remove_log : string := "rm -v /gt/deu_finetuned/deu_finetuned.log".

Definition tools (command : string) (m : gmap path node) : completed :=
  if String.eqb command remove_log then
    Completed ["removed '/gt/deu_finetuned/deu_finetuned.log'" +:+ Py.nl] 0
      (delete ["gt"; "deu_finetuned"; "deu_finetuned.log"] m)
  else Toy.failing_tools command m.

(** The installation of [Toy], with an [rm] among its tools. *)
Definition env : Environment := {|
  exec := Shell.sh Toy.trainer tools;
  image_size := Toy.decoder;
  nfc := λ s, s;
  get_display := λ s, s
|}.

End ToyVerbose.

Module ToyWindow.

#[global] Instance toolkit : Toolkit := {|
  pixmap_size := Toy.decoder;
  line_edit_text := λ s, s
|}.

(** Two complete pairs, [a] and [b]. *)
Definition two_pairs : gmap path node :=
  list_to_map [
    (["gt"], Dir);
    (["gt"; "a.tif"], File "picture-100x50");
    (["gt"; "a.gt.txt"], File "first");
    (["gt"; "b.tif"], File "picture-100x50");
    (["gt"; "b.gt.txt"], File "second")
  ].

(** The window on these pairs, showing the pair at [index]. *)
Definition showing (index : nat) (text : string) : window :=
  {| base_path := "/gt"; file_base_names := ["/gt/a"; "/gt/b"];
     current_index := index; settings_base_path := "/gt";
     image_label := LabelPixmap 200 100; text_editor := text;
     path_label := "Base Path: /gt"; window_title := "a.tif" |}.

End ToyWindow.

Module ToyDotted.

(** A complete pair whose stem has a dot in it. *)
Definition dotted : gmap path node :=
  list_to_map [
    (["gt"], Dir);
    (["gt"; "page.1.tif"], File "picture-100x50");
    (["gt"; "page.1.gt.txt"], File "text")
  ].

End ToyDotted.
(** * Properties *)

(** ** Strings and paths *)

Lemma app_cons (c : ascii) (a b : string) : String c a +:+ b = String c (a +:+ b).
Proof. reflexivity. Qed.

Lemma app_nil_l (b : string) : "" +:+ b = b.
Proof. reflexivity. Qed.

(** [String.append] is kept folded by [simpl]; unfold it by rewriting. *)
Ltac ssimpl := repeat (rewrite ?app_cons, ?app_nil_l; simpl).

Lemma string_app_assoc (a b c : string) : (a +:+ b) +:+ c = a +:+ b +:+ c.
Proof. induction a as [|x a IH]; ssimpl; [done | by rewrite IH]. Qed.

Lemma string_app_nil_r (a : string) : a +:+ "" = a.
Proof. induction a as [|x a IH]; ssimpl; [done | by rewrite IH]. Qed.

Lemma endswith_inv (s x : string) :
  Py.endswith s x = true → ∃ a, s = a +:+ x.
Proof.
  induction s as [|c s IH]; intros Hs; cbn [Py.endswith] in Hs.
  - apply orb_true_iff in Hs as [Hs | Hs]; [| done].
    apply String.eqb_eq in Hs. exists "". by subst.
  - apply orb_true_iff in Hs as [Hs | Hs].
    + apply String.eqb_eq in Hs. exists "". by subst.
    + destruct (IH Hs) as [a ->]. by exists (String c a).
Qed.

Lemma endswith_app (a x : string) : Py.endswith (a +:+ x) x = true.
Proof.
  induction a as [|c a IH]; rewrite ?app_cons, ?app_nil_l; cbn [Py.endswith].
  - destruct x; cbn [Py.endswith]; by rewrite String.eqb_refl.
  - rewrite IH. apply orb_true_r.
Qed.

Lemma no_slash_app (a b : string) :
  no_slash (a +:+ b) = no_slash a && no_slash b.
Proof. induction a as [|c a IH]; ssimpl; [done |]. rewrite IH. by rewrite andb_assoc. Qed.

Lemma split_no_slash (n : string) :
  no_slash n = true → Py.split "/"%char n = [n].
Proof.
  induction n as [|c n IH]; simpl; [done |].
  intros [Hc Hn]%andb_true_iff. apply negb_true_iff in Hc. rewrite Hc.
  by rewrite (IH Hn).
Qed.

Lemma split_nonempty (sep : ascii) (s : string) : Py.split sep s ≠ [].
Proof. induction s as [|c s IH]; simpl; [done |]. destruct (Ascii.eqb c sep); [done |]. by destruct (Py.split sep s). Qed.

Lemma split_app_sep (sep : ascii) (a b : string) :
  Py.split sep (a +:+ String sep b) = Py.split sep a ++ Py.split sep b.
Proof.
  induction a as [|c a IH]; ssimpl.
  - by rewrite Ascii.eqb_refl.
  - destruct (Ascii.eqb c sep); [by rewrite IH |].
    rewrite IH. pose proof (split_nonempty sep a).
    by destruct (Py.split sep a).
Qed.

Lemma resolve_app_slash (a b : string) :
  resolve (a +:+ "/" +:+ b) = fold_left step (Py.split "/"%char b) (resolve a).
Proof. unfold resolve. ssimpl. by rewrite split_app_sep, fold_left_app. Qed.

Lemma step_plain (acc : path) (n : string) : plain n = true → step acc n = acc ++ [n].
Proof.
  unfold plain, step. intros [[[_ H1]%andb_true_iff H2]%andb_true_iff H3]%andb_true_iff.
  apply negb_true_iff in H1, H2, H3. by rewrite H1, H2, H3.
Qed.

Lemma plain_no_slash (n : string) : plain n = true → no_slash n = true.
Proof. unfold plain. by intros [[[? _]%andb_true_iff _]%andb_true_iff _]%andb_true_iff. Qed.

Lemma resolve_slash_plain (a n : string) :
  plain n = true → resolve (a +:+ "/" +:+ n) = resolve a ++ [n].
Proof.
  intros Hn. rewrite resolve_app_slash, (split_no_slash n (plain_no_slash n Hn)).
  simpl. by apply step_plain.
Qed.

Lemma resolve_plain (n : string) : plain n = true → resolve n = [n].
Proof.
  intros Hn. unfold resolve. rewrite (split_no_slash n (plain_no_slash n Hn)).
  simpl. by rewrite step_plain.
Qed.

Lemma resolve_trailing_slash (a : string) : resolve (a +:+ "/") = resolve a.
Proof. change (resolve (a +:+ "/" +:+ "") = resolve a). by rewrite resolve_app_slash. Qed.

Lemma no_slash_not_absolute (n : string) :
  no_slash n = true → Py.startswith n "/" = false.
Proof.
  destruct n as [|c n]; simpl; [done |].
  intros [Hc _]%andb_true_iff. apply negb_true_iff in Hc. by rewrite Hc.
Qed.

(** [os.path.join] with a plain name adds one component. *)
Lemma resolve_path_join (a n : string) :
  plain n = true → resolve (Py.path_join a n) = resolve a ++ [n].
Proof.
  intros Hn. unfold Py.path_join.
  rewrite (no_slash_not_absolute n (plain_no_slash n Hn)).
  destruct (negb (Py.truthy a)) eqn:Ht; simpl orb; cbv iota.
  - destruct a; [| done]. simpl. by apply resolve_plain.
  - destruct (Py.endswith a "/") eqn:He.
    + destruct (endswith_inv _ _ He) as [a' ->].
      rewrite string_app_assoc. rewrite resolve_trailing_slash.
      by apply resolve_slash_plain.
    + by apply resolve_slash_plain.
Qed.

(** ** The monad *)

Lemma world_eta (w : world) : World (fs w) (console w) (loguru w) (spawned w) = w.
Proof. by destruct w. Qed.

Lemma set_fs_same (w : world) : set_fs (fs w) w = w.
Proof. by destruct w. Qed.

Lemma bind_ok {A B} (m : M A) (k : A → M B) (w w' : world) (a : A) :
  m w = (Ok a, w') → bind m k w = k a w'.
Proof. unfold bind. by intros ->. Qed.

Lemma bind_raise {A B} (m : M A) (k : A → M B) (w w' : world) (e : exn) :
  m w = (Raise e, w') → bind m k w = (Raise e, w').
Proof. unfold bind. by intros ->. Qed.

Lemma logger_info_eq (s : string) (w : world) :
  logger_info s w = (Ok tt, logged (info s) w).
Proof. reflexivity. Qed.

Lemma logger_error_eq (s : string) (e : exn) (w : world) :
  logger_error s (Some e) w = (Ok tt, logged (error s e) w).
Proof. reflexivity. Qed.

Lemma fs_logged (r : log_record) (w : world) : fs (logged r w) = fs w.
Proof. reflexivity. Qed.

Lemma spawned_logged (r : log_record) (w : world) : spawned (logged r w) = spawned w.
Proof. reflexivity. Qed.

(** ** Files *)

Lemma is_dir_root (m : gmap path node) : is_dir m [] = true.
Proof. reflexivity. Qed.

Lemma stat_lookup (m : gmap path node) (p : path) :
  p ≠ [] → stat m p = m !! p.
Proof. by destruct p. Qed.

Lemma is_dir_insert_file (m : gmap path node) (p q : path) (d : string) :
  m !! p ≠ Some Dir → is_dir (<[p := File d]> m) q = is_dir m q.
Proof.
  intros Hp. destruct q as [|c q]; [done |].
  unfold is_dir, stat. destruct (decide (p = c :: q)) as [-> | Hne].
  - rewrite lookup_insert_eq. by destruct (m !! (c :: q)) as [[] |].
  - by rewrite lookup_insert_ne.
Qed.

Lemma is_dir_touch (m : gmap path node) (p q : path) :
  is_dir (touch p m) q = is_dir m q.
Proof.
  unfold touch. destruct (m !! p) eqn:Hp; [done |].
  destruct q as [|c q]; [done |]. unfold is_dir, stat.
  destruct (decide (p = c :: q)) as [-> | Hne].
  - by rewrite lookup_insert_eq, Hp.
  - by rewrite lookup_insert_ne.
Qed.

Lemma touch_lookup (m : gmap path node) (p : path) :
  touch p m !! p = Some (default (File "") (m !! p)).
Proof.
  unfold touch. destruct (m !! p) eqn:Hp; simpl; [done |].
  by rewrite lookup_insert_eq.
Qed.

Lemma touch_lookup_ne (m : gmap path node) (p q : path) :
  p ≠ q → touch p m !! q = m !! q.
Proof.
  intros Hne. unfold touch. destruct (m !! p); [done |].
  by rewrite lookup_insert_ne.
Qed.

Lemma open_for_append_ok (s : string) (w : world) :
  openable (fs w) s →
  open_append s w = (Ok tt, set_fs (touch (resolve s) (fs w)) w).
Proof.
  intros [Hpar Hnd]. unfold open_append, open_for, touch.
  destruct (resolve s) as [|c p] eqn:Hp; [done |].
  unfold is_dir in Hnd. rewrite stat_lookup in * by done.
  destruct (fs w !! (c :: p)) as [[d |] |] eqn:Hl; [| done |].
  - by rewrite set_fs_same.
  - by rewrite Hpar.
Qed.

Lemma open_for_missing_dir (truncate : bool) (s : string) (w : world) :
  stat (fs w) (resolve s) = None →
  is_dir (fs w) (parent (resolve s)) = false →
  open_for truncate s w = (Raise (unreachable (fs w) s), w).
Proof. intros Hs Hp. unfold open_for. by rewrite Hs, Hp. Qed.

Lemma append_all_file (p : path) (lines : list string) (m : gmap path node) (d : string) :
  m !! p = Some (File d) →
  append_all p lines m = <[p := File (d +:+ text_of lines)]> m.
Proof.
  revert m d. induction lines as [|l r IH]; intros m d Hm; simpl.
  - rewrite string_app_nil_r. by rewrite insert_id.
  - rewrite Hm. rewrite (IH _ (d +:+ l)) by apply lookup_insert_eq.
    by rewrite insert_insert_eq, string_app_assoc.
Qed.

Lemma append_all_gone (p : path) (lines : list string) (m : gmap path node) :
  (∀ d, m !! p ≠ Some (File d)) → append_all p lines m = m.
Proof.
  intros Hm. induction lines as [|l r IH]; simpl; [done |].
  destruct (m !! p) as [[d |] |] eqn:Hl; [by destruct (Hm d) | done | done].
Qed.

Lemma append_all_lookup_ne (p q : path) (lines : list string) (m : gmap path node) :
  p ≠ q → append_all p lines m !! q = m !! q.
Proof.
  intros Hne. destruct (m !! p) as [[d |] |] eqn:Hl.
  - rewrite (append_all_file _ _ _ d) by done. by rewrite lookup_insert_ne.
  - rewrite append_all_gone; [done | intros d; by rewrite Hl].
  - rewrite append_all_gone; [done | intros d; by rewrite Hl].
Qed.

Lemma is_dir_append_all (p q : path) (lines : list string) (m : gmap path node) :
  is_dir (append_all p lines m) q = is_dir m q.
Proof.
  destruct (m !! p) as [[d |] |] eqn:Hl.
  - rewrite (append_all_file _ _ _ d) by done.
    destruct q as [|c q]; [done |]. unfold is_dir, stat.
    destruct (decide (p = c :: q)) as [<- | Hne].
    + by rewrite lookup_insert_eq, Hl.
    + by rewrite lookup_insert_ne.
  - rewrite append_all_gone; [done | intros d; by rewrite Hl].
  - rewrite append_all_gone; [done | intros d; by rewrite Hl].
Qed.

(** The loop of [run_command] over the lines of the child. *)
Lemma forward_lines (s : string) (lines : list string) (w : world) :
  for_each lines (λ line, print line >> handle_write s line) w
  = (Ok tt, World (append_all (resolve s) lines (fs w)) (console w ++ lines)
                  (loguru w) (spawned w)).
Proof.
  revert w. induction lines as [|l r IH]; intros w; simpl.
  - unfold ret. by rewrite app_nil_r, world_eta.
  - unfold bind at 1. unfold bind at 1. unfold print at 1. unfold handle_write at 1.
    simpl. destruct (fs w !! resolve s) as [[d |] |] eqn:Hl; simpl;
      rewrite IH; simpl; by rewrite <- app_assoc.
Qed.

Section RunCommand.
Context `{Environment}.
Variable self : ModelTrainer.

Lemma run_command_ok (command : string) (w : world) :
  openable (fs w) (log_file_path self) →
  run_command self command w = (Ok tt, ran self command w).
Proof.
  intros Hopen. unfold run_command.
  rewrite (bind_ok _ _ _ _ _ (open_for_append_ok _ _ Hopen)).
  unfold bind at 1. unfold popen at 1. simpl.
  unfold bind at 1. rewrite forward_lines. simpl.
  unfold ran, child, verdict.
  by destruct (negb (returncode _ =? 0)%Z).
Qed.

Lemma run_command_raises (command : string) (w : world) :
  stat (fs w) (resolve (log_file_path self)) = None →
  is_dir (fs w) (parent (resolve (log_file_path self))) = false →
  run_command self command w
  = (Raise (unreachable (fs w) (log_file_path self)), w).
Proof.
  intros Hs Hp. unfold run_command. apply bind_raise.
  by apply open_for_missing_dir.
Qed.

End RunCommand.

(** ** The paths of a trainer *)

Lemma length_app_string (a b : string) :
  String.length (a +:+ b) = String.length a + String.length b.
Proof. induction a as [|c a IH]; ssimpl; [done | by rewrite IH]. Qed.

Lemma plain_suffixed (a b : string) :
  no_slash a = true → no_slash b = true → 3 ≤ String.length b →
  plain (a +:+ b) = true.
Proof.
  intros Ha Hb Hlen. unfold plain. rewrite no_slash_app, Ha, Hb. simpl.
  assert (Hl : 3 ≤ String.length (a +:+ b)) by (rewrite length_app_string; lia).
  assert (∀ x, String.length x < 3 → String.eqb (a +:+ b) x = false) as Hx.
  { intros x Hxl. apply String.eqb_neq. intros Heq. rewrite Heq in Hl. lia. }
  rewrite !Hx by (simpl; lia). done.
Qed.

Section Paths.
Variable self : ModelTrainer.
Hypothesis Hname : no_slash (model_name self) = true.

Lemma finetuned_resolved :
  resolve (finetuned_dir self)
  = resolve (base_dir self) ++ [model_name self +:+ "_finetuned"].
Proof.
  unfold finetuned_dir. apply resolve_slash_plain.
  apply plain_suffixed; [done | done | simpl; lia].
Qed.

Lemma log_resolved :
  resolve (log_file_path self)
  = resolve (finetuned_dir self) ++ [model_name self +:+ "_finetuned.log"].
Proof.
  unfold log_file_path. apply resolve_path_join.
  apply plain_suffixed; [done | done | simpl; lia].
Qed.

Lemma log_parent :
  parent (resolve (log_file_path self)) = resolve (finetuned_dir self).
Proof. unfold parent. rewrite log_resolved. apply removelast_last. Qed.

Lemma finetuned_parent :
  parent (resolve (finetuned_dir self)) = resolve (ground_truth_dir self).
Proof. unfold parent. rewrite finetuned_resolved. apply removelast_last. Qed.

Lemma finetuned_not_root : resolve (finetuned_dir self) ≠ [].
Proof. rewrite finetuned_resolved. by destruct (resolve (base_dir self)). Qed.

Lemma log_not_root : resolve (log_file_path self) ≠ [].
Proof. rewrite log_resolved. by destruct (resolve (finetuned_dir self)). Qed.

Lemma log_below_finetuned :
  resolve (finetuned_dir self) `prefix_of` resolve (log_file_path self).
Proof. rewrite log_resolved. by apply prefix_app_r. Qed.

Lemma log_not_finetuned :
  resolve (log_file_path self) ≠ resolve (finetuned_dir self).
Proof.
  rewrite log_resolved. intros Heq. apply (f_equal length) in Heq.
  rewrite length_app in Heq. simpl in Heq. lia.
Qed.

End Paths.

(** ** Quiet steps *)

Lemma quiet_refl (w : world) : quiet w w.
Proof. by repeat split. Qed.

Lemma quiet_trans (w1 w2 w3 : world) : quiet w1 w2 → quiet w2 w3 → quiet w1 w3.
Proof.
  intros (Hd & Hs & Hc) (Hd' & Hs' & Hc'). repeat split.
  - intros q. by rewrite Hd', Hd.
  - by rewrite Hs', Hs.
  - by rewrite Hc', Hc.
Qed.

Lemma quietly_ret {A} (a : A) : quietly (ret a).
Proof. intros w r w' [= <- <-]. apply quiet_refl. Qed.

Lemma quietly_raise {A} (e : exn) : quietly (@raise A e).
Proof. intros w r w' [= <- <-]. apply quiet_refl. Qed.

Lemma quietly_bind {A B} (m : M A) (k : A → M B) :
  quietly m → (∀ a, quietly (k a)) → quietly (bind m k).
Proof.
  intros Hm Hk w r w'. unfold bind. destruct (m w) as [[a | e] w1] eqn:Hmw.
  - intros Hkw. eapply quiet_trans; [by eapply Hm | by eapply Hk].
  - intros [= <- <-]. by eapply Hm.
Qed.

Lemma quietly_try {A} (body : M A) (handler : exn → M A) :
  quietly body → (∀ e, quietly (handler e)) → quietly (try_except body handler).
Proof.
  intros Hb Hh w r w'. unfold try_except. destruct (body w) as [[a | e] w1] eqn:Hbw.
  - intros [= <- <-]. by eapply Hb.
  - intros Hhw. eapply quiet_trans; [by eapply Hb | by eapply Hh].
Qed.

Lemma quietly_logger_info (s : string) : quietly (logger_info s).
Proof. intros w r w' [= <- <-]. by repeat split. Qed.

Lemma quietly_logger_error (s : string) (e : option exn) : quietly (logger_error s e).
Proof. intros w r w' [= <- <-]. by repeat split. Qed.

Lemma quietly_read_file (s : string) : quietly (read_file s).
Proof.
  intros w r w'. unfold read_file.
  destruct (stat (fs w) (resolve s)) as [[d |] |]; intros [= <- <-]; apply quiet_refl.
Qed.

Lemma quietly_read_text (s : string) : quietly (read_text s).
Proof.
  apply quietly_bind; [apply quietly_read_file | intros d; apply quietly_ret].
Qed.

Lemma quietly_open_for (truncate : bool) (s : string) : quietly (open_for truncate s).
Proof.
  intros w r w'. unfold open_for.
  destruct (resolve s) as [|c p] eqn:Hp; [intros [= <- <-]; apply quiet_refl |].
  rewrite stat_lookup by done.
  destruct (fs w !! (c :: p)) as [[d |] |] eqn:Hl.
  - destruct truncate; intros [= <- <-]; [| apply quiet_refl].
    repeat split. intros q. simpl. apply is_dir_insert_file. by rewrite Hl.
  - intros [= <- <-]. apply quiet_refl.
  - destruct (is_dir (fs w) (parent (c :: p))); intros [= <- <-]; [| apply quiet_refl].
    repeat split. intros q. simpl. apply is_dir_insert_file. by rewrite Hl.
Qed.

Lemma quietly_handle_write (s text : string) : quietly (handle_write s text).
Proof.
  intros w r w'. unfold handle_write.
  destruct (fs w !! resolve s) as [[d |] |] eqn:Hl; intros [= <- <-];
    try apply quiet_refl.
  repeat split. intros q. simpl. apply is_dir_insert_file. by rewrite Hl.
Qed.

Lemma quietly_for_each {A} (l : list A) (body : A → M unit) :
  (∀ x, quietly (body x)) → quietly (for_each l body).
Proof.
  intros Hb. induction l as [|x l IH]; simpl.
  - apply quietly_ret.
  - apply quietly_bind; [apply Hb | intros _; apply IH].
Qed.

(** A loop whose body never raises never raises. *)
Lemma for_each_total {A} (l : list A) (body : A → M unit) (w : world) :
  (∀ x w, ∃ w', body x w = (Ok tt, w')) →
  ∃ w', for_each l body w = (Ok tt, w').
Proof.
  intros Hb. revert w. induction l as [|x l IH]; intros w; simpl.
  - by exists w.
  - destruct (Hb x w) as [w1 Hw1]. rewrite (bind_ok _ _ _ _ _ Hw1). apply IH.
Qed.

(** ** The box files *)

Section BoxFiles.
Context `{Environment}.
Variable self : ModelTrainer.

Lemma quietly_box_try (file : string) : quietly (box_try self file).
Proof.
  unfold box_try.
  apply quietly_bind; [apply quietly_read_file | intros bytes].
  apply quietly_bind.
  { destruct (image_size bytes); [apply quietly_ret | apply quietly_raise]. }
  intros size. apply quietly_bind; [apply quietly_logger_info | intros _].
  apply quietly_bind; [apply quietly_read_text | intros text].
  apply quietly_bind.
  { destruct (negb _); [apply quietly_raise | apply quietly_ret]. }
  intros _. destruct (Py.truthy _); [| apply quietly_ret].
  apply quietly_bind; [apply quietly_open_for | intros _].
  apply quietly_bind; [apply quietly_handle_write | intros _].
  apply quietly_bind; [apply quietly_handle_write | intros _].
  apply quietly_logger_info.
Qed.

Lemma quietly_box_one (file : string) : quietly (box_one self file).
Proof.
  unfold box_one. destruct (is_image_name file); [| apply quietly_ret].
  apply quietly_bind; [apply quietly_logger_info | intros _].
  apply quietly_try; [apply quietly_box_try | intros e; apply quietly_logger_error].
Qed.

(** The body of the loop catches whatever one image raises. *)
Lemma box_one_total (file : string) (w : world) :
  ∃ w', box_one self file w = (Ok tt, w').
Proof.
  unfold box_one. destruct (is_image_name file); [| by eexists].
  unfold bind at 1. rewrite logger_info_eq. unfold try_except.
  destruct (box_try self file _) as [[[] | e] w1]; by eexists.
Qed.

End BoxFiles.

(** ** Reading and writing one file *)

Lemma read_file_holds (s d : string) (w : world) :
  holds (fs w) s d → read_file s w = (Ok d, w).
Proof. unfold holds, read_file. by intros ->. Qed.

Lemma read_text_holds (s d : string) (w : world) :
  holds (fs w) s d → read_text s w = (Ok (Py.universal_newlines d), w).
Proof.
  intros Hd. unfold read_text. by rewrite (bind_ok _ _ _ _ _ (read_file_holds _ _ _ Hd)).
Qed.

Lemma open_write_ok (s : string) (w : world) :
  openable (fs w) s →
  open_write s w = (Ok tt, set_fs (<[resolve s := File ""]> (fs w)) w).
Proof.
  intros [Hpar Hnd]. unfold open_write, open_for.
  destruct (resolve s) as [|c p] eqn:Hp; [done |].
  unfold is_dir in Hnd. rewrite stat_lookup in * by done.
  destruct (fs w !! (c :: p)) as [[d |] |] eqn:Hl; [done | done |].
  by rewrite Hpar.
Qed.

Lemma handle_write_file (s text d : string) (w : world) :
  fs w !! resolve s = Some (File d) →
  handle_write s text w
  = (Ok tt, set_fs (<[resolve s := File (d +:+ text)]> (fs w)) w).
Proof. intros Hl. unfold handle_write. by rewrite Hl. Qed.

(** [open(s, "w")] followed by two writes and the end of the [with]. *)
Lemma write_two (s a b : string) (k : M unit) (w : world) :
  openable (fs w) s →
  (open_write s >> handle_write s a >> handle_write s b >> k) w
  = k (set_fs (<[resolve s := File (a +:+ b)]> (fs w)) w).
Proof.
  intros Hopen. rewrite (bind_ok _ _ _ _ _ (open_write_ok _ _ Hopen)).
  erewrite bind_ok; [| apply handle_write_file; simpl; apply lookup_insert_eq].
  erewrite bind_ok; [| apply handle_write_file; simpl; apply lookup_insert_eq].
  simpl. by rewrite !insert_insert_eq.
Qed.

(** *** Names and their endings *)

Lemma strip_suffix_Some (n x s : string) : strip_suffix n x = Some s → n = s +:+ x.
Proof.
  revert s. induction n as [|c n IH]; intros s; cbn [strip_suffix].
  - destruct x; simpl; [by intros [= <-] | done].
  - destruct (String.eqb (String c n) x) eqn:He.
    + apply String.eqb_eq in He. intros [= <-]. by rewrite app_nil_l.
    + destruct (strip_suffix n x) as [s' |]; [| done]. simpl.
      intros [= <-]. rewrite app_cons. f_equal. by apply IH.
Qed.

Lemma strip_suffix_app (s x : string) : strip_suffix (s +:+ x) x = Some s.
Proof.
  induction s as [|c s IH].
  - rewrite app_nil_l. destruct x; simpl; [done |]. by rewrite Ascii.eqb_refl, String.eqb_refl.
  - rewrite app_cons. cbn [strip_suffix].
    assert (String.eqb (String c (s +:+ x)) x = false) as ->.
    { apply String.eqb_neq. intros Heq. apply (f_equal String.length) in Heq.
      simpl in Heq. rewrite length_app_string in Heq. lia. }
    by rewrite IH.
Qed.

Lemma endswith_strip (n x : string) :
  Py.endswith n x = true → ∃ s, n = s +:+ x ∧ strip_suffix n x = Some s.
Proof.
  intros (s & ->)%endswith_inv. exists s. split; [done | apply strip_suffix_app].
Qed.

Lemma not_endswith_strip (n x : string) :
  Py.endswith n x = false → strip_suffix n x = None.
Proof.
  intros He. destruct (strip_suffix n x) as [s |] eqn:Hs; [| done].
  apply strip_suffix_Some in Hs as ->. by rewrite endswith_app in He.
Qed.

Lemma rfind_app (c : ascii) (a b : string) :
  Py.rfind c (a +:+ b)
  = match Py.rfind c b with
    | Some i => Some (String.length a + i)
    | None => Py.rfind c a
    end.
Proof.
  induction a as [|d a IH].
  - rewrite app_nil_l. by destruct (Py.rfind c b).
  - rewrite app_cons. cbn [Py.rfind]. rewrite IH.
    by destruct (Py.rfind c b).
Qed.

Lemma rfind_no_slash (s : string) : no_slash s = true → Py.rfind "/"%char s = None.
Proof.
  induction s as [|d s IH]; [done |]. simpl.
  intros [Hd Hs]%andb_true_iff. rewrite IH by done.
  apply negb_true_iff in Hd. by rewrite Hd.
Qed.

Lemma substring_prefix (a b : string) :
  String.substring 0 (String.length a) (a +:+ b) = a.
Proof.
  induction a as [|d a IH].
  - rewrite app_nil_l. simpl. by destruct b.
  - rewrite app_cons. simpl. by rewrite IH.
Qed.

(** The stem [splitext] finds in front of an extension without dot. *)
Lemma splitext_stem (a e : string) :
  no_slash (a +:+ String "."%char e) = true →
  Py.rfind "."%char e = None →
  Py.all_dots a = false →
  (Py.splitext (a +:+ String "."%char e)).1 = a.
Proof.
  intros Hslash He Hdots. unfold Py.splitext.
  rewrite (rfind_no_slash _ Hslash), rfind_app. cbn [Py.rfind]. rewrite He.
  rewrite Ascii.eqb_refl, Nat.add_0_r, Nat.sub_0_r. cbn [Nat.leb andb].
  unfold Py.take. rewrite substring_prefix, Hdots. done.
Qed.

Ltac by_bits c :=
  destruct c as [[] [] [] [] [] [] [] []]; first [reflexivity | congruence].

Lemma remove_dot_gt_other (c : ascii) (r : string) :
  Py.startswith (String c r) ".gt" = false →
  Py.remove_dot_gt (String c r) = String c (Py.remove_dot_gt r).
Proof.
  intros Hs. destruct (Ascii.eqb_spec c "."%char) as [-> | Hc]; [| by_bits c].
  destruct r as [|d r]; [done |].
  destruct (Ascii.eqb_spec d "g"%char) as [-> | Hd]; [| by_bits d].
  destruct r as [|e r]; [done |].
  destruct (Ascii.eqb_spec e "t"%char) as [-> | He]; [by destruct r | by_bits e].
Qed.

Lemma startswith_dot_gt_app (a : string) :
  a ≠ "" → Py.startswith a ".gt" = false → Py.startswith (a +:+ ".gt") ".gt" = false.
Proof.
  intros Ha Hs. destruct a as [|c1 a]; [done |]. rewrite app_cons.
  cbn [Py.startswith] in *. destruct (Ascii.eqb c1 "."%char); [| done].
  cbn [andb] in *.
  destruct a as [|c2 a]; [by vm_compute |]. rewrite app_cons.
  cbn [Py.startswith] in *. destruct (Ascii.eqb c2 "g"%char); [| done].
  cbn [andb] in *.
  destruct a as [|c3 a]; [by vm_compute |]. rewrite app_cons.
  cbn [Py.startswith] in *. destruct (Ascii.eqb c3 "t"%char); [| done].
  by destruct a.
Qed.

Lemma remove_dot_gt_stem (s : string) :
  has_dot_gt s = false → Py.remove_dot_gt (s +:+ ".gt") = s.
Proof.
  induction s as [|c s IH]; [done |]. cbn [has_dot_gt].
  intros [Hs Hr]%orb_false_iff. rewrite app_cons.
  rewrite remove_dot_gt_other.
  - by rewrite IH.
  - rewrite <- app_cons. by apply startswith_dot_gt_app.
Qed.

Lemma all_dots_app (a b : string) :
  Py.all_dots (a +:+ b) = Py.all_dots a && Py.all_dots b.
Proof.
  induction a as [|c a IH]; [by rewrite app_nil_l |].
  rewrite app_cons. simpl. rewrite IH. by rewrite andb_assoc.
Qed.

(** ** The steps of the pipeline, one by one *)

Section Steps.
Context `{Environment}.
Variable self : ModelTrainer.
Hypothesis Hname : no_slash (model_name self) = true.

Lemma ready_openable (m : gmap path node) :
  ready self m → openable m (log_file_path self).
Proof. intros (Hfd & Hlog & _). split; [by rewrite log_parent | done]. Qed.

Lemma out_openable (m : gmap path node) :
  is_dir m (resolve (finetuned_dir self)) = true →
  is_dir m (resolve (log_file_path self)) = false →
  openable m (log_file_path self).
Proof. intros Hfd Hlog. split; [by rewrite log_parent | done]. Qed.

(** [try: run_command(c); logger.info(m) except ...] where the log file
    can be opened. *)
Lemma guarded_open (command done_msg : string) (handler : exn → M unit) (w : world) :
  openable (fs w) (log_file_path self) →
  try_except (run_command self command >> logger_info done_msg) handler w
  = (Ok tt, logged (info done_msg) (ran self command w)).
Proof.
  intros Hopen. unfold try_except. unfold bind. by rewrite run_command_ok.
Qed.

Lemma ready_quiet (w w' : world) :
  quiet w w' → ready self (fs w) → ready self (fs w').
Proof. intros (Hd & _) (H1 & H2 & H3). unfold ready. by rewrite !Hd. Qed.

Lemma run_ready (command : string) (w : world) :
  ready self (fs w) → run_command self command w = (Ok tt, ran self command w).
Proof. intros Hr. apply run_command_ok. by apply ready_openable. Qed.

(** Where nothing is at the output directory, [run_command] raises
    before it spawns anything. *)
Lemma run_fresh (command : string) (w : world) :
  absent (fs w) (resolve (finetuned_dir self)) →
  run_command self command w = (Raise (FileNotFoundError (log_file_path self)), w).
Proof.
  intros Habs. rewrite run_command_raises.
  - unfold unreachable. rewrite (log_parent self Hname).
    assert (is_file (fs w) (resolve (finetuned_dir self)) = false) as ->; [| done].
    unfold is_file. rewrite stat_lookup by by apply finetuned_not_root.
    by rewrite (Habs _ (reflexivity _)).
  - rewrite stat_lookup by by apply log_not_root.
    apply Habs. by apply log_below_finetuned.
  - rewrite (log_parent self Hname). unfold is_dir.
    rewrite stat_lookup by by apply finetuned_not_root.
    by rewrite (Habs _ (reflexivity _)).
Qed.

Lemma extract_fresh (w : world) :
  absent (fs w) (resolve (finetuned_dir self)) →
  extract_base_lstm self w
  = (Ok tt,
     logged (error ("Failed to extract base LSTM for model: "
                    +:+ model_name self +:+ ". Error: ")
                   (FileNotFoundError (log_file_path self)))
       (logged (info ("Extracting base LSTM for model: " +:+ model_name self)) w)).
Proof.
  intros Habs. unfold extract_base_lstm. unfold bind at 1. rewrite logger_info_eq.
  unfold try_except. unfold bind at 1. rewrite run_fresh by done.
  by rewrite logger_error_eq.
Qed.

Variable names : list string.
Hypothesis Hexec : well_behaved self names.

Lemma ran_ready (command : string) (w : world) :
  issued self names command →
  ready self (fs w) → ready self (fs (ran self command w)).
Proof.
  intros Hcmd (H1 & H2 & H3). unfold ran, child. simpl.
  destruct (Hexec command (touch (resolve (log_file_path self)) (fs w)) Hcmd)
    as (E1 & E2 & E3).
  { unfold ready. by rewrite !is_dir_touch. }
  unfold ready. by rewrite !is_dir_append_all.
Qed.

Ltac ready_tac :=
  repeat (rewrite fs_logged || (apply ran_ready; [by constructor |]));
  try assumption.

(** [try: run_command(c); logger.info(m) except ...] where commands can
    run. *)
Lemma guarded_run (command done_msg : string) (handler : exn → M unit) (w : world) :
  ready self (fs w) →
  try_except (run_command self command >> logger_info done_msg) handler w
  = (Ok tt, logged (info done_msg) (ran self command w)).
Proof.
  intros Hr. unfold try_except. unfold bind. by rewrite run_ready.
Qed.

Lemma extract_step (w : world) :
  startable self (fs w) →
  ∃ w1, extract_base_lstm self w = (Ok tt, w1)
    ∧ startable self (fs w1)
    ∧ spawned w1 = spawned w
        ++ (if is_dir (fs w) (resolve (finetuned_dir self))
            then [extract_command self] else []).
Proof.
  intros (Hbase & Hgt & Hlog & [Hfd | Habs]).
  - eexists. unfold extract_base_lstm. unfold bind at 1. rewrite logger_info_eq.
    rewrite guarded_run by done. split; [done |]. rewrite Hfd. split; [| done].
    assert (ready self (fs (ran self (extract_command self)
              (logged (info ("Extracting base LSTM for model: " +:+ model_name self)) w))))
      as (R1 & R2 & R3) by (by ready_tac).
    split; [exact Hbase |]. split; [exact R3 |]. split; [exact R2 | left; exact R1].
  - eexists. rewrite extract_fresh by done. split; [done |].
    split; [by repeat split; [| | | right] |].
    assert (is_dir (fs w) (resolve (finetuned_dir self)) = false) as ->.
    { unfold is_dir. rewrite stat_lookup by by apply finetuned_not_root.
      by rewrite (Habs _ (reflexivity _)). }
    simpl. by rewrite app_nil_r.
Qed.

Lemma makedirs_finetuned (w : world) :
  startable self (fs w) →
  ∃ m, os_makedirs (finetuned_dir self) w = (Ok tt, set_fs m w) ∧ ready self m.
Proof.
  intros (_ & Hgt & Hlog & Hfd). unfold os_makedirs.
  rewrite (finetuned_resolved self Hname).
  rewrite rev_app_distr. simpl.
  rewrite rev_involutive.
  assert (exists_ (fs w) (resolve (base_dir self)) = true) as ->.
  { unfold exists_. unfold is_dir, ground_truth_dir in Hgt.
    by destruct (stat (fs w) (resolve (base_dir self))). }
  unfold mkdir_exist_ok. rewrite <- (finetuned_resolved self Hname).
  destruct Hfd as [Hfd | Habs].
  - assert (stat (fs w) (resolve (finetuned_dir self)) = Some Dir) as ->.
    { unfold is_dir in Hfd.
      by destruct (stat (fs w) (resolve (finetuned_dir self))) as [[d |] |]. }
    exists (fs w). by repeat split.
  - rewrite stat_lookup by by apply finetuned_not_root.
    rewrite (Habs _ (reflexivity _)).
    rewrite (finetuned_parent self Hname), Hgt.
    eexists. split; [done |].
    assert (∀ q, q ≠ resolve (finetuned_dir self) →
      is_dir (<[resolve (finetuned_dir self) := Dir]> (fs w)) q = is_dir (fs w) q) as Hother.
    { intros q Hq. destruct q as [|c q]; [done |]. unfold is_dir, stat.
      by rewrite lookup_insert_ne. }
    repeat split.
    + unfold is_dir. rewrite stat_lookup by by apply finetuned_not_root.
      by rewrite lookup_insert_eq.
    + rewrite Hother; [done | by apply log_not_finetuned].
    + rewrite Hother; [done |]. rewrite <- (finetuned_parent self Hname).
      unfold parent. rewrite (finetuned_resolved self Hname), removelast_last.
      intros Heq. apply (f_equal length) in Heq. rewrite length_app in Heq.
      simpl in Heq. lia.
Qed.

Lemma prepare_step (w : world) :
  startable self (fs w) →
  ∃ w2, prepare_directories self w = (Ok tt, w2)
    ∧ ready self (fs w2) ∧ spawned w2 = spawned w.
Proof.
  intros Hs. destruct (makedirs_finetuned w Hs) as (m & Hm & Hr).
  eexists. unfold prepare_directories. rewrite (bind_ok _ _ _ _ _ Hm).
  rewrite logger_info_eq. split; [done |]. split; [exact Hr | done].
Qed.

Lemma listdir_ready (w : world) :
  ready self (fs w) →
  os_listdir (ground_truth_dir self) w
  = (Ok (entries (fs w) (resolve (ground_truth_dir self))), w).
Proof.
  intros (_ & _ & Hgt). unfold os_listdir. unfold is_dir in Hgt.
  by destruct (stat (fs w) (resolve (ground_truth_dir self))) as [[d |] |].
Qed.

Lemma box_step (w : world) :
  ready self (fs w) →
  ∃ w3, generate_box_files self w = (Ok tt, w3)
    ∧ ready self (fs w3) ∧ spawned w3 = spawned w.
Proof.
  intros Hr. unfold generate_box_files.
  rewrite (bind_ok _ _ _ _ _ (listdir_ready w Hr)).
  destruct (for_each_total (entries (fs w) (resolve (ground_truth_dir self)))
              (box_one self) w (box_one_total self)) as [w3 Hw3].
  exists w3. split; [done |].
  assert (Hq : quiet w w3).
  { eapply quietly_for_each; [| exact Hw3]. intros x. apply quietly_box_one. }
  split; [by eapply ready_quiet | by destruct Hq as (_ & ? & _)].
Qed.

Lemma lstmf_loop (files : list string) (w : world) :
  (∀ f, In f files → In f names) →
  ready self (fs w) →
  ∃ w', for_each files (lstmf_one self) w = (Ok tt, w')
    ∧ ready self (fs w')
    ∧ spawned w' = spawned w
        ++ map (tesseract_command self) (List.filter is_image_name files).
Proof.
  intros Hsub. revert w.
  induction files as [|f files IH]; intros w Hr; simpl.
  - exists w. by rewrite app_nil_r.
  - assert (Hf0 : In f names) by (apply Hsub; by left).
    assert (Hrest : ∀ x, In x files → In x names) by (intros x ?; apply Hsub; by right).
    specialize (IH Hrest).
    unfold lstmf_one at 1. destruct (is_image_name f) eqn:Hf.
    + unfold bind at 1. unfold bind at 1. rewrite logger_info_eq.
      rewrite run_ready by done.
      destruct (IH (ran self (tesseract_command self f)
                      (logged (info ("Generating LSTMF file for image: "
                         +:+ Py.path_join (ground_truth_dir self) f)) w)))
        as (w' & Hw' & Hr' & Hs'); [by apply ran_ready; [constructor |] |].
      exists w'. split; [done |]. split; [done |].
      rewrite Hs'. simpl. by rewrite <- app_assoc.
    + unfold bind at 1. simpl. by apply IH.
Qed.

Lemma lstmf_step (w : world) :
  (∀ f, In f (entries (fs w) (resolve (ground_truth_dir self))) → In f names) →
  ready self (fs w) →
  ∃ w4, generate_lstmf_files self w = (Ok tt, w4)
    ∧ ready self (fs w4)
    ∧ spawned w4 = spawned w
        ++ map (tesseract_command self)
             (List.filter is_image_name (entries (fs w) (resolve (ground_truth_dir self))))
        ++ [find_command self].
Proof.
  intros Hsub Hr. unfold generate_lstmf_files.
  rewrite (bind_ok _ _ _ _ _ (listdir_ready w Hr)).
  destruct (lstmf_loop (entries (fs w) (resolve (ground_truth_dir self))) w Hsub Hr)
    as (w' & Hw' & Hr' & Hs').
  rewrite (bind_ok _ _ _ _ _ Hw').
  unfold bind at 1. rewrite logger_info_eq.
  unfold bind at 1. rewrite run_ready by done.
  rewrite logger_info_eq. eexists. split; [done |].
  split; [by ready_tac |].
  simpl. rewrite Hs'. by rewrite <- app_assoc.
Qed.

Lemma unicharset_step (w : world) :
  ready self (fs w) →
  ∃ w5, generate_unicharset self w = (Ok tt, w5)
    ∧ ready self (fs w5)
    ∧ spawned w5 = spawned w ++ [unicharset_command self].
Proof.
  intros Hr. unfold generate_unicharset. unfold bind at 1. rewrite logger_info_eq.
  rewrite guarded_run by done. eexists. split; [done |].
  split; [by ready_tac | done].
Qed.

Lemma train_step (iterations : Z) (learning_rate error_rate : QArith_base.Q)
    (remove_old : bool) (w : world) :
  ready self (fs w) →
  ∃ w6, train_with self iterations learning_rate error_rate remove_old w = (Ok tt, w6)
    ∧ ready self (fs w6)
    ∧ spawned w6 = spawned w
        ++ (if remove_old then [purge_command self] else [])
        ++ [lstmtraining_command self iterations].
Proof.
  intros Hr. unfold train_with. destruct remove_old.
  - unfold bind at 1. unfold bind at 1. rewrite logger_info_eq.
    rewrite run_ready by done.
    unfold bind at 1. rewrite logger_info_eq.
    rewrite guarded_run by (by ready_tac).
    eexists. split; [done |]. split; [by ready_tac |].
    simpl. by rewrite <- app_assoc.
  - unfold bind at 1. simpl. unfold bind at 1. rewrite logger_info_eq.
    rewrite guarded_run by done. eexists. split; [done |].
    split; [by ready_tac | done].
Qed.

Lemma convert_step (w : world) :
  ready self (fs w) →
  ∃ w7, convert_checkpoint_to_traineddata self w = (Ok tt, w7)
    ∧ ready self (fs w7)
    ∧ spawned w7 = spawned w ++ [convert_command self].
Proof.
  intros Hr. unfold convert_checkpoint_to_traineddata.
  unfold bind at 1. rewrite logger_info_eq.
  rewrite guarded_run by done. eexists. split; [done |].
  split; [by ready_tac | done].
Qed.

Lemma evaluate_step (w : world) :
  ready self (fs w) →
  ∃ w8, evaluate_model self w = (Ok tt, w8)
    ∧ ready self (fs w8)
    ∧ spawned w8 = spawned w ++ [eval_command self].
Proof.
  intros Hr. unfold evaluate_model. unfold bind at 1. rewrite logger_info_eq.
  rewrite guarded_run by done. eexists. split; [done |].
  split; [by ready_tac | done].
Qed.

End Steps.

(** ** The shell commands *)

Lemma strip_prefix_Some (d k r : path) :
  strip_prefix d k = Some r ↔ k = d ++ r.
Proof.
  revert k. induction d as [|c d IH]; intros k; simpl.
  - split; [by intros [= ->] | by intros ->].
  - destruct k as [|c' k]; [done |].
    destruct (String.eqb c c') eqn:Hc.
    + apply String.eqb_eq in Hc as ->. rewrite IH. split; [by intros -> | by intros [= ->]].
    + apply String.eqb_neq in Hc. split; [done | by intros [= -> _]].
Qed.

Lemma strip_prefix_self (d : path) : strip_prefix d d = Some [].
Proof. apply strip_prefix_Some. by rewrite app_nil_r. Qed.

Lemma purged_self (d : path) : Shell.purged d d = false.
Proof. unfold Shell.purged. by rewrite strip_prefix_self. Qed.

Lemma purged_shorter (d q : path) : length q ≤ length d → Shell.purged d q = false.
Proof.
  intros Hlen. unfold Shell.purged.
  destruct (strip_prefix d q) as [[|n r] |] eqn:Hs; [done | | done].
  apply strip_prefix_Some in Hs. subst q. rewrite length_app in Hlen. simpl in Hlen. lia.
Qed.

Lemma rm_rf_glob_kept (d q : path) (m : gmap path node) :
  Shell.purged d q = false → Shell.rm_rf_glob d m !! q = m !! q.
Proof.
  intros Hq. unfold Shell.rm_rf_glob. destruct (is_dir m d); [| done].
  destruct (m !! q) as [x |] eqn:Hm.
  - by apply map_lookup_filter_Some.
  - apply map_lookup_filter_None. by left.
Qed.

Lemma rm_rf_glob_purged (d q : path) (m : gmap path node) :
  is_dir m d = true → Shell.purged d q = true → Shell.rm_rf_glob d m !! q = None.
Proof.
  intros Hd Hq. unfold Shell.rm_rf_glob. rewrite Hd.
  apply map_lookup_filter_None. right. intros x _. simpl. by rewrite Hq.
Qed.

Lemma rm_rf_glob_sub (d q : path) (m : gmap path node) (x : node) :
  Shell.rm_rf_glob d m !! q = Some x → m !! q = Some x.
Proof.
  unfold Shell.rm_rf_glob. destruct (is_dir m d); [| done].
  by intros [? _]%map_lookup_filter_Some.
Qed.

Lemma is_dir_rm_kept (d q : path) (m : gmap path node) :
  Shell.purged d q = false → is_dir (Shell.rm_rf_glob d m) q = is_dir m q.
Proof.
  intros Hq. destruct q as [|c q]; [done |]. unfold is_dir, stat.
  by rewrite rm_rf_glob_kept.
Qed.

Lemma is_dir_rm_false (d q : path) (m : gmap path node) :
  is_dir m q = false → is_dir (Shell.rm_rf_glob d m) q = false.
Proof.
  destruct q as [|c q]; [done |]. unfold is_dir, stat. intros Hq.
  destruct (Shell.rm_rf_glob d m !! (c :: q)) as [[x |] |] eqn:Hl; [done | | done].
  apply rm_rf_glob_sub in Hl. by rewrite Hl in Hq.
Qed.

Lemma is_dir_find_redirect (d f : string) (q : path) (m : gmap path node) :
  is_dir (fs_after (Shell.find_redirect d f m)) q = is_dir m q.
Proof.
  unfold Shell.find_redirect.
  destruct (is_dir m (resolve f)) eqn:Hf; simpl; [done |].
  destruct (negb (is_dir m (parent (resolve f)))); simpl; [done |].
  assert (Hnd : m !! resolve f ≠ Some Dir).
  { intros Hl. unfold is_dir in Hf. destruct (resolve f); [done |].
    simpl in Hf. by rewrite Hl in Hf. }
  destruct (exists_ _ _); simpl.
  - rewrite insert_insert_eq. by apply is_dir_insert_file.
  - by apply is_dir_insert_file.
Qed.

Section ShellBehaves.
Variable self : ModelTrainer.
Hypothesis Hname : no_slash (model_name self) = true.
Variable tools : string → gmap path node → completed.
Hypothesis Htools : ∀ command m, ready self m → ready self (fs_after (tools command m)).

Lemma sh_ready (command : string) (m : gmap path node) :
  ready self m → ready self (fs_after (Shell.sh self tools command m)).
Proof.
  intros (H1 & H2 & H3). unfold Shell.sh.
  destruct (String.eqb command (purge_command self)).
  - unfold Shell.purge. simpl. repeat split.
    + rewrite is_dir_rm_kept; [done | apply purged_self].
    + by apply is_dir_rm_false.
    + rewrite is_dir_rm_kept; [done |]. apply purged_shorter.
      rewrite <- (finetuned_parent self Hname). unfold parent.
      rewrite (finetuned_resolved self Hname), removelast_last, length_app. lia.
  - destruct (String.eqb command (find_command self)).
    + unfold ready. by rewrite !is_dir_find_redirect.
    + by apply Htools.
Qed.

End ShellBehaves.

Section PurgedWorld.
Context `{Environment}.
Variable self : ModelTrainer.
Hypothesis Hname : no_slash (model_name self) = true.

Lemma purge_ready (m : gmap path node) :
  ready self m → ready self (Shell.rm_rf_glob (resolve (finetuned_dir self)) m).
Proof.
  intros (H1 & H2 & H3). repeat split.
  - rewrite is_dir_rm_kept; [done | apply purged_self].
  - by apply is_dir_rm_false.
  - rewrite is_dir_rm_kept; [done |]. apply purged_shorter.
    rewrite <- (finetuned_parent self Hname). unfold parent.
    rewrite (finetuned_resolved self Hname), removelast_last, length_app. lia.
Qed.

(** The file system a purge through [run_command] leaves. *)
Lemma purged_world (w : world) :
  posix_purge self →
  is_dir (fs w) (resolve (finetuned_dir self)) = true →
  fs (ran self (purge_command self) w)
  = Shell.rm_rf_glob (resolve (finetuned_dir self))
      (touch (resolve (log_file_path self)) (fs w)).
Proof.
  intros [_ Hposix] Hfd. unfold ran, child. simpl.
  by rewrite Hposix by by rewrite is_dir_touch.
Qed.

Lemma purged_world_open (w : world) :
  posix_purge self →
  is_dir (fs w) (resolve (finetuned_dir self)) = true →
  is_dir (fs w) (resolve (log_file_path self)) = false →
  is_dir (fs (ran self (purge_command self) w)) (resolve (finetuned_dir self)) = true
  ∧ is_dir (fs (ran self (purge_command self) w)) (resolve (log_file_path self)) = false.
Proof.
  intros Hposix Hfd Hlog. rewrite purged_world by done. split.
  - rewrite is_dir_rm_kept; [by rewrite is_dir_touch | apply purged_self].
  - apply is_dir_rm_false. by rewrite is_dir_touch.
Qed.

End PurgedWorld.

Lemma toy_posix_purge : posix_purge Toy.trainer.
Proof.
  split; [reflexivity |]. intros m _. simpl. unfold Shell.sh.
  by rewrite String.eqb_refl.
Qed.

Lemma toy_well_behaved (names : list string) : well_behaved Toy.trainer names.
Proof.
  intros command m _ Hr. apply (sh_ready Toy.trainer eq_refl Toy.failing_tools); [| done].
  by intros ? ? ?.
Qed.

(** ** Facts about the small installation *)

Lemma toy_fresh_absent : absent Toy.fresh (resolve (finetuned_dir Toy.trainer)).
Proof.
  intros q [k ->]. apply not_elem_of_list_to_map_1. simpl. intros Hin.
  repeat (apply elem_of_cons in Hin as [Hin | Hin]; [discriminate |]).
  by apply elem_of_nil in Hin.
Qed.

Lemma toy_fresh_startable : startable Toy.trainer Toy.fresh.
Proof.
  split; [done |]. split; [done |]. split; [done |]. right. apply toy_fresh_absent.
Qed.

(** ** The step runner *)

Section StepRunner.
Context `{Environment}.
Variable self : ModelTrainer.

(** C2, as the code has it.  Whatever the command, once the log file can
    be opened [run_command] hands the command to one child process,
    forwards each of its output lines to the console and writes it to
    the log file, and only then, the child having exited, reports on the
    exit status alone: success for status 0, and otherwise a failure
    that carries the status.  The log file holds the whole output, after
    what it held before, when the child leaves the log file where it
    found it. *)
Theorem run_command_contract (command : string) (w : world) :
  let log := resolve (log_file_path self) in
  let c := child self command w in
  openable (fs w) (log_file_path self) →
  ∃ w', run_command self command w = (Ok tt, w')
    ∧ spawned w' = spawned w ++ [command]
    ∧ console w' = console w ++ out_lines c
    ∧ (returncode c = 0%Z →
       loguru w' = loguru w ++ [info ("Command completed successfully: " +:+ command)])
    ∧ (returncode c ≠ 0%Z →
       loguru w' = loguru w
         ++ [LogRecord ERROR ("Command failed with return code "
                              +:+ Py.fmt_int (returncode c) +:+ ": " +:+ command) None])
    ∧ (fs_after c !! log = touch log (fs w) !! log →
       fs w' !! log = Some (File (log_text self (fs w) +:+ text_of (out_lines c)))).
Proof.
  intros log c Hopen. exists (ran self command w).
  split; [by apply run_command_ok |].
  split; [done |]. split; [done |].
  split; [| split].
  - unfold ran, verdict. simpl. fold c. intros Hrc. by rewrite Hrc.
  - unfold ran, verdict. simpl. fold c. intros Hrc.
    destruct (returncode c =? 0)%Z eqn:Hz; [| done].
    apply Z.eqb_eq in Hz. by destruct Hrc.
  - intros Hkept.
    assert (Hlog : fs_after c !! log = Some (File (log_text self (fs w)))).
    { rewrite Hkept, touch_lookup. unfold log_text. fold log.
      destruct Hopen as [_ Hnd]. unfold is_dir in Hnd. fold log in Hnd.
      destruct log as [|x l] eqn:Hl; [done |]. simpl in Hnd.
      by destruct (fs w !! (x :: l)) as [[d |] |]. }
    unfold ran. simpl. fold c. fold log.
    rewrite (append_all_file _ _ _ _ Hlog). apply lookup_insert_eq.
Qed.

(** C9. On a fresh job, where nothing exists yet at the output directory,
    the first step of the pipeline fails while opening the log file: no
    command is launched and the file system is left as it was, the
    [FileNotFoundError] is caught and logged, and the pipeline goes on with
    the next step. *)
Theorem fresh_job_first_step (w : world) :
  no_slash (model_name self) = true →
  absent (fs w) (resolve (finetuned_dir self)) →
  let w1 :=
    logged (error ("Failed to extract base LSTM for model: "
                   +:+ model_name self +:+ ". Error: ")
                  (FileNotFoundError (log_file_path self)))
      (logged (info ("Extracting base LSTM for model: " +:+ model_name self)) w) in
  extract_base_lstm self w = (Ok tt, w1)
  ∧ spawned w1 = spawned w
  ∧ fs w1 = fs w
  ∧ train_model self w
    = (prepare_directories self >> generate_box_files self >>
       generate_lstmf_files self >> generate_unicharset self >>
       train self (Some 1000%Z) None None None >>
       convert_checkpoint_to_traineddata self >> evaluate_model self) w1.
Proof.
  intros Hname Habs w1.
  assert (Hstep : extract_base_lstm self w = (Ok tt, w1)) by by apply extract_fresh.
  split; [done |]. split; [done |]. split; [done |].
  unfold train_model. by rewrite (bind_ok _ _ _ _ _ Hstep).
Qed.

End StepRunner.

Lemma run_command_contract_witness :
  ∃ w', run_command Toy.trainer "true" (Toy.world_of ToyUsed.used) = (Ok tt, w')
    ∧ spawned w' = ["true"]
    ∧ console w' = ["oops" +:+ Py.nl]
    ∧ loguru w' = [LogRecord ERROR "Command failed with return code 1: true" None]
    ∧ fs w' !! ["gt"; "deu_finetuned"; "deu_finetuned.log"]
      = Some (File ("earlier output" +:+ Py.nl +:+ "oops" +:+ Py.nl)).
Proof.
  destruct (run_command_contract Toy.trainer "true" (Toy.world_of ToyUsed.used))
    as (w' & Hrun & Hsp & Hco & _ & Herr & Hfs).
  - split; vm_compute; reflexivity.
  - exists w'. split; [exact Hrun |]. split; [exact Hsp |]. split; [exact Hco |].
    split; [apply Herr; vm_compute; discriminate |].
    apply Hfs. vm_compute. reflexivity.
Defined.

(** C2, as the specification words it: the output of every command
    would be in the append-mode log file.  A command that removes the
    log file is run, its line reaches the console and success is
    reported, but no log file holds the line afterwards; the purge of
    the pipeline, run in the same way, takes the log file and what it
    held away; and where the log file cannot be opened no process is
    started at all. *)
Lemma removed_log_counterexample :
  let r := @run_command ToyVerbose.env Toy.trainer ToyVerbose.remove_log
             (Toy.world_of ToyUsed.used) in
  let r1 := run_command Toy.trainer (purge_command Toy.trainer)
              (Toy.world_of ToyUsed.used) in
  let r0 := run_command Toy.trainer "true" (Toy.world_of Toy.fresh) in
  ToyUsed.used !! ["gt"; "deu_finetuned"; "deu_finetuned.log"]
  = Some (File ("earlier output" +:+ Py.nl))
  ∧ r1.1 = Ok tt
  ∧ fs r1.2 !! ["gt"; "deu_finetuned"; "deu_finetuned.log"] = None
  ∧ r.1 = Ok tt
  ∧ spawned r.2 = ["rm -v /gt/deu_finetuned/deu_finetuned.log"]
  ∧ console r.2 = ["removed '/gt/deu_finetuned/deu_finetuned.log'" +:+ Py.nl]
  ∧ loguru r.2
    = [info "Command completed successfully: rm -v /gt/deu_finetuned/deu_finetuned.log"]
  ∧ fs r.2 !! ["gt"; "deu_finetuned"; "deu_finetuned.log"] = None
  ∧ r0.1 = Raise (FileNotFoundError "/gt/deu_finetuned/deu_finetuned.log")
  ∧ spawned r0.2 = [].
Proof. repeat split; vm_compute; reflexivity. Qed.

Lemma fresh_job_first_step_witness :
  (extract_base_lstm Toy.trainer (Toy.world_of Toy.fresh)).1 = Ok tt
  ∧ spawned (extract_base_lstm Toy.trainer (Toy.world_of Toy.fresh)).2 = [].
Proof.
  destruct (fresh_job_first_step Toy.trainer (Toy.world_of Toy.fresh) eq_refl
              toy_fresh_absent)
    as (-> & Hsp & _). split; [reflexivity | exact Hsp].
Defined.

(** ** The whole pipeline *)

Section Pipeline.
Context `{Environment}.
Variable self : ModelTrainer.


End Pipeline.


(** ** Annotation generation *)

Section Annotation.
Context `{Environment}.
Variable self : ModelTrainer.

(** What [box_try] has done once the picture is measured and the
    transcription is read. *)
Lemma box_try_read (file bytes text : string) (width height : nat) (w : world) :
  holds (fs w) (image_path_of self file) bytes →
  image_size bytes = Some (width, height) →
  holds (fs w) (txt_path_of self file) text →
  box_try self file w
  = (let w1 := logged (info ("Image dimensions (width x height): "
                             +:+ Py.fmt_nat width +:+ " x " +:+ Py.fmt_nat height)) w in
     let lines := Py.split Py.LF (Py.strip (Py.universal_newlines text)) in
     if negb (length lines =? 1)
     then (Raise (wrong_line_count (txt_path_of self file) (length lines)), w1)
     else
       let line := nfc (Py.strip (hd "" lines)) in
       if Py.truthy line then
         (open_write (box_path_of self file) >>
          handle_write (box_path_of self file)
            (box_line1 width height (get_display line)) >>
          handle_write (box_path_of self file) (box_line2 width height) >>
          logger_info ("Generated box file: " +:+ box_path_of self file)) w1
       else (Ok tt, w1)).
Proof.
  intros Himg Hsize Htxt. unfold box_try.
  rewrite (bind_ok _ _ _ _ _ (read_file_holds _ _ _ Himg)). rewrite Hsize.
  unfold bind at 1. unfold ret at 1. simpl fst. simpl snd.
  unfold bind at 1. rewrite logger_info_eq.
  erewrite bind_ok; [| apply read_text_holds; exact Htxt].
  cbv zeta. destruct (negb _); unfold bind at 1; [by unfold raise at 1 |].
  unfold ret at 1. by destruct (Py.truthy _).
Qed.

(** C3.  For an image whose picture can be measured, whose
    transcription is one line that is not empty once normalised, and
    whose box file can be written, the pass over that image writes a
    box file of two lines: [WordStr 0 0 <width> <height> 0 #<display_text>],
    with the display text NFC-normalised and reordered, then the line
    that a tab begins, [<tab> 0 0 <width> <height> 0], as the record
    format of the specification has it. *)
Theorem box_file_written (file bytes text line : string) (width height : nat)
    (w : world) :
  is_image_name file = true →
  holds (fs w) (image_path_of self file) bytes →
  image_size bytes = Some (width, height) →
  holds (fs w) (txt_path_of self file) text →
  Py.split Py.LF (Py.strip (Py.universal_newlines text)) = [line] →
  Py.truthy (nfc (Py.strip line)) = true →
  openable (fs w) (box_path_of self file) →
  let display_text := get_display (nfc (Py.strip line)) in
  let content :=
    ("WordStr 0 0 " +:+ Py.fmt_nat width +:+ " " +:+ Py.fmt_nat height
     +:+ " 0 #" +:+ display_text +:+ Py.nl)
    +:+ (Py.tab +:+ " 0 0 " +:+ Py.fmt_nat width +:+ " " +:+ Py.fmt_nat height
         +:+ " 0" +:+ Py.nl) in
  ∃ w', box_one self file w = (Ok tt, w')
    ∧ fs w' = <[resolve (box_path_of self file) := File content]> (fs w)
    ∧ loguru w'
      = loguru w
        ++ [info ("Processing image: " +:+ image_path_of self file);
            info ("Image dimensions (width x height): "
                  +:+ Py.fmt_nat width +:+ " x " +:+ Py.fmt_nat height);
            info ("Generated box file: " +:+ box_path_of self file)].
Proof.
  intros Hname Himg Hsize Htxt Hone Hline Hopen display_text content.
  eexists. unfold box_one. rewrite Hname.
  unfold bind at 1. rewrite logger_info_eq. unfold try_except.
  rewrite (box_try_read file bytes text width height) by done.
  cbv zeta. rewrite Hone. simpl length. simpl negb. cbv iota. simpl hd.
  rewrite Hline. rewrite write_two by done.
  rewrite logger_info_eq. split; [done |]. split; [done |].
  simpl. by rewrite <- !app_assoc.
Qed.

(** [box_try] once the transcription is known to be readable. *)
Lemma box_try_text (file text : string) (w : world) :
  holds (fs w) (txt_path_of self file) text →
  box_try self file w
  = match picture self file (fs w) with
    | Raise e => (Raise e, w)
    | Ok (width, height) =>
        let w1 := logged (info ("Image dimensions (width x height): "
                                +:+ Py.fmt_nat width +:+ " x " +:+ Py.fmt_nat height)) w in
        let lines := Py.split Py.LF (Py.strip (Py.universal_newlines text)) in
        if negb (length lines =? 1)
        then (Raise (wrong_line_count (txt_path_of self file) (length lines)), w1)
        else
          let line := nfc (Py.strip (hd "" lines)) in
          if Py.truthy line then
            (open_write (box_path_of self file) >>
             handle_write (box_path_of self file)
               (box_line1 width height (get_display line)) >>
             handle_write (box_path_of self file) (box_line2 width height) >>
             logger_info ("Generated box file: " +:+ box_path_of self file)) w1
          else (Ok tt, w1)
    end.
Proof.
  intros Htxt. unfold picture.
  destruct (stat (fs w) (resolve (image_path_of self file))) as [[bytes |] |] eqn:Hst.
  - destruct (image_size bytes) as [[width height] |] eqn:Hsize.
    + by apply (box_try_read file bytes text width height).
    + unfold box_try. rewrite (bind_ok _ _ _ _ _ (read_file_holds _ _ _ Hst)).
      rewrite Hsize. by unfold bind, raise.
  - unfold box_try, bind, read_file. by rewrite Hst.
  - unfold box_try, bind, read_file. by rewrite Hst.
Qed.

(** C4, as the code has it.  The lines of a transcription are counted
    once the text is trimmed, so that blank lines before and after the
    text do not count.  A transcription that still has more than one
    line is rejected: one error is logged for its image, no box file is
    written and the loop goes on with the next image.  A transcription
    that is empty once trimmed and normalised is passed over: nothing is
    written, the loop goes on, and no error is logged unless the picture
    itself cannot be read. *)
Theorem transcription_rejected_or_skipped (file text : string) (w : world) :
  is_image_name file = true →
  holds (fs w) (txt_path_of self file) text →
  let lines := Py.split Py.LF (Py.strip (Py.universal_newlines text)) in
  (1 < length lines ∨ ∃ line, lines = [line] ∧ nfc (Py.strip line) = "") →
  let failed e := error ("Failed to process " +:+ image_path_of self file +:+ ": ") e in
  ∃ w', box_one self file w = (Ok tt, w')
    ∧ fs w' = fs w
    ∧ (∀ rest, for_each (file :: rest) (box_one self) w
               = for_each rest (box_one self) w')
    ∧ loguru w'
      = loguru w
        ++ info ("Processing image: " +:+ image_path_of self file)
        :: match picture self file (fs w) with
           | Raise e => [failed e]
           | Ok (width, height) =>
               info ("Image dimensions (width x height): "
                     +:+ Py.fmt_nat width +:+ " x " +:+ Py.fmt_nat height)
               :: (if 1 <? length lines
                   then [failed (wrong_line_count (txt_path_of self file) (length lines))]
                   else [])
           end.
Proof.
  intros Hname Htxt lines Hbad failed.
  assert (∃ w', box_one self file w = (Ok tt, w') ∧ fs w' = fs w
            ∧ loguru w'
              = loguru w
                ++ info ("Processing image: " +:+ image_path_of self file)
                :: match picture self file (fs w) with
                   | Raise e => [failed e]
                   | Ok (width, height) =>
                       info ("Image dimensions (width x height): "
                             +:+ Py.fmt_nat width +:+ " x " +:+ Py.fmt_nat height)
                       :: (if 1 <? length lines
                           then [failed (wrong_line_count (txt_path_of self file)
                                           (length lines))]
                           else [])
                   end) as (w' & Hw' & Hfs & Hlog).
  { unfold box_one. rewrite Hname. unfold bind at 1. rewrite logger_info_eq.
    unfold try_except. rewrite (box_try_text file text) by done.
    rewrite fs_logged.
    destruct (picture self file (fs w)) as [[width height] | e].
    - cbv zeta. fold lines. destruct Hbad as [Hmany | (line & Hl & Hempty)].
      + assert (negb (length lines =? 1) = true) as ->.
        { apply negb_true_iff, Nat.eqb_neq. lia. }
        assert ((1 <? length lines) = true) as -> by (apply Nat.ltb_lt; lia).
        rewrite logger_error_eq. eexists. split; [done |]. split; [done |].
        simpl. by rewrite <- ?app_assoc.
      + rewrite Hl. simpl length. simpl negb. cbv iota. simpl hd. rewrite Hempty.
        simpl. eexists. split; [done |]. split; [done |].
        simpl. by rewrite <- ?app_assoc.
    - rewrite logger_error_eq. eexists. split; [done |]. split; [done |].
      simpl. by rewrite <- ?app_assoc. }
  exists w'. split; [done |]. split; [done |]. split; [| done].
  intros rest. simpl. by rewrite (bind_ok _ _ _ _ _ Hw').
Qed.

End Annotation.

Lemma box_file_written_witness :
  ∃ w', box_one Toy.trainer "a.png" (Toy.world_of Toy.prepared) = (Ok tt, w')
    ∧ fs w' !! ["gt"; "a.box"]
      = Some (File ("WordStr 0 0 100 50 0 #abc" +:+ Py.nl
                    +:+ Py.tab +:+ " 0 0 100 50 0" +:+ Py.nl)).
Proof.
  destruct (box_file_written Toy.trainer "a.png" "picture-100x50"
              ("abc" +:+ Py.nl) "abc" 100 50 (Toy.world_of Toy.prepared))
    as (w' & Hrun & Hfs & _).
  - reflexivity.
  - reflexivity.
  - reflexivity.
  - reflexivity.
  - reflexivity.
  - reflexivity.
  - split; reflexivity.
  - exists w'. split; [exact Hrun |]. rewrite Hfs. vm_compute. reflexivity.
Defined.

Lemma transcription_rejected_or_skipped_witness :
  (∃ w', box_one Toy.trainer "c.tif" (Toy.world_of Toy.two_lines) = (Ok tt, w')
     ∧ fs w' = Toy.two_lines
     ∧ loguru w'
       = [info "Processing image: /gt/c.tif";
          info "Image dimensions (width x height): 100 x 50";
          error "Failed to process /gt/c.tif: "
            (ValueError "ERROR: /gt/c.gt.txt: Ground truth text file should contain exactly one line, not 2")])
  ∧ (∃ w', box_one Toy.trainer "b.tif" (Toy.world_of Toy.unlabelled) = (Ok tt, w')
       ∧ fs w' = Toy.unlabelled
       ∧ loguru w'
         = [info "Processing image: /gt/b.tif";
            info "Image dimensions (width x height): 100 x 50"]).
Proof.
  split.
  - destruct (transcription_rejected_or_skipped Toy.trainer "c.tif"
                ("abc" +:+ Py.nl +:+ "def" +:+ Py.nl) (Toy.world_of Toy.two_lines))
      as (w' & Hrun & Hfs & _ & Hlog).
    + reflexivity.
    + reflexivity.
    + left. vm_compute. lia.
    + exists w'. split; [exact Hrun |]. split; [exact Hfs |].
      rewrite Hlog. vm_compute. reflexivity.
  - destruct (transcription_rejected_or_skipped Toy.trainer "b.tif" ""
                (Toy.world_of Toy.unlabelled))
      as (w' & Hrun & Hfs & _ & Hlog).
    + reflexivity.
    + reflexivity.
    + right. exists "". split; reflexivity.
    + exists w'. split; [exact Hrun |]. split; [exact Hfs |].
      rewrite Hlog. vm_compute. reflexivity.
Defined.

(** C4, as the specification words it: a transcription of zero lines
    would be rejected with a logged error, and so would a transcription
    in which there is more than one line.  For an empty transcription
    there is no error record at all; and a transcription of three lines
    of which the last two are blank is accepted and gets its box
    file. *)
Lemma empty_transcription_counterexample :
  (¬ ∃ r, r ∈ loguru (box_one Toy.trainer "b.tif" (Toy.world_of Toy.unlabelled)).2
          ∧ lvl r = ERROR)
  ∧ Py.splitlines ("abc" +:+ Py.nl +:+ Py.nl +:+ Py.nl) = ["abc"; ""; ""]
  ∧ fs (box_one Toy.trainer "d.tif" (Toy.world_of Toy.trailing)).2 !! ["gt"; "d.box"]
    = Some (File ("WordStr 0 0 100 50 0 #abc" +:+ Py.nl
                  +:+ Py.tab +:+ " 0 0 100 50 0" +:+ Py.nl)).
Proof.
  split; [| split; vm_compute; reflexivity].
  intros (r & Hin & Hlvl).
  assert (loguru (box_one Toy.trainer "b.tif" (Toy.world_of Toy.unlabelled)).2
          = [info "Processing image: /gt/b.tif";
             info "Image dimensions (width x height): 100 x 50"]) as Heq
    by (vm_compute; reflexivity).
  rewrite Heq in Hin.
  repeat (apply elem_of_cons in Hin as [-> | Hin]; [discriminate |]).
  by apply elem_of_nil in Hin.
Qed.

(** ** Fine-tuning *)

Section FineTuning.
Context `{Environment}.
Variable self : ModelTrainer.

(** C5, as the code has it.  Where the output directory exists, [train]
    runs the trainer with the number of iterations it was given, and
    with 400 when it was given none.  With [remove_old] left out or true
    it first
    runs [rm -rf <output directory>/*]; with a POSIX shell the trainer
    then starts on a file system from which every entry in or below a
    name of the output directory that [*] matches is gone, the log file
    of earlier steps among them, while the names that start with a dot,
    the output directory itself and what lies outside it are as they
    were. *)
Theorem train_runs_as_asked (iterations : option Z)
    (learning_rate error_rate : option QArith_base.Q) (remove_old : option bool)
    (w : world) :
  no_slash (model_name self) = true →
  let n := default 400%Z iterations in
  let out := resolve (finetuned_dir self) in
  let log := resolve (log_file_path self) in
  is_dir (fs w) out = true →
  is_dir (fs w) log = false →
  let trained w0 :=
    logged (info ("Training completed successfully for model: " +:+ model_name self))
      (ran self (lstmtraining_command self n)
         (logged (info ("Starting training for model: " +:+ model_name self)) w0)) in
  let w1 := ran self (purge_command self)
              (logged (info ("Removing old files in: " +:+ finetuned_dir self)) w) in
  (default true remove_old = false →
   train self iterations learning_rate error_rate remove_old w = (Ok tt, trained w)
   ∧ spawned (trained w) = spawned w ++ [lstmtraining_command self n])
  ∧ (default true remove_old = true →
     posix_purge self →
     train self iterations learning_rate error_rate remove_old w = (Ok tt, trained w1)
     ∧ spawned (trained w1)
       = spawned w ++ [purge_command self; lstmtraining_command self n]
     ∧ (∀ q, Shell.purged out q = true → fs w1 !! q = None)
     ∧ (∀ q, Shell.purged out q = false → q ≠ log → fs w1 !! q = fs w !! q)
     ∧ is_dir (fs w1) out = true).
Proof.
  intros Hname n out log Hout Hlog trained w1. unfold train.
  fold n. generalize (default default_learning_rate learning_rate)
    (default default_error_rate error_rate). intros lr er.
  change default_remove_old with true.
  assert (Hopen : openable (fs w) (log_file_path self)) by by apply out_openable.
  split; intros ->.
  - split; [| by unfold trained; simpl].
    unfold train_with. unfold bind at 1. unfold ret at 1.
    unfold bind at 1. rewrite logger_info_eq.
    by rewrite (guarded_open self) by done.
  - intros Hposix.
    assert (Hfs : fs w1 = Shell.rm_rf_glob out (touch log (fs w))).
    { subst w1. by rewrite (purged_world self) by done. }
    destruct (purged_world_open self
                (logged (info ("Removing old files in: " +:+ finetuned_dir self)) w)
                Hposix Hout Hlog) as [Hout1 Hlog1].
    fold w1 in Hout1, Hlog1.
    split; [| split; [| split; [| split]]].
    + unfold train_with. unfold bind at 1. unfold bind at 1.
      rewrite logger_info_eq. rewrite run_command_ok by done.
      fold w1. unfold bind at 1. rewrite logger_info_eq.
      rewrite (guarded_open self); [done |].
      rewrite fs_logged. by apply out_openable.
    + unfold trained. simpl. by rewrite <- app_assoc.
    + intros q Hq. rewrite Hfs. apply rm_rf_glob_purged; [| done].
      by rewrite is_dir_touch.
    + intros q Hq Hne. rewrite Hfs, rm_rf_glob_kept by done.
      by apply touch_lookup_ne.
    + done.
Qed.

End FineTuning.

Lemma train_runs_as_asked_witness :
  let w' := (train Toy.trainer None None None None (Toy.world_of ToyUsed.used)).2 in
  (train Toy.trainer None None None None (Toy.world_of ToyUsed.used)).1 = Ok tt
  ∧ spawned w' = [purge_command Toy.trainer; lstmtraining_command Toy.trainer 400]
  ∧ fs w' !! ["gt"; "deu_finetuned"; "deu_checkpoint"] = None.
Proof.
  destruct (train_runs_as_asked Toy.trainer None None None None
              (Toy.world_of ToyUsed.used) eq_refl) as [_ Hpurge].
  - vm_compute. reflexivity.
  - vm_compute. reflexivity.
  - destruct (Hpurge eq_refl toy_posix_purge) as (Hrun & Hsp & _).
    cbv zeta. rewrite Hrun. cbn [fst snd]. split; [reflexivity |].
    split; [exact Hsp |]. vm_compute. reflexivity.
Defined.

(** C5, as the specification words it: the number of iterations would be
    1000 by default, and the purge would remove what the output
    directory held.  Called without a number, [train] asks the trainer
    for 400 iterations, not for 1000; a purging [train] leaves an entry
    of the output directory whose name starts with a dot where it was;
    and without output directory it raises and runs no trainer. *)
Lemma default_iterations_counterexample :
  spawned (train Toy.trainer None None None None (Toy.world_of Toy.prepared)).2
  = ["rm -rf /gt/deu_finetuned/*";
     "lstmtraining --model_output /gt/deu_finetuned/deu --continue_from /gt/deu.lstm --traineddata /usr/share/tessdata/deu.traineddata --train_listfile /gt/all-lstmf-list.txt --max_iterations 400 "]
  ∧ ¬ In (lstmtraining_command Toy.trainer 1000)
         (spawned (train Toy.trainer None None None None (Toy.world_of Toy.prepared)).2)
  ∧ ToyUsed.with_history !! ["gt"; "deu_finetuned"; ".history"] = Some (File "kept")
  ∧ fs (train Toy.trainer None None None None (Toy.world_of ToyUsed.with_history)).2
      !! ["gt"; "deu_finetuned"; ".history"] = Some (File "kept")
  ∧ (train Toy.trainer None None None None (Toy.world_of Toy.fresh)).1
    = Raise (FileNotFoundError "/gt/deu_finetuned/deu_finetuned.log")
  ∧ spawned (train Toy.trainer None None None None (Toy.world_of Toy.fresh)).2 = [].
Proof.
  split; [vm_compute; reflexivity |]. split.
  - vm_compute. intros [Heq | [Heq | []]]; discriminate.
  - repeat split; vm_compute; reflexivity.
Qed.

(** ** Pair discovery *)

Section Discovery.
Variable base_path : string.

Lemma pair_loop_spec (names acc : list string) (w : world) :
  pair_loop base_path names acc w
  = match List.find (λ n, negb (pair_ok base_path (fs w) n)) names with
    | Some n => (Raise (pair_error n), w)
    | None => (Ok (acc ++ base_paths base_path names), w)
    end.
Proof.
  revert acc. induction names as [|n names IH]; intros acc.
  - simpl. unfold ret, base_paths. simpl. by rewrite app_nil_r.
  - cbn [pair_loop List.find]. unfold pair_ok at 1, base_paths.
    cbn [List.filter]. destruct (Py.endswith n ".tif") eqn:Htif.
    + unfold bind at 1, os_path_exists at 1. fold (gt_of base_path n).
      destruct (exists_ (fs w) (resolve (gt_of base_path n))); cbn [negb].
      * rewrite IH. destruct (List.find _ names); [done |].
        unfold base_paths. cbn [map]. by rewrite <- app_assoc.
      * unfold raise, pair_error. by rewrite Htif.
    + destruct (Py.endswith n ".gt.txt") eqn:Hgt.
      * unfold bind at 1, os_path_exists at 1. fold (tif_of base_path n).
        destruct (exists_ (fs w) (resolve (tif_of base_path n))); cbn [negb].
        -- rewrite IH. by destruct (List.find _ names).
        -- unfold raise, pair_error. by rewrite Htif.
      * cbn [negb]. rewrite IH. by destruct (List.find _ names).
Qed.

Lemma discovery_run (w : world) :
  Py.truthy base_path = true →
  is_dir (fs w) (resolve base_path) = true →
  get_file_base_names base_path w
  = match List.find (λ n, negb (pair_ok base_path (fs w) n))
            (entries (fs w) (resolve base_path)) with
    | Some n => (Raise (pair_error n), w)
    | None => (Ok (base_paths base_path (entries (fs w) (resolve base_path))), w)
    end.
Proof.
  intros Hdir Hls. unfold get_file_base_names. rewrite Hdir.
  unfold bind, os_listdir. unfold is_dir in Hls.
  destruct (stat (fs w) (resolve base_path)) as [[d |] |]; try done.
  by rewrite pair_loop_spec.
Qed.

(** For a regular name, the file the code looks for is the counterpart
    of the name. *)
Lemma pair_ok_counterpart (m : gmap path node) (n : string) :
  regular n = true →
  pair_ok base_path m n
  = match counterpart n with
    | Some c => exists_ m (resolve (Py.path_join base_path c))
    | None => true
    end.
Proof.
  unfold regular, pair_ok, counterpart. intros [Hslash Hstem]%andb_true_iff.
  destruct (Py.endswith n ".tif") eqn:Htif.
  - apply endswith_strip in Htif as (s & -> & Hs). rewrite Hs in *.
    apply negb_true_iff in Hstem. unfold gt_of.
    by rewrite (splitext_stem s "tif").
  - rewrite (not_endswith_strip _ _ Htif) in *.
    destruct (Py.endswith n ".gt.txt") eqn:Hgt.
    + apply endswith_strip in Hgt as (s & -> & Hs). rewrite Hs in *.
      apply negb_true_iff in Hstem. unfold tif_of.
      change ".gt.txt" with (".gt" +:+ String "."%char "txt") in *.
      rewrite <- string_app_assoc in *.
      rewrite (splitext_stem (s +:+ ".gt") "txt"); [| done | done |].
      * by rewrite remove_dot_gt_stem.
      * rewrite all_dots_app. apply andb_false_r.
    + by rewrite (not_endswith_strip _ _ Hgt).
Qed.

Lemma base_paths_stems (names : list string) :
  (∀ n, In n names → regular n = true) →
  base_paths base_path names = stems base_path names.
Proof.
  unfold base_paths, stems. induction names as [|n names IH]; [done |].
  intros Hreg. cbn [List.filter omap list_omap].
  assert (Hn : regular n = true) by (apply Hreg; by left).
  assert (Hrest : ∀ x, In x names → regular x = true) by (intros x ?; apply Hreg; by right).
  specialize (IH Hrest). apply andb_true_iff in Hn as [Hslash Hstem].
  destruct (Py.endswith n ".tif") eqn:Htif.
  - apply endswith_strip in Htif as (s & -> & Hs). rewrite Hs in *.
    apply negb_true_iff in Hstem. cbn [map option_map].
    rewrite (splitext_stem s "tif") by done. by rewrite IH.
  - rewrite (not_endswith_strip _ _ Htif). cbn [option_map]. exact IH.
Qed.

Lemma find_first {A} (f : A → bool) (before after : list A) (x : A) :
  (∀ y, In y before → f y = false) → f x = true →
  List.find f (before ++ x :: after) = Some x.
Proof.
  induction before as [|y before IH]; intros Hb Hx; simpl.
  - by rewrite Hx.
  - rewrite (Hb y) by by left. apply IH; [| done]. intros z ?. apply Hb. by right.
Qed.

(** C6, as the code has it.  Discovery goes through the listing of the
    directory in its order.  It succeeds when every [x.tif] has its
    [x.gt.txt] and every [x.gt.txt] has its [x.tif], and then returns
    the base path of every [.tif], in listing order.  Otherwise it
    raises [FileNotFoundError] for the first name of the listing whose
    counterpart is missing, and returns nothing.  Names ending in
    [.png] have no counterpart and are not looked at. *)
Theorem discovery_checks_tif_pairs (w : world) :
  direct base_path = true →
  is_dir (fs w) (resolve base_path) = true →
  let names := entries (fs w) (resolve base_path) in
  let found n :=
    match counterpart n with
    | Some c => exists_ (fs w) (resolve (Py.path_join base_path c))
    | None => true
    end in
  (∀ n, In n names → regular n = true) →
  ((∀ n, In n names → found n = true) →
   get_file_base_names base_path w = (Ok (stems base_path names), w))
  ∧ (∀ before n after,
       names = before ++ n :: after →
       (∀ m, In m before → found m = true) →
       found n = false →
       get_file_base_names base_path w = (Raise (pair_error n), w)).
Proof.
  intros [Hbase _]%andb_true_iff Hdir names found Hreg.
  rewrite (discovery_run w Hbase Hdir). fold names.
  assert (Hok : ∀ n, In n names → pair_ok base_path (fs w) n = found n).
  { intros n Hin. by apply pair_ok_counterpart, Hreg. }
  split.
  - intros Hall.
    destruct (List.find _ names) as [n |] eqn:Hfind.
    + apply find_some in Hfind as [Hin Hbad]. apply negb_true_iff in Hbad.
      rewrite (Hok n Hin), (Hall n Hin) in Hbad. done.
    + by rewrite base_paths_stems.
  - intros before n after Hnames Hbefore Hn.
    assert (Hin : ∀ m, In m (before ++ n :: after) → In m names) by by rewrite Hnames.
    rewrite Hnames, find_first; [done | |].
    + intros m Hm. rewrite Hok, Hbefore; [done | done |].
      apply Hin, in_or_app. by left.
    + rewrite Hok, Hn; [done |]. apply Hin, in_or_app. right. by left.
Qed.

End Discovery.

Lemma toy_paired_entries :
  entries (fs (Toy.world_of Toy.paired)) (resolve "/gt") = ["b.gt.txt"; "b.tif"].
Proof. vm_compute. reflexivity. Qed.

Lemma toy_halved_entries :
  entries (fs (Toy.world_of Toy.halved)) (resolve "/gt") = ["b.tif"].
Proof. vm_compute. reflexivity. Qed.

Lemma discovery_checks_tif_pairs_witness :
  get_file_base_names "/gt" (Toy.world_of Toy.paired)
  = (Ok ["/gt/b"], Toy.world_of Toy.paired)
  ∧ get_file_base_names "/gt" (Toy.world_of Toy.halved)
    = (Raise (FileNotFoundError "Ground truth file not found for b.tif"),
       Toy.world_of Toy.halved).
Proof.
  split.
  - destruct (discovery_checks_tif_pairs "/gt" (Toy.world_of Toy.paired) eq_refl eq_refl)
      as [Hok _].
    + rewrite toy_paired_entries.
      intros n [<- | [<- | []]]; vm_compute; reflexivity.
    + rewrite Hok.
      * rewrite toy_paired_entries. vm_compute. reflexivity.
      * rewrite toy_paired_entries.
        intros n [<- | [<- | []]]; vm_compute; reflexivity.
  - destruct (discovery_checks_tif_pairs "/gt" (Toy.world_of Toy.halved) eq_refl eq_refl)
      as [_ Hbad].
    + rewrite toy_halved_entries.
      intros n [<- | []]. vm_compute. reflexivity.
    + rewrite (Hbad [] "b.tif" []).
      * reflexivity.
      * apply toy_halved_entries.
      * by intros m [].
      * vm_compute. reflexivity.
Defined.

(** C6, as the specification words it: a [.png] picture without its
    transcription would make discovery fail.  Discovery over a directory
    that holds [a.png] and no [a.gt.txt] returns, with no pair.  The
    names the statement leaves aside are those of a pair such as
    [x.gt.tif] with [x.gt.gt.txt], for which discovery asks for
    [x.tif]. *)
Lemma png_counterexample :
  In "a.png" (entries Toy.lonely ["gt"])
  ∧ exists_ Toy.lonely ["gt"; "a.gt.txt"] = false
  ∧ get_file_base_names "/gt" (Toy.world_of Toy.lonely)
    = (Ok [], Toy.world_of Toy.lonely)
  ∧ get_file_base_names "/gt" (Toy.world_of Toy.gt_stem)
    = (Raise (FileNotFoundError "Image file not found for x.gt.gt.txt"),
       Toy.world_of Toy.gt_stem).
Proof.
  split; [vm_compute; by left |]. repeat split; vm_compute; reflexivity.
Qed.

(** ** Tombstones *)

Lemma universal_newlines_line (n rest : string) :
  no_break n = true →
  Py.universal_newlines (n +:+ Py.nl +:+ rest)
  = n +:+ Py.nl +:+ Py.universal_newlines rest.
Proof.
  induction n as [|c n IH]; intros Hn.
  - reflexivity.
  - simpl in Hn. apply andb_true_iff in Hn as [[Hcr _]%andb_true_iff Hn].
    apply negb_true_iff in Hcr. rewrite !app_cons. simpl. rewrite Hcr.
    by rewrite IH.
Qed.

Lemma splitlines_line (n rest : string) :
  no_break n = true →
  Py.splitlines (n +:+ Py.nl +:+ rest) = n :: Py.splitlines rest.
Proof.
  induction n as [|c n IH]; intros Hn.
  - reflexivity.
  - simpl in Hn. apply andb_true_iff in Hn as [[Hcr Hlb]%andb_true_iff Hn].
    apply negb_true_iff in Hcr, Hlb. rewrite !app_cons. simpl.
    rewrite Hcr, Hlb. by rewrite IH.
Qed.

Lemma universal_newlines_tombstones (names : list string) :
  Forall (λ n, no_break n = true) names →
  Py.universal_newlines (tombstone_text names) = tombstone_text names.
Proof.
  induction 1 as [|n names Hn _ IH]; simpl; [done |].
  by rewrite universal_newlines_line, IH.
Qed.

Lemma splitlines_tombstones (names : list string) :
  Forall (λ n, no_break n = true) names →
  Py.splitlines (tombstone_text names) = names.
Proof.
  induction 1 as [|n names Hn _ IH]; simpl; [done |].
  by rewrite splitlines_line, IH.
Qed.

Lemma tombstone_text_snoc (names : list string) (b : string) :
  tombstone_text (names ++ [b]) = tombstone_text names +:+ b +:+ Py.nl.
Proof.
  induction names as [|n names IH]; simpl.
  - by rewrite string_app_nil_r.
  - by rewrite IH, !string_app_assoc.
Qed.

Lemma contains_In (l : list string) (x : string) :
  Py.contains l x = true ↔ In x l.
Proof.
  unfold Py.contains. rewrite existsb_exists. split.
  - intros (y & Hy & Heq). apply String.eqb_eq in Heq. by subst.
  - intros Hx. exists x. split; [done | apply String.eqb_refl].
Qed.

Lemma removed_pairs_resolved (base_path : string) :
  resolve (removed_pairs_file base_path) = resolve base_path ++ ["removed_pairs.txt"].
Proof. unfold removed_pairs_file. by apply resolve_path_join. Qed.

Lemma removed_pairs_not_root (base_path : string) :
  resolve (removed_pairs_file base_path) ≠ [].
Proof. rewrite removed_pairs_resolved. by destruct (resolve base_path). Qed.

Section Tombstones.
Variable base_path : string.

Lemma tombstones_stat (m : gmap path node) :
  stat m (resolve (removed_pairs_file base_path))
  = m !! resolve (removed_pairs_file base_path).
Proof. apply stat_lookup, removed_pairs_not_root. Qed.

Lemma logged_pairs_file (names : list string) (w : world) :
  fs w !! resolve (removed_pairs_file base_path) = Some (File (tombstone_text names)) →
  Forall (λ n, no_break n = true) names →
  logged_pairs base_path w = (Ok names, w).
Proof.
  intros Hf Hnames. unfold logged_pairs, bind, os_path_exists, exists_.
  rewrite tombstones_stat, Hf. unfold read_text, bind, read_file.
  rewrite tombstones_stat, Hf. unfold ret.
  by rewrite universal_newlines_tombstones, splitlines_tombstones.
Qed.

Lemma logged_pairs_absent (w : world) :
  fs w !! resolve (removed_pairs_file base_path) = None →
  logged_pairs base_path w = (Ok [], w).
Proof.
  intros Hf. unfold logged_pairs, bind, os_path_exists, exists_.
  by rewrite tombstones_stat, Hf.
Qed.

Lemma logged_pairs_dir (w : world) :
  fs w !! resolve (removed_pairs_file base_path) = Some Dir →
  logged_pairs base_path w
  = (Raise (IsADirectoryError (removed_pairs_file base_path)), w).
Proof.
  intros Hf. unfold logged_pairs, bind, os_path_exists, exists_.
  rewrite tombstones_stat, Hf. unfold read_text, bind, read_file.
  by rewrite tombstones_stat, Hf.
Qed.

(** [is_removed_pair] reads the file the way [logged_pairs] does. *)
Lemma is_removed_pair_logged (name : string) (w : world) :
  is_removed_pair base_path name w
  = match logged_pairs base_path w with
    | (Ok names, w') => (Ok (Py.contains names name), w')
    | (Raise e, w') => (Raise e, w')
    end.
Proof.
  unfold is_removed_pair, logged_pairs, bind, os_path_exists.
  destruct (exists_ _ _); [| done].
  by destruct (read_text _ w) as [[text | e] w'].
Qed.

(** What one call of [log_removed_pair] does to a well-kept file. *)
Lemma log_removed_pair_file (name : string) (names : list string) (w : world) :
  fs w !! resolve (removed_pairs_file base_path) = Some (File (tombstone_text names)) →
  Forall (λ n, no_break n = true) names →
  log_removed_pair base_path name w
  = (Ok tt,
     if Py.contains names name then w
     else set_fs (<[resolve (removed_pairs_file base_path)
                    := File (tombstone_text (names ++ [name]))]> (fs w)) w).
Proof.
  intros Hf Hnames. unfold log_removed_pair.
  rewrite (bind_ok _ _ _ _ _ (logged_pairs_file names w Hf Hnames)).
  destruct (Py.contains names name); [done |]. cbn [negb].
  unfold bind, open_append, open_for. cbv zeta. rewrite tombstones_stat, Hf.
  unfold handle_write. cbv zeta. rewrite Hf. by rewrite tombstone_text_snoc.
Qed.

Lemma log_removed_pair_absent (name : string) (w : world) :
  fs w !! resolve (removed_pairs_file base_path) = None →
  log_removed_pair base_path name w
  = if is_dir (fs w) (parent (resolve (removed_pairs_file base_path)))
    then (Ok tt, set_fs (<[resolve (removed_pairs_file base_path)
                           := File (tombstone_text [name])]> (fs w)) w)
    else (Raise (unreachable (fs w) (removed_pairs_file base_path)), w).
Proof.
  intros Hf. unfold log_removed_pair.
  rewrite (bind_ok _ _ _ _ _ (logged_pairs_absent w Hf)). cbn [negb Py.contains existsb].
  unfold bind, open_append, open_for. cbv zeta. rewrite tombstones_stat, Hf.
  destruct (is_dir _ _); [| done].
  unfold handle_write. cbv zeta. simpl fs. rewrite lookup_insert_eq.
  simpl. by rewrite insert_insert_eq.
Qed.

Lemma log_removed_pair_dir (name : string) (w : world) :
  fs w !! resolve (removed_pairs_file base_path) = Some Dir →
  log_removed_pair base_path name w
  = (Raise (IsADirectoryError (removed_pairs_file base_path)), w).
Proof.
  intros Hf. unfold log_removed_pair.
  by rewrite (bind_raise _ _ _ _ _ (logged_pairs_dir w Hf)).
Qed.

(** Logging the same base name a second time changes nothing: the second
    call ends as the first did and leaves the world the first call left. *)
Theorem log_removed_pair_idempotent (name : string) (w : world) :
  no_break name = true →
  tombstones_ok base_path (fs w) →
  log_removed_pair base_path name (log_removed_pair base_path name w).2
  = log_removed_pair base_path name w.
Proof.
  intros Hname Hok.
  destruct (fs w !! resolve (removed_pairs_file base_path)) as [[d |] |] eqn:Hf.
  - destruct (Hok d Hf) as (names & Hnames & ->).
    rewrite (log_removed_pair_file name names w Hf Hnames).
    destruct (Py.contains names name) eqn:Hc; simpl.
    + by rewrite (log_removed_pair_file name names w Hf Hnames), Hc.
    + rewrite (log_removed_pair_file name (names ++ [name])).
      * assert (Py.contains (names ++ [name]) name = true) as ->; [| done].
        apply contains_In, in_or_app. right. by left.
      * simpl. apply lookup_insert_eq.
      * apply Forall_app. split; [done |]. by apply Forall_singleton.
  - rewrite (log_removed_pair_dir name w Hf). simpl.
    by rewrite (log_removed_pair_dir name w Hf).
  - rewrite (log_removed_pair_absent name w Hf).
    destruct (is_dir _ _) eqn:Hd; simpl.
    + rewrite (log_removed_pair_file name [name]).
      * assert (Py.contains [name] name = true) as ->; [| done].
        apply contains_In. by left.
      * simpl. apply lookup_insert_eq.
      * by apply Forall_singleton.
    + by rewrite (log_removed_pair_absent name w Hf), Hd.
Qed.

(** Once a base name is logged it is reported as removed, and the file
    holds the names it held before, in their order, with the new name
    after them unless it was among them already. *)
Theorem logged_pair_is_removed (name : string) (old : list string) (w : world) :
  no_break name = true →
  tombstones_ok base_path (fs w) →
  logged_pairs base_path w = (Ok old, w) →
  (log_removed_pair base_path name w).1 = Ok tt →
  let w' := (log_removed_pair base_path name w).2 in
  is_removed_pair base_path name w' = (Ok true, w')
  ∧ logged_pairs base_path w'
    = (Ok (if Py.contains old name then old else old ++ [name]), w').
Proof.
  intros Hname Hok Hold Hrun w'.
  assert (Hnew : logged_pairs base_path w'
    = (Ok (if Py.contains old name then old else old ++ [name]), w')).
  { subst w'.
    destruct (fs w !! resolve (removed_pairs_file base_path)) as [[d |] |] eqn:Hf.
    - destruct (Hok d Hf) as (names & Hnames & ->).
      rewrite (logged_pairs_file names w Hf Hnames) in Hold.
      injection Hold as <-.
      rewrite (log_removed_pair_file name names w Hf Hnames).
      destruct (Py.contains names name); simpl; [by apply logged_pairs_file |].
      apply logged_pairs_file; [simpl; apply lookup_insert_eq |].
      apply Forall_app. split; [done | by apply Forall_singleton].
    - by rewrite (logged_pairs_dir w Hf) in Hold.
    - rewrite (logged_pairs_absent w Hf) in Hold. injection Hold as <-.
      rewrite (log_removed_pair_absent name w Hf) in Hrun |- *.
      destruct (is_dir _ _); [| done]. simpl.
      apply logged_pairs_file; [simpl; apply lookup_insert_eq | by apply Forall_singleton]. }
  split; [| done]. rewrite is_removed_pair_logged, Hnew. f_equal. f_equal.
  destruct (Py.contains old name) eqn:Hc; [done |].
  apply contains_In, in_or_app. right. by left.
Qed.

(** [is_removed_pair] only reads: the world is the same afterwards, and
    without [removed_pairs.txt] the answer is [False]. *)
Theorem is_removed_pair_reads_only (name : string) (w : world) :
  (is_removed_pair base_path name w).2 = w
  ∧ (fs w !! resolve (removed_pairs_file base_path) = None →
     is_removed_pair base_path name w = (Ok false, w)).
Proof.
  split.
  - unfold is_removed_pair, bind, os_path_exists. destruct (exists_ _ _); [| done].
    unfold read_text, bind, read_file.
    by destruct (stat (fs w) _) as [[d |] |].
  - intros Hf. rewrite is_removed_pair_logged. by rewrite logged_pairs_absent.
Qed.

End Tombstones.

Lemma buried_tombstones :
  ToyStore.buried !! resolve (removed_pairs_file "/gt")
  = Some (File (tombstone_text ["/gt/old"])).
Proof. vm_compute. reflexivity. Qed.

Lemma buried_ok : tombstones_ok "/gt" (fs (Toy.world_of ToyStore.buried)).
Proof.
  intros d Hd. simpl in Hd. rewrite buried_tombstones in Hd. injection Hd as <-.
  exists ["/gt/old"]. split; [| done]. by apply Forall_singleton.
Qed.

Lemma log_removed_pair_idempotent_witness :
  log_removed_pair "/gt" "/gt/a"
    (log_removed_pair "/gt" "/gt/a" (Toy.world_of ToyStore.buried)).2
  = log_removed_pair "/gt" "/gt/a" (Toy.world_of ToyStore.buried).
Proof. apply log_removed_pair_idempotent; [reflexivity | apply buried_ok]. Defined.

Lemma logged_pair_is_removed_witness :
  let w' := (log_removed_pair "/gt" "/gt/a" (Toy.world_of ToyStore.buried)).2 in
  is_removed_pair "/gt" "/gt/a" w' = (Ok true, w')
  ∧ logged_pairs "/gt" w' = (Ok ["/gt/old"; "/gt/a"], w').
Proof.
  apply (logged_pair_is_removed "/gt" "/gt/a" ["/gt/old"] (Toy.world_of ToyStore.buried)).
  - reflexivity.
  - apply buried_ok.
  - vm_compute. reflexivity.
  - vm_compute. reflexivity.
Defined.

Lemma is_removed_pair_reads_only_witness :
  is_removed_pair "/gt" "/gt/a" (Toy.world_of ToyStore.clean)
  = (Ok false, Toy.world_of ToyStore.clean).
Proof.
  apply (is_removed_pair_reads_only "/gt" "/gt/a" (Toy.world_of ToyStore.clean)).
  vm_compute. reflexivity.
Defined.

(** After a successful [log_removed_pair] the name is among the lines of
    the file. *)
Lemma logged_after (base_path name : string) (w : world) :
  no_break name = true →
  tombstones_ok base_path (fs w) →
  (log_removed_pair base_path name w).1 = Ok tt →
  ∃ names, logged_pairs base_path (log_removed_pair base_path name w).2
           = (Ok names, (log_removed_pair base_path name w).2)
    ∧ In name names.
Proof.
  intros Hname Hok Hrun.
  destruct (fs w !! resolve (removed_pairs_file base_path)) as [[d |] |] eqn:Hf.
  - destruct (Hok d Hf) as (names & Hnames & ->).
    rewrite (log_removed_pair_file base_path name names w Hf Hnames).
    destruct (Py.contains names name) eqn:Hc; simpl.
    + exists names. split; [by apply logged_pairs_file | by apply contains_In].
    + exists (names ++ [name]). split.
      * apply logged_pairs_file; [simpl; apply lookup_insert_eq |].
        apply Forall_app. split; [done | by apply Forall_singleton].
      * apply in_or_app. right. by left.
  - by rewrite (log_removed_pair_dir base_path name w Hf) in Hrun.
  - rewrite (log_removed_pair_absent base_path name w Hf) in Hrun |- *.
    destruct (is_dir _ _); [| done]. simpl. exists [name]. split; [| by left].
    apply logged_pairs_file; [simpl; apply lookup_insert_eq | by apply Forall_singleton].
Qed.

(** ** Which steps let an exception out *)

Section Guards.
Context `{Environment}.
Variable self : ModelTrainer.

(** A [try] block whose handler only logs always returns. *)
Lemma try_logs_total (body : M unit) (s : string) (w : world) :
  ∃ w', try_except body (λ e, logger_error s (Some e)) w = (Ok tt, w').
Proof.
  unfold try_except. destruct (body w) as [[[] | e] w1]; by eexists.
Qed.

(** The four steps that wrap their command in [try ... except Exception]
    return normally in every world: whatever [run_command] raises is
    caught and logged.  So does [train] when it is told not to purge. *)
Theorem guarded_steps_never_raise (w : world) :
  (∃ w', extract_base_lstm self w = (Ok tt, w'))
  ∧ (∃ w', generate_unicharset self w = (Ok tt, w'))
  ∧ (∃ w', convert_checkpoint_to_traineddata self w = (Ok tt, w'))
  ∧ (∃ w', evaluate_model self w = (Ok tt, w'))
  ∧ (∀ iterations learning_rate error_rate,
       ∃ w', train self iterations learning_rate error_rate (Some false) w = (Ok tt, w')).
Proof.
  repeat split.
  - unfold extract_base_lstm. unfold bind at 1. rewrite logger_info_eq.
    apply try_logs_total.
  - unfold generate_unicharset. unfold bind at 1. rewrite logger_info_eq.
    apply try_logs_total.
  - unfold convert_checkpoint_to_traineddata. unfold bind at 1.
    rewrite logger_info_eq. apply try_logs_total.
  - unfold evaluate_model. unfold bind at 1. rewrite logger_info_eq.
    apply try_logs_total.
  - intros iterations learning_rate error_rate. unfold train, train_with. simpl.
    unfold bind at 1. unfold ret at 1. unfold bind at 1. rewrite logger_info_eq.
    apply try_logs_total.
Qed.

Hypothesis Hname : no_slash (model_name self) = true.

Lemma lstmf_loop_fresh (files : list string) (w : world) :
  absent (fs w) (resolve (finetuned_dir self)) →
  ∃ r w', for_each files (lstmf_one self) w = (r, w')
    ∧ fs w' = fs w ∧ spawned w' = spawned w
    ∧ (r = Ok tt ∨ r = Raise (FileNotFoundError (log_file_path self))).
Proof.
  revert w. induction files as [|f files IH]; intros w Habs; simpl.
  - exists (Ok tt), w. split; [done |]. split; [done |]. split; [done |]. by left.
  - unfold lstmf_one at 1. destruct (is_image_name f).
    + unfold bind at 1. unfold bind at 1. rewrite logger_info_eq.
      rewrite (run_fresh self Hname) by done.
      eexists _, _. split; [done |]. split; [done |]. split; [done |]. by right.
    + unfold bind at 1. cbn [ret]. by apply IH.
Qed.

(** [generate_lstmf_files] has no [try]: where nothing is at the output
    directory, the [FileNotFoundError] of the log file leaves the step,
    with no command spawned and the file system as it was. *)
Theorem lstmf_files_raise_without_output_dir (w : world) :
  is_dir (fs w) (resolve (ground_truth_dir self)) = true →
  absent (fs w) (resolve (finetuned_dir self)) →
  ∃ w', generate_lstmf_files self w
        = (Raise (FileNotFoundError (log_file_path self)), w')
    ∧ fs w' = fs w ∧ spawned w' = spawned w.
Proof.
  intros Hgt Habs. unfold generate_lstmf_files.
  assert (os_listdir (ground_truth_dir self) w
          = (Ok (entries (fs w) (resolve (ground_truth_dir self))), w)) as Hls.
  { unfold os_listdir. unfold is_dir in Hgt.
    by destruct (stat (fs w) (resolve (ground_truth_dir self))) as [[d |] |]. }
  rewrite (bind_ok _ _ _ _ _ Hls).
  destruct (lstmf_loop_fresh (entries (fs w) (resolve (ground_truth_dir self))) w Habs)
    as (r & w1 & Hloop & Hfs & Hsp & [-> | ->]).
  - rewrite (bind_ok _ _ _ _ _ Hloop). unfold bind at 1. rewrite logger_info_eq.
    unfold bind at 1. rewrite (run_fresh self Hname); [| by rewrite fs_logged, Hfs].
    eexists. split; [done |]. by rewrite fs_logged, spawned_logged.
  - rewrite (bind_raise _ _ _ _ _ Hloop). by exists w1.
Qed.

(** The purge of [train] stands before the [try]: where nothing is at the
    output directory, a purging [train] raises and never reaches the
    trainer, while [train] without purge catches the same error, logs it
    and returns. *)
Theorem purge_is_not_guarded (iterations : Z)
    (learning_rate error_rate : QArith_base.Q) (w : world) :
  absent (fs w) (resolve (finetuned_dir self)) →
  train_with self iterations learning_rate error_rate true w
  = (Raise (FileNotFoundError (log_file_path self)),
     logged (info ("Removing old files in: " +:+ finetuned_dir self)) w)
  ∧ train_with self iterations learning_rate error_rate false w
    = (Ok tt,
       logged (error ("Training failed for model: " +:+ model_name self +:+ ". Error: ")
                     (FileNotFoundError (log_file_path self)))
         (logged (info ("Starting training for model: " +:+ model_name self)) w)).
Proof.
  intros Habs. split; unfold train_with.
  - unfold bind at 1. unfold bind at 1. rewrite logger_info_eq.
    by rewrite (run_fresh self Hname).
  - unfold bind at 1. unfold ret at 1. unfold bind at 1. rewrite logger_info_eq.
    unfold try_except. unfold bind at 1. by rewrite (run_fresh self Hname).
Qed.

End Guards.

Lemma lstmf_files_raise_without_output_dir_witness :
  ∃ w', generate_lstmf_files Toy.trainer (Toy.world_of Toy.fresh)
        = (Raise (FileNotFoundError "/gt/deu_finetuned/deu_finetuned.log"), w')
    ∧ spawned w' = [].
Proof.
  destruct (lstmf_files_raise_without_output_dir Toy.trainer eq_refl
              (Toy.world_of Toy.fresh) eq_refl toy_fresh_absent)
    as (w' & Hrun & _ & Hsp).
  exists w'. split; [exact Hrun | exact Hsp].
Defined.

Lemma purge_is_not_guarded_witness :
  (train_with Toy.trainer 400 default_learning_rate default_error_rate true
     (Toy.world_of Toy.fresh)).1
  = Raise (FileNotFoundError "/gt/deu_finetuned/deu_finetuned.log").
Proof.
  destruct (purge_is_not_guarded Toy.trainer eq_refl 400 default_learning_rate
              default_error_rate (Toy.world_of Toy.fresh) toy_fresh_absent)
    as [-> _].
  reflexivity.
Defined.

(** ** Making the output directory *)

Lemma mkdir_exist_ok_inv (s : string) (p : path) (m m' : gmap path node) :
  mkdir_exist_ok s p m = Ok m' →
  is_dir m' p = true
  ∧ (m' = m ∨ (stat m p = None ∧ m' = <[p := Dir]> m)).
Proof.
  unfold mkdir_exist_ok. destruct (stat m p) as [[d |] |] eqn:Hst.
  - done.
  - intros [= <-]. split; [| by left]. unfold is_dir. by rewrite Hst.
  - destruct (is_dir m (parent p)); [| done]. intros [= <-].
    split; [| by right]. destruct p as [|c p]; [done |].
    unfold is_dir, stat. by rewrite lookup_insert_eq.
Qed.

Lemma mkdir_exist_ok_again (s : string) (p : path) (m : gmap path node) :
  is_dir m p = true → mkdir_exist_ok s p m = Ok m.
Proof.
  unfold is_dir, mkdir_exist_ok. by destruct (stat m p) as [[d |] |].
Qed.

Lemma makedirs_rev_is_dir (s : string) (rp : path) (m m' : gmap path node) :
  makedirs_rev s rp m = Ok m' → is_dir m' (rev rp) = true.
Proof.
  destruct rp as [|c rhead]; [done |]. cbn [makedirs_rev].
  destruct (if exists_ m (rev rhead) then Ok m
            else match makedirs_rev s rhead m with
                 | Raise (FileExistsError _) => Ok m
                 | r => r
                 end) as [m1 | e]; [| done].
  by intros [? _]%mkdir_exist_ok_inv.
Qed.

Lemma exists_insert_other (m : gmap path node) (p q : path) (x : node) :
  p ≠ q → exists_ (<[p := x]> m) q = exists_ m q.
Proof.
  intros Hne. destruct q as [|c q]; [done |]. unfold exists_, stat.
  by rewrite lookup_insert_ne.
Qed.

Lemma rev_cons_longer (c : string) (rhead : path) : rev (c :: rhead) ≠ rev rhead.
Proof.
  intros Heq. apply (f_equal length) in Heq. simpl in Heq.
  rewrite length_app, !length_rev in Heq. simpl in Heq. lia.
Qed.

(** A second [os.makedirs(s, exist_ok=True)] finds everything made. *)
Lemma makedirs_rev_again (s : string) (rp : path) (m m' : gmap path node) :
  makedirs_rev s rp m = Ok m' → makedirs_rev s rp m' = Ok m'.
Proof.
  destruct rp as [|c rhead]; [by intros [= <-] |]. cbn [makedirs_rev].
  destruct (exists_ m (rev rhead)) eqn:Hex.
  - intros Hmk. destruct (mkdir_exist_ok_inv _ _ _ _ Hmk) as [Hdir [-> | [_ ->]]].
    + by rewrite Hex.
    + rewrite exists_insert_other, Hex by apply rev_cons_longer.
      by apply mkdir_exist_ok_again.
  - destruct (makedirs_rev s rhead m) as [m1 | e] eqn:Hrec.
    + intros Hmk. pose proof (makedirs_rev_is_dir _ _ _ _ Hrec) as Hhead.
      destruct (mkdir_exist_ok_inv _ _ _ _ Hmk) as [Hdir Hm'].
      assert (exists_ m' (rev rhead) = true) as ->.
      { destruct Hm' as [-> | [_ ->]].
        - unfold exists_. unfold is_dir in Hhead. by destruct (stat m1 (rev rhead)).
        - rewrite exists_insert_other by apply rev_cons_longer.
          unfold exists_. unfold is_dir in Hhead. by destruct (stat m1 (rev rhead)). }
      by apply mkdir_exist_ok_again.
    + destruct e; try done. intros Hmk.
      destruct (mkdir_exist_ok_inv _ _ _ _ Hmk) as [Hdir [-> | [Hnone ->]]].
      * by rewrite Hex, Hrec.
      * exfalso. unfold mkdir_exist_ok in Hmk. rewrite Hnone in Hmk.
        assert (is_dir m (parent (rev (c :: rhead))) = false) as Hpar.
        { unfold parent. simpl. rewrite removelast_last. unfold is_dir.
          unfold exists_ in Hex. by destruct (stat m (rev rhead)). }
        by rewrite Hpar in Hmk.
Qed.

Section Prepare.
Context `{Environment}.
Variable self : ModelTrainer.

(** [prepare_directories] may be run again: once it has returned, the
    output directory is a directory, and a second run returns as well and
    leaves the file system as the first run left it. *)
Theorem prepare_directories_idempotent (w w1 : world) :
  prepare_directories self w = (Ok tt, w1) →
  is_dir (fs w1) (resolve (finetuned_dir self)) = true
  ∧ ∃ w2, prepare_directories self w1 = (Ok tt, w2) ∧ fs w2 = fs w1.
Proof.
  unfold prepare_directories, bind, os_makedirs.
  destruct (makedirs_rev (finetuned_dir self) (rev (resolve (finetuned_dir self))) (fs w))
    as [m | e] eqn:Hmk; [| done].
  rewrite logger_info_eq. intros [= <-]. rewrite fs_logged. simpl.
  split.
  - apply makedirs_rev_is_dir in Hmk. by rewrite rev_involutive in Hmk.
  - rewrite (makedirs_rev_again _ _ _ _ Hmk). by eexists.
Qed.

(** A regular file in the place of the output directory stops
    [prepare_directories] with [FileExistsError], and with it the whole
    pipeline at its second step: no command is spawned and no later step
    runs. *)
Theorem blocked_output_directory (w : world) (d : string) :
  no_slash (model_name self) = true →
  is_dir (fs w) (resolve (ground_truth_dir self)) = true →
  fs w !! resolve (finetuned_dir self) = Some (File d) →
  fs w !! resolve (log_file_path self) = None →
  prepare_directories self w = (Raise (FileExistsError (finetuned_dir self)), w)
  ∧ ∃ w', train_model self w = (Raise (FileExistsError (finetuned_dir self)), w')
      ∧ spawned w' = spawned w ∧ fs w' = fs w.
Proof.
  intros Hname Hgt Hfd Hlog.
  assert (Hprep : ∀ w0, fs w0 = fs w →
    prepare_directories self w0 = (Raise (FileExistsError (finetuned_dir self)), w0)).
  { intros w0 Hw0. unfold prepare_directories. apply bind_raise.
    unfold os_makedirs. rewrite Hw0, (finetuned_resolved self Hname).
    rewrite rev_app_distr. simpl. rewrite rev_involutive.
    assert (exists_ (fs w) (resolve (base_dir self)) = true) as ->.
    { unfold exists_. unfold is_dir, ground_truth_dir in Hgt.
      by destruct (stat (fs w) (resolve (base_dir self))). }
    unfold mkdir_exist_ok. rewrite <- (finetuned_resolved self Hname).
    rewrite stat_lookup by by apply finetuned_not_root. by rewrite Hfd. }
  split; [by apply Hprep |].
  assert (Hrun : ∀ command, run_command self command
      (logged (info ("Extracting base LSTM for model: " +:+ model_name self)) w)
    = (Raise (NotADirectoryError (log_file_path self)),
       logged (info ("Extracting base LSTM for model: " +:+ model_name self)) w)).
  { intros command. rewrite run_command_raises.
    - unfold unreachable. rewrite fs_logged, (log_parent self Hname).
      unfold is_file. rewrite stat_lookup by by apply finetuned_not_root.
      by rewrite Hfd.
    - rewrite fs_logged. rewrite stat_lookup by by apply log_not_root. done.
    - rewrite fs_logged, (log_parent self Hname). unfold is_dir.
      rewrite stat_lookup by by apply finetuned_not_root. by rewrite Hfd. }
  eexists. unfold train_model. unfold bind at 1.
  unfold extract_base_lstm. unfold bind at 1. rewrite logger_info_eq.
  unfold try_except. unfold bind at 1. rewrite Hrun. rewrite logger_error_eq.
  cbv beta iota. erewrite bind_raise; [| by apply Hprep]. done.
Qed.

End Prepare.

Lemma prepare_directories_idempotent_witness :
  is_dir (fs (prepare_directories Toy.trainer (Toy.world_of Toy.fresh)).2)
         ["gt"; "deu_finetuned"] = true.
Proof.
  destruct (prepare_directories_idempotent Toy.trainer (Toy.world_of Toy.fresh)
              (prepare_directories Toy.trainer (Toy.world_of Toy.fresh)).2)
    as [Hdir _].
  - vm_compute. reflexivity.
  - exact Hdir.
Defined.

Lemma blocked_output_directory_witness :
  prepare_directories Toy.trainer (Toy.world_of ToyBlocked.blocked)
  = (Raise (FileExistsError "/gt/deu_finetuned"), Toy.world_of ToyBlocked.blocked).
Proof.
  destruct (blocked_output_directory Toy.trainer (Toy.world_of ToyBlocked.blocked)
              "not a directory" eq_refl) as [Hprep _].
  - vm_compute. reflexivity.
  - vm_compute. reflexivity.
  - vm_compute. reflexivity.
  - exact Hprep.
Defined.

(** ** What the box-file step leaves alone *)

Lemma keeps_mono {A} (P Q : path → Prop) (m : M A) :
  (∀ q, P q → Q q) → keeps P m → keeps Q m.
Proof. intros HPQ Hm w r w' q Hrun Hq. eapply Hm; [done |]. intros Hp. by apply Hq, HPQ. Qed.

Lemma keeps_pure {A} (P : path → Prop) (m : M A) :
  (∀ w, fs (m w).2 = fs w) → keeps P m.
Proof. intros Hm w r w' q Hrun _. specialize (Hm w). rewrite Hrun in Hm. simpl in Hm. by rewrite Hm. Qed.

Lemma keeps_bind {A B} (P : path → Prop) (m : M A) (k : A → M B) :
  keeps P m → (∀ a, keeps P (k a)) → keeps P (bind m k).
Proof.
  intros Hm Hk w r w' q. unfold bind. destruct (m w) as [[a | e] w1] eqn:Hmw.
  - intros Hkw Hq. rewrite (Hk a w1 r w' q Hkw Hq). by eapply Hm.
  - intros [= <- <-] Hq. by eapply Hm.
Qed.

Lemma keeps_try {A} (P : path → Prop) (body : M A) (handler : exn → M A) :
  keeps P body → (∀ e, keeps P (handler e)) → keeps P (try_except body handler).
Proof.
  intros Hb Hh w r w' q. unfold try_except. destruct (body w) as [[a | e] w1] eqn:Hbw.
  - intros [= <- <-] Hq. by eapply Hb.
  - intros Hhw Hq. rewrite (Hh e w1 r w' q Hhw Hq). by eapply Hb.
Qed.

Lemma keeps_for_each {A} (P : path → Prop) (l : list A) (body : A → M unit) :
  (∀ x, In x l → keeps P (body x)) → keeps P (for_each l body).
Proof.
  induction l as [|x l IH]; intros Hb; simpl.
  - by apply keeps_pure.
  - apply keeps_bind; [apply Hb; by left | intros _; apply IH].
    intros y Hy. apply Hb. by right.
Qed.

Lemma keeps_read_file (P : path → Prop) (s : string) : keeps P (read_file s).
Proof.
  apply keeps_pure. intros w. unfold read_file.
  by destruct (stat (fs w) (resolve s)) as [[d |] |].
Qed.

Lemma keeps_open_for (truncate : bool) (s : string) :
  keeps (λ q, q = resolve s) (open_for truncate s).
Proof.
  intros w r w' q. unfold open_for. cbv zeta.
  destruct (stat (fs w) (resolve s)) as [[d |] |].
  - destruct truncate; intros [= <- <-] Hq; [| done]. simpl. by rewrite lookup_insert_ne.
  - by intros [= <- <-].
  - destruct (is_dir _ _); intros [= <- <-] Hq; [| done]. simpl.
    by rewrite lookup_insert_ne.
Qed.

Lemma keeps_handle_write (s text : string) :
  keeps (λ q, q = resolve s) (handle_write s text).
Proof.
  intros w r w' q. unfold handle_write. cbv zeta.
  destruct (fs w !! resolve s) as [[d |] |]; intros [= <- <-] Hq; try done.
  simpl. by rewrite lookup_insert_ne.
Qed.

Section BoxFrame.
Context `{Environment}.
Variable self : ModelTrainer.

Lemma keeps_box_one (file : string) :
  keeps (λ q, is_image_name file = true ∧ q = resolve (box_path_of self file))
        (box_one self file).
Proof.
  unfold box_one. destruct (is_image_name file) eqn:Himg; [| by apply keeps_pure].
  apply (keeps_mono (λ q, q = resolve (box_path_of self file))); [by intros q -> |].
  apply keeps_bind; [by apply keeps_pure | intros _].
  apply keeps_try; [| intros e; by apply keeps_pure].
  unfold box_try.
  apply keeps_bind; [apply keeps_read_file | intros bytes].
  apply keeps_bind.
  { destruct (image_size bytes); by apply keeps_pure. }
  intros size. apply keeps_bind; [by apply keeps_pure | intros _].
  apply keeps_bind.
  { apply keeps_bind; [apply keeps_read_file | intros d; by apply keeps_pure]. }
  intros text. apply keeps_bind.
  { destruct (negb _); by apply keeps_pure. }
  intros _. destruct (Py.truthy _); [| by apply keeps_pure].
  apply keeps_bind; [apply keeps_open_for | intros _].
  apply keeps_bind; [apply keeps_handle_write | intros _].
  apply keeps_bind; [apply keeps_handle_write | intros _].
  by apply keeps_pure.
Qed.

(** [generate_box_files] spawns no command, prints nothing, makes and
    removes no directory, and the only entries of the file system it
    changes are the box files of the images in the listing.  A failure
    on one image never ends the pass: where the ground-truth directory
    is named directly and exists, the step returns normally. *)
Theorem box_files_only (w : world) :
  let names := entries (fs w) (resolve (ground_truth_dir self)) in
  let r := (generate_box_files self w).1 in
  let w' := (generate_box_files self w).2 in
  quiet w w'
  ∧ (∀ q, (∀ file, In file names → is_image_name file = true →
           q ≠ resolve (box_path_of self file)) →
          fs w' !! q = fs w !! q)
  ∧ (direct (ground_truth_dir self) = true →
     is_dir (fs w) (resolve (ground_truth_dir self)) = true → r = Ok tt).
Proof.
  intros names r w'. subst r w'. unfold generate_box_files, bind, os_listdir.
  destruct (stat (fs w) (resolve (ground_truth_dir self))) as [[d |] |] eqn:Hst.
  - split; [apply quiet_refl |]. split; [done |]. intros _. unfold is_dir. by rewrite Hst.
  - fold names.
    destruct (for_each names (box_one self) w) as [r w'] eqn:Hloop. simpl.
    split; [| split].
    + eapply quietly_for_each; [| exact Hloop]. intros x. apply quietly_box_one.
    + intros q Hq.
      eapply (keeps_for_each
                (λ q, ∃ file, In file names ∧ is_image_name file = true
                              ∧ q = resolve (box_path_of self file)));
        [| exact Hloop |].
      * intros file Hin. eapply keeps_mono; [| apply keeps_box_one].
        intros q' [Himg ->]. by exists file.
      * intros (file & Hin & Himg & ->). by apply (Hq file).
    + intros _ _. destruct (for_each_total names (box_one self) w (box_one_total self))
        as [w2 Hw2]. rewrite Hw2 in Hloop. by injection Hloop as <- _.
  - split; [apply quiet_refl |]. split; [done |]. intros _. unfold is_dir. by rewrite Hst.
Qed.

End BoxFrame.

Lemma box_files_only_witness :
  (generate_box_files Toy.trainer (Toy.world_of Toy.fresh)).1 = Ok tt
  ∧ fs (generate_box_files Toy.trainer (Toy.world_of Toy.fresh)).2 !! ["gt"; "a.gt.txt"]
    = Some (File ("abc" +:+ Py.nl)).
Proof.
  destruct (box_files_only Toy.trainer (Toy.world_of Toy.fresh)) as (_ & Hkeep & Hok).
  split; [apply Hok; reflexivity |].
  rewrite Hkeep; [vm_compute; reflexivity |].
  assert (entries (fs (Toy.world_of Toy.fresh)) (resolve (ground_truth_dir Toy.trainer))
          = ["a.gt.txt"; "a.png"]) as -> by (vm_compute; reflexivity).
  intros file [<- | [<- | []]] Himg; vm_compute; discriminate.
Defined.

(** ** The purge of [train] and the log file *)

Section Purge.
Context `{Environment}.
Variable self : ModelTrainer.

(** [run_command] keeps the log file inside the output directory, and
    the purge of [train] goes through [run_command] like every other
    command.  So, with a POSIX shell and a log file whose name does not
    start with a dot, a purging [train] deletes the log of the job: no
    log file exists when the purge is over, and once [train] has
    returned the log file holds the output of the trainer and nothing
    else, whatever earlier steps had written, the trainer leaving the
    log file where it found it. *)
Theorem purging_train_restarts_log (iterations : Z)
    (learning_rate error_rate : QArith_base.Q) (w : world) :
  no_slash (model_name self) = true →
  posix_purge self →
  is_dir (fs w) (resolve (finetuned_dir self)) = true →
  is_dir (fs w) (resolve (log_file_path self)) = false →
  Shell.hidden (model_name self +:+ "_finetuned.log") = false →
  let log := resolve (log_file_path self) in
  let w1 := ran self (purge_command self)
              (logged (info ("Removing old files in: " +:+ finetuned_dir self)) w) in
  let c := child self (lstmtraining_command self iterations)
             (logged (info ("Starting training for model: " +:+ model_name self)) w1) in
  fs w1 !! log = None
  ∧ ∃ w', train_with self iterations learning_rate error_rate true w = (Ok tt, w')
      ∧ (fs_after c !! log = Some (File "") →
         fs w' !! log = Some (File (text_of (out_lines c)))).
Proof.
  intros Hname Hposix Hout Hlog Hlogname log w1 c.
  destruct (purged_world_open self
              (logged (info ("Removing old files in: " +:+ finetuned_dir self)) w)
              Hposix Hout Hlog) as [Hout1 Hlog1].
  fold w1 in Hout1, Hlog1.
  split.
  - subst w1. rewrite (purged_world self) by done. apply rm_rf_glob_purged.
    + by rewrite is_dir_touch, fs_logged.
    + unfold Shell.purged.
      rewrite (proj2 (strip_prefix_Some _ _ [model_name self +:+ "_finetuned.log"]))
        by apply (log_resolved self Hname).
      by rewrite Hlogname.
  - eexists. split.
    + unfold train_with. unfold bind at 1. unfold bind at 1.
      rewrite logger_info_eq.
      rewrite run_command_ok by by apply (out_openable self Hname).
      fold w1. unfold bind at 1. rewrite logger_info_eq.
      rewrite (guarded_open self); [done |].
      rewrite fs_logged. by apply (out_openable self Hname).
    + intros Hkept. unfold logged at 1. unfold ran. cbn [fs]. fold c. fold log.
      rewrite (append_all_file _ _ _ _ Hkept). by rewrite lookup_insert_eq.
Qed.

End Purge.

Lemma purging_train_restarts_log_witness :
  ToyUsed.used !! ["gt"; "deu_finetuned"; "deu_finetuned.log"]
  = Some (File ("earlier output" +:+ Py.nl))
  ∧ fs (train_with Toy.trainer 1000 default_learning_rate default_error_rate true
          (Toy.world_of ToyUsed.used)).2
      !! ["gt"; "deu_finetuned"; "deu_finetuned.log"]
    = Some (File ("oops" +:+ Py.nl)).
Proof.
  split; [vm_compute; reflexivity |].
  destruct (purging_train_restarts_log Toy.trainer 1000 default_learning_rate
              default_error_rate (Toy.world_of ToyUsed.used) eq_refl toy_posix_purge)
    as (_ & w' & Hrun & Hlog).
  - vm_compute. reflexivity.
  - vm_compute. reflexivity.
  - reflexivity.
  - rewrite Hrun. cbn [snd]. apply Hlog. vm_compute. reflexivity.
Defined.

(** ** The window *)

Lemma gbind_done {A B} (m : G A) (k : A → G B) (g g' : window) (w w' : world) (a : A) :
  m g w = (Done a, g', w') → gbind m k g w = k a g' w'.
Proof. unfold gbind. by intros ->. Qed.

Lemma gbind_failed {A B} (m : G A) (k : A → G B) (g g' : window) (w w' : world)
    (e : raised) :
  m g w = (Failed e, g', w') → gbind m k g w = (Failed e, g', w').
Proof. unfold gbind. by intros ->. Qed.

Lemma lift_ok {A} (m : M A) (g : window) (w w' : world) (a : A) :
  m w = (Ok a, w') → lift m g w = (Done a, g, w').
Proof. unfold lift. by intros ->. Qed.

Lemma lift_raise {A} (m : M A) (g : window) (w w' : world) (e : exn) :
  m w = (Raise e, w') → lift m g w = (Failed (PyError e), g, w').
Proof. unfold lift. by intros ->. Qed.

Lemma truthy_app (a b : string) : Py.truthy b = true → Py.truthy (a +:+ b) = true.
Proof. destruct a; [done |]. by rewrite app_cons. Qed.

Lemma item_Some (l : list string) (i : nat) (x : string) (g : window) (w : world) :
  l !! i = Some x → item l i g w = (Done x, g, w).
Proof. unfold item. by intros ->. Qed.

Lemma item_None (l : list string) (i : nat) (g : window) (w : world) :
  l !! i = None → item l i g w = (Failed IndexError, g, w).
Proof. unfold item. by intros ->. Qed.

(** *** Methods that only look *)

Lemma browses_gret {A} (a : A) : browses (gret a).
Proof. by intros g w. Qed.

Lemma browses_gfail {A} (e : raised) : browses (@gfail A e).
Proof. by intros g w. Qed.

Lemma browses_gbind {A B} (m : G A) (k : A → G B) :
  browses m → (∀ a, browses (k a)) → browses (gbind m k).
Proof.
  intros Hm Hk g w. unfold gbind. specialize (Hm g w).
  destruct (m g w) as [[[a | e] g1] w1]; simpl in Hm.
  - destruct Hm as (-> & <- & <- & <-). apply Hk.
  - done.
Qed.

Lemma browses_lift {A} (m : M A) : (∀ w, (m w).2 = w) → browses (lift m).
Proof.
  intros Hm g w. unfold lift. specialize (Hm w).
  by destruct (m w) as [[a | e] w1].
Qed.

Lemma browses_this : browses this.
Proof. by intros g w. Qed.

Lemma os_path_exists_pure (s : string) (w : world) : (os_path_exists s w).2 = w.
Proof. reflexivity. Qed.

Lemma read_text_pure (s : string) (w : world) : (read_text s w).2 = w.
Proof.
  unfold read_text, bind, read_file. by destruct (stat (fs w) (resolve s)) as [[d |] |].
Qed.

Lemma is_removed_pair_pure (base name : string) (w : world) :
  (is_removed_pair base name w).2 = w.
Proof.
  unfold is_removed_pair, bind, os_path_exists. destruct (exists_ _ _); [| done].
  unfold read_text, bind, read_file. by destruct (stat (fs w) _) as [[d |] |].
Qed.

Section WindowLooks.
Context `{Toolkit}.

Lemma browses_load_image (file_path : string) : browses (load_image file_path).
Proof.
  unfold load_image. destruct (Py.truthy file_path); [| apply browses_gret].
  intros g w. cbv zeta.
  by destruct (match stat (fs w) (resolve file_path) with
               | Some (File bytes) => pixmap_size bytes
               | _ => None
               end) as [[width height] |].
Qed.

Lemma browses_load_text (file_path : string) : browses (load_text file_path).
Proof.
  unfold load_text. destruct (Py.truthy file_path); [| apply browses_gfail].
  apply browses_gbind; [apply browses_lift, read_text_pure |]. by intros text g w.
Qed.

Lemma browses_load_pair (name : string) : browses (load_pair name).
Proof.
  unfold load_pair. destruct (Py.truthy name); [| apply browses_gret].
  apply browses_gbind; [apply browses_this | intros self].
  apply browses_gbind; [apply browses_lift, is_removed_pair_pure | intros removed].
  destruct (negb removed); [| apply browses_gret]. cbv zeta.
  apply browses_gbind; [apply browses_lift, os_path_exists_pure | intros found].
  apply browses_gbind.
  { destruct found; [apply browses_load_image | apply browses_gfail]. }
  intros _. apply browses_gbind; [apply browses_lift, os_path_exists_pure | intros found'].
  apply browses_gbind.
  { destruct found'; [apply browses_load_text | apply browses_gfail]. }
  by intros _ g w.
Qed.

(** What [fetch_current_pair] does once the current pair is found. *)
Lemma fetch_current_pair_eq (step : Z) (g : window) (w : world) (name : string) :
  file_base_names g !! current_index g = Some name →
  fetch_current_pair step g w
  = match (open_write (name +:+ ".gt.txt")
           >> handle_write (name +:+ ".gt.txt") (text_editor g)) w with
    | (Raise e, w1) => (Failed (PyError e), g, w1)
    | (Ok _, w1) =>
        let new_index := (Z.of_nat (current_index g) + step)%Z in
        if (0 <=? new_index)%Z
           && (new_index <? Z.of_nat (length (file_base_names g)))%Z
        then match file_base_names g !! Z.to_nat new_index with
             | Some next => load_pair next (set_current_index (Z.to_nat new_index) g) w1
             | None => (Failed IndexError, set_current_index (Z.to_nat new_index) g, w1)
             end
        else (Done tt, g, w1)
    end.
Proof.
  intros Hname. unfold fetch_current_pair. unfold gbind at 1. unfold this at 1.
  rewrite (gbind_done _ _ _ _ _ _ _ (item_Some _ _ _ g w Hname)).
  unfold gbind at 1. unfold save_text.
  rewrite truthy_app by done. unfold gbind at 1. unfold this at 1. unfold lift.
  destruct ((open_write (name +:+ ".gt.txt")
             >> handle_write (name +:+ ".gt.txt") (text_editor g)) w)
    as [[[] | e] w1]; [| done].
  cbv zeta. destruct (_ && _); [| done].
  unfold gbind at 1. unfold assign at 1. unfold gbind at 1. unfold item.
  by destruct (file_base_names g !! Z.to_nat _).
Qed.

End WindowLooks.

Lemma write_one (s a : string) (w : world) :
  openable (fs w) s →
  (open_write s >> handle_write s a) w
  = (Ok tt, set_fs (<[resolve s := File a]> (fs w)) w).
Proof.
  intros Hopen. rewrite (bind_ok _ _ _ _ _ (open_write_ok _ _ Hopen)).
  rewrite (handle_write_file _ _ "") by (simpl; apply lookup_insert_eq).
  simpl. by rewrite insert_insert_eq.
Qed.

Section WindowProperties.
Context `{Toolkit}.

(** Going to the previous or the next pair never takes the index out of
    the list: the list and the base path stay, and the index either moves
    by the step or, at an end of the list or when saving fails, stays
    where it is. *)
Theorem navigation_stays_in_range (step : Z) (g : window) (w : world) :
  current_index g < length (file_base_names g) →
  let g' := (fetch_current_pair step g w).1.2 in
  file_base_names g' = file_base_names g
  ∧ base_path g' = base_path g
  ∧ current_index g' < length (file_base_names g')
  ∧ (current_index g' = current_index g
     ∨ Z.of_nat (current_index g') = (Z.of_nat (current_index g) + step)%Z).
Proof.
  intros Hin g'. subst g'.
  destruct (lookup_lt_is_Some_2 _ _ Hin) as [name Hname].
  rewrite (fetch_current_pair_eq step g w name Hname).
  destruct ((open_write (name +:+ ".gt.txt")
             >> handle_write (name +:+ ".gt.txt") (text_editor g)) w)
    as [[[] | e] w1]; [| simpl; by repeat split; [| left]].
  cbv zeta. destruct (_ && _) eqn:Hrange; [| simpl; by repeat split; [| left]].
  apply andb_true_iff in Hrange as [Hlo Hhi].
  apply Z.leb_le in Hlo. apply Z.ltb_lt in Hhi.
  destruct (file_base_names g !! Z.to_nat _) as [next |] eqn:Hnext.
  - destruct (browses_load_pair next
                (set_current_index (Z.to_nat (Z.of_nat (current_index g) + step)) g) w1)
      as (_ & Hn & Hi & Hb).
    rewrite Hn, Hi, Hb. simpl. repeat split; [lia | right; lia].
  - simpl. repeat split; [lia | right; lia].
Qed.

(** Going to another pair first writes the text of the editor to the
    transcription of the current pair, and nothing after that writes:
    whether or not a pair is then loaded, that file is the one change to
    the file system. *)
Theorem navigation_saves_text (step : Z) (g : window) (w : world) (name : string) :
  file_base_names g !! current_index g = Some name →
  openable (fs w) (name +:+ ".gt.txt") →
  fs (fetch_current_pair step g w).2
  = <[resolve (name +:+ ".gt.txt") := File (text_editor g)]> (fs w).
Proof.
  intros Hname Hopen. rewrite (fetch_current_pair_eq step g w name Hname).
  rewrite write_one by done. cbv zeta. destruct (_ && _); [| done].
  destruct (file_base_names g !! Z.to_nat _) as [next |]; [| done].
  by rewrite (proj1 (browses_load_pair next _ _)).
Qed.

(** Removing the last of several pairs deletes its two files and logs
    it, then fails with [IndexError]: the index is left past the end of
    the shortened list, where every later move and every later removal
    fails with [IndexError] too. *)
Theorem removing_last_pair_strands_index (g : window) (w w1 w2 w3 : world)
    (l : list string) (name : string) :
  file_base_names g = l ++ [name] →
  l ≠ [] →
  current_index g = length l →
  os_remove (name +:+ ".tif") w = (Ok tt, w1) →
  os_remove (name +:+ ".gt.txt") w1 = (Ok tt, w2) →
  log_removed_pair (base_path g) name w2 = (Ok tt, w3) →
  let g' := set_file_base_names l g in
  remove_current_pair g w = (Failed IndexError, g', w3)
  ∧ (∀ step w', fetch_current_pair step g' w' = (Failed IndexError, g', w'))
  ∧ (∀ w', remove_current_pair g' w' = (Failed IndexError, g', w')).
Proof.
  intros Hnames Hl Hidx Htif Hgt Hlog g'.
  assert (Hitem : file_base_names g !! current_index g = Some name).
  { rewrite Hnames, Hidx. by apply list_lookup_middle. }
  assert (Hgone : file_base_names g' !! current_index g' = None).
  { subst g'. simpl. rewrite Hidx. by apply lookup_ge_None. }
  assert (Hne : nonempty l = true) by by destruct l.
  split; [| split].
  - unfold remove_current_pair. unfold gbind at 1. unfold this at 1.
    rewrite Hnames. assert (nonempty (l ++ [name]) = true) as -> by by destruct l.
    rewrite <- Hnames.
    rewrite (gbind_done _ _ _ _ _ _ _ (item_Some _ _ _ g w Hitem)).
    rewrite (gbind_done _ _ _ _ _ _ _ (lift_ok _ g _ _ _ Htif)).
    rewrite (gbind_done _ _ _ _ _ _ _ (lift_ok _ g _ _ _ Hgt)).
    rewrite (gbind_done _ _ _ _ _ _ _ (lift_ok _ g _ _ _ Hlog)).
    cbv zeta. rewrite Hnames, Hidx, delete_middle, app_nil_r.
    unfold gbind at 1. unfold assign at 1. rewrite Hne.
    apply gbind_failed. apply item_None. by apply lookup_ge_None.
  - intros step w'. unfold fetch_current_pair. unfold gbind at 1. unfold this at 1.
    apply gbind_failed. by apply item_None.
  - intros w'. unfold remove_current_pair. unfold gbind at 1. unfold this at 1.
    assert (nonempty (file_base_names g') = true) as -> by done.
    apply gbind_failed. by apply item_None.
Qed.

(** Removing a pair that is not the last deletes its two files, logs it
    and takes it out of the list; the index stays, so that it now
    designates the pair that followed, which is the pair loaded. *)
Theorem removing_inner_pair_shows_next (g : window) (w w1 w2 w3 : world)
    (name : string) :
  file_base_names g !! current_index g = Some name →
  S (current_index g) < length (file_base_names g) →
  os_remove (name +:+ ".tif") w = (Ok tt, w1) →
  os_remove (name +:+ ".gt.txt") w1 = (Ok tt, w2) →
  log_removed_pair (base_path g) name w2 = (Ok tt, w3) →
  let names := delete (current_index g) (file_base_names g) in
  ∃ next, file_base_names g !! S (current_index g) = Some next
    ∧ remove_current_pair g w = load_pair next (set_file_base_names names g) w3
    ∧ (remove_current_pair g w).2 = w3
    ∧ file_base_names (remove_current_pair g w).1.2 = names
    ∧ current_index (remove_current_pair g w).1.2 = current_index g
    ∧ current_index g < length names.
Proof.
  intros Hitem Hnext Htif Hgt Hlog names.
  destruct (lookup_lt_is_Some_2 _ _ Hnext) as [next Hnx]. exists next.
  assert (Hlen : current_index g < length names).
  { subst names. rewrite length_delete by by eexists. lia. }
  assert (Hrun : remove_current_pair g w
                 = load_pair next (set_file_base_names names g) w3).
  { unfold remove_current_pair. unfold gbind at 1. unfold this at 1.
    assert (nonempty (file_base_names g) = true) as ->.
    { destruct (file_base_names g); [simpl in Hnext; lia | done]. }
    rewrite (gbind_done _ _ _ _ _ _ _ (item_Some _ _ _ g w Hitem)).
    rewrite (gbind_done _ _ _ _ _ _ _ (lift_ok _ g _ _ _ Htif)).
    rewrite (gbind_done _ _ _ _ _ _ _ (lift_ok _ g _ _ _ Hgt)).
    rewrite (gbind_done _ _ _ _ _ _ _ (lift_ok _ g _ _ _ Hlog)).
    cbv zeta. fold names. unfold gbind at 1. unfold assign at 1.
    assert (nonempty names = true) as ->.
    { destruct names; [simpl in Hlen; lia | done]. }
    apply gbind_done. apply item_Some. subst names.
    by rewrite list_lookup_delete_ge. }
  split; [done |]. split; [done |]. rewrite Hrun.
  destruct (browses_load_pair next (set_file_base_names names g) w3)
    as (Hw & Hn & Hi & _).
  by rewrite Hw, Hn, Hi.
Qed.

(** A removal that cannot delete the image raises before anything is
    changed.  A removal that finds the image but not the transcription
    has deleted the image when it raises: the pair stays in the list and
    nothing is logged. *)
Theorem failed_removal (g : window) (w : world) (name : string) :
  file_base_names g !! current_index g = Some name →
  (stat (fs w) (resolve (name +:+ ".tif")) = None →
   remove_current_pair g w
   = (Failed (PyError (unreachable (fs w) (name +:+ ".tif"))), g, w))
  ∧ (∀ bytes,
       stat (fs w) (resolve (name +:+ ".tif")) = Some (File bytes) →
       stat (delete (resolve (name +:+ ".tif")) (fs w))
            (resolve (name +:+ ".gt.txt")) = None →
       let w1 := set_fs (delete (resolve (name +:+ ".tif")) (fs w)) w in
       remove_current_pair g w
       = (Failed (PyError (unreachable (fs w1) (name +:+ ".gt.txt"))), g, w1)).
Proof.
  intros Hitem.
  assert (Hne : nonempty (file_base_names g) = true).
  { destruct (file_base_names g); [by rewrite lookup_nil in Hitem | done]. }
  split.
  - intros Hst. unfold remove_current_pair. unfold gbind at 1. unfold this at 1.
    rewrite Hne. rewrite (gbind_done _ _ _ _ _ _ _ (item_Some _ _ _ g w Hitem)).
    apply gbind_failed. apply lift_raise. unfold os_remove. by rewrite Hst.
  - intros bytes Hst Hgt w1. unfold remove_current_pair. unfold gbind at 1.
    unfold this at 1. rewrite Hne.
    rewrite (gbind_done _ _ _ _ _ _ _ (item_Some _ _ _ g w Hitem)).
    erewrite gbind_done; [| apply lift_ok; unfold os_remove; by rewrite Hst].
    apply gbind_failed. apply lift_raise. unfold os_remove. subst w1. simpl fs.
    by rewrite Hgt.
Qed.

(** A pair that was logged as removed is never shown again: loading it
    changes neither the window nor the world. *)
Theorem removed_pair_is_not_shown (g : window) (w : world) (name : string) :
  no_break name = true →
  tombstones_ok (base_path g) (fs w) →
  (log_removed_pair (base_path g) name w).1 = Ok tt →
  let w' := (log_removed_pair (base_path g) name w).2 in
  load_pair name g w' = (Done tt, g, w').
Proof.
  intros Hname Hok Hrun w'.
  destruct (logged_after (base_path g) name w Hname Hok Hrun) as (names & Hlogged & Hin).
  fold w' in Hlogged.
  unfold load_pair. destruct (Py.truthy name); [| done].
  unfold gbind at 1. unfold this at 1.
  erewrite gbind_done;
    [| apply lift_ok; rewrite is_removed_pair_logged, Hlogged; reflexivity].
  by rewrite (proj2 (contains_In names name) Hin).
Qed.

(** What was saved is what is loaded: after [save_text], [load_text] on
    the same path shows the saved text, its line ends translated as text
    mode does. *)
Theorem saved_text_is_loaded (file_path : string) (g : window) (w : world) :
  Py.truthy file_path = true →
  openable (fs w) file_path →
  let w1 := set_fs (<[resolve file_path := File (text_editor g)]> (fs w)) w in
  save_text file_path g w = (Done tt, g, w1)
  ∧ load_text file_path g w1
    = (Done tt,
       set_text_editor (line_edit_text (Py.universal_newlines (text_editor g))) g,
       w1).
Proof.
  intros Hpath Hopen w1. split.
  - unfold save_text. rewrite Hpath. unfold gbind at 1. unfold this at 1.
    apply lift_ok. by apply write_one.
  - unfold load_text. rewrite Hpath.
    erewrite gbind_done; [done |]. apply lift_ok.
    apply (read_text_holds file_path (text_editor g)).
    unfold holds. subst w1. simpl.
    destruct Hopen as [_ Hnd].
    destruct (resolve file_path) as [|c p]; [done |]. simpl.
    apply lookup_insert_eq.
Qed.

End WindowProperties.

Lemma navigation_stays_in_range_witness :
  current_index
    (fetch_current_pair 1 (ToyWindow.showing 0 "edited")
       (Toy.world_of ToyWindow.two_pairs)).1.2 < 2.
Proof.
  destruct (navigation_stays_in_range 1 (ToyWindow.showing 0 "edited")
              (Toy.world_of ToyWindow.two_pairs)) as (Hn & _ & Hlt & _).
  - simpl. lia.
  - rewrite Hn in Hlt. exact Hlt.
Defined.

Lemma navigation_saves_text_witness :
  fs (fetch_current_pair 1 (ToyWindow.showing 0 "edited")
        (Toy.world_of ToyWindow.two_pairs)).2 !! ["gt"; "a.gt.txt"]
  = Some (File "edited").
Proof.
  rewrite (navigation_saves_text 1 (ToyWindow.showing 0 "edited")
             (Toy.world_of ToyWindow.two_pairs) "/gt/a").
  - vm_compute. reflexivity.
  - reflexivity.
  - split; vm_compute; reflexivity.
Defined.

Lemma removing_last_pair_strands_index_witness :
  (remove_current_pair (ToyWindow.showing 1 "second")
     (Toy.world_of ToyWindow.two_pairs)).1.1 = Failed IndexError.
Proof.
  pose (w := Toy.world_of ToyWindow.two_pairs).
  pose (w1 := (os_remove "/gt/b.tif" w).2).
  pose (w2 := (os_remove "/gt/b.gt.txt" w1).2).
  pose (w3 := (log_removed_pair "/gt" "/gt/b" w2).2).
  destruct (removing_last_pair_strands_index (ToyWindow.showing 1 "second")
              w w1 w2 w3 ["/gt/a"] "/gt/b") as [Hrun _].
  - reflexivity.
  - discriminate.
  - reflexivity.
  - vm_compute. reflexivity.
  - vm_compute. reflexivity.
  - vm_compute. reflexivity.
  - fold w. rewrite Hrun. reflexivity.
Defined.

Lemma removing_inner_pair_shows_next_witness :
  file_base_names
    (remove_current_pair (ToyWindow.showing 0 "first")
       (Toy.world_of ToyWindow.two_pairs)).1.2 = ["/gt/b"].
Proof.
  pose (w := Toy.world_of ToyWindow.two_pairs).
  pose (w1 := (os_remove "/gt/a.tif" w).2).
  pose (w2 := (os_remove "/gt/a.gt.txt" w1).2).
  pose (w3 := (log_removed_pair "/gt" "/gt/a" w2).2).
  destruct (removing_inner_pair_shows_next (ToyWindow.showing 0 "first")
              w w1 w2 w3 "/gt/a") as (next & _ & _ & _ & Hn & _).
  - reflexivity.
  - simpl. lia.
  - vm_compute. reflexivity.
  - vm_compute. reflexivity.
  - vm_compute. reflexivity.
  - exact Hn.
Defined.

Lemma failed_removal_witness :
  remove_current_pair (ToyWindow.showing 0 "first") (Toy.world_of ToyStore.clean)
  = (Failed (PyError (FileNotFoundError "/gt/a.tif")),
     ToyWindow.showing 0 "first", Toy.world_of ToyStore.clean).
Proof.
  destruct (failed_removal (ToyWindow.showing 0 "first")
              (Toy.world_of ToyStore.clean) "/gt/a") as [Hmissing _].
  - reflexivity.
  - rewrite Hmissing; [| vm_compute; reflexivity].
    vm_compute. reflexivity.
Defined.

Lemma removed_pair_is_not_shown_witness :
  let w' := (log_removed_pair "/gt" "/gt/a" (Toy.world_of ToyStore.buried)).2 in
  load_pair "/gt/a" (ToyWindow.showing 0 "first") w'
  = (Done tt, ToyWindow.showing 0 "first", w').
Proof.
  apply (removed_pair_is_not_shown (ToyWindow.showing 0 "first")
           (Toy.world_of ToyStore.buried) "/gt/a").
  - reflexivity.
  - apply buried_ok.
  - vm_compute. reflexivity.
Defined.

Lemma saved_text_is_loaded_witness :
  (load_text "/gt/a.gt.txt" (ToyWindow.showing 0 "edited")
     (save_text "/gt/a.gt.txt" (ToyWindow.showing 0 "edited")
        (Toy.world_of ToyWindow.two_pairs)).2).1.2
  = ToyWindow.showing 0 "edited".
Proof.
  destruct (saved_text_is_loaded "/gt/a.gt.txt" (ToyWindow.showing 0 "edited")
              (Toy.world_of ToyWindow.two_pairs)) as [Hsave Hload].
  - reflexivity.
  - split; vm_compute; reflexivity.
  - rewrite Hsave. cbn [snd]. rewrite Hload. reflexivity.
Defined.

Section WindowDirectory.
Context `{Toolkit}.

Lemma choosing_directory_run (directory : string) (g : window) (w : world) :
  Py.truthy directory = true →
  is_dir (fs w) (resolve directory) = true →
  let names := entries (fs w) (resolve directory) in
  let g1 := set_settings_base_path directory (set_base_path directory g) in
  set_ground_truth_base_path directory g w
  = match List.find (λ n, negb (pair_ok directory (fs w) n)) names with
    | Some n => (Failed (PyError (pair_error n)), g1, w)
    | None =>
        (if nonempty (base_paths directory names) then
           let+ name := item (base_paths directory names) 0 in
           load_pair name >>>
           assign (set_path_label ("Base Path: " +:+ directory))
         else gret tt)
          (set_current_index 0 (set_file_base_names (base_paths directory names) g1)) w
    end.
Proof.
  intros Hdir Hls names g1.
  unfold set_ground_truth_base_path. rewrite Hdir.
  unfold gbind at 1. unfold assign at 1. unfold gbind at 1. unfold assign at 1.
  unfold gbind at 1. unfold lift at 1.
  rewrite (discovery_run directory w Hdir Hls). fold names.
  destruct (List.find _ names) as [bad |]; [done |].
  unfold gbind at 1. unfold assign at 1. unfold gbind at 1. unfold assign at 1.
  done.
Qed.

(** Choosing a directory assigns the base path before it looks for the
    pairs.  With every pair complete, the window then lists the pairs of
    the new directory from index 0.  With a counterpart missing, the
    method raises [FileNotFoundError] after the base path was assigned
    and stored: the window keeps the list and the index of the directory
    it showed before. *)
Theorem choosing_directory (directory : string) (g : window) (w : world) :
  Py.truthy directory = true →
  is_dir (fs w) (resolve directory) = true →
  let names := entries (fs w) (resolve directory) in
  let r := set_ground_truth_base_path directory g w in
  ((∀ n, In n names → pair_ok directory (fs w) n = true) →
   file_base_names r.1.2 = base_paths directory names
   ∧ current_index r.1.2 = 0
   ∧ base_path r.1.2 = directory
   ∧ r.2 = w)
  ∧ ((∃ n, In n names ∧ pair_ok directory (fs w) n = false) →
     ∃ n, In n names ∧ pair_ok directory (fs w) n = false
       ∧ r.1.1 = Failed (PyError (pair_error n))
       ∧ base_path r.1.2 = directory
       ∧ settings_base_path r.1.2 = directory
       ∧ file_base_names r.1.2 = file_base_names g
       ∧ current_index r.1.2 = current_index g
       ∧ r.2 = w).
Proof.
  intros Hdir Hls names r.
  pose proof (choosing_directory_run directory g w Hdir Hls) as Hrun.
  cbv zeta in Hrun. fold names in Hrun. fold r in Hrun.
  destruct (List.find (λ n, negb (pair_ok directory (fs w) n)) names)
    as [bad |] eqn:Hfind.
  - apply find_some in Hfind as [Hin Hbad]. apply negb_true_iff in Hbad. split.
    + intros Hall. rewrite (Hall bad Hin) in Hbad. done.
    + intros _. exists bad. rewrite Hrun. simpl. by repeat split.
  - split.
    + intros _. rewrite Hrun.
      destruct (base_paths directory names) as [|first rest] eqn:Hpaths; [done |].
      cbn [nonempty].
      set (g2 := set_current_index 0 _).
      assert (browses (let+ name := item (first :: rest) 0 in
                       load_pair name >>>
                       assign (set_path_label ("Base Path: " +:+ directory))))
        as Hlook.
      { apply browses_gbind; [by intros g0 w0 | intros name].
        apply browses_gbind; [apply browses_load_pair | by intros _ g0 w0]. }
      destruct (Hlook g2 w) as (Hw & Hn & Hi & Hb).
      by rewrite Hw, Hn, Hi, Hb.
    + intros (n & Hin & Hbad). pose proof (find_none _ _ Hfind n Hin) as Hn.
      simpl in Hn. by rewrite Hbad in Hn.
Qed.

(** [load_pair] does not look for [<base name>.tif] but for the base name
    cut at its last dot, with [.tif] after it: when no such file exists
    it raises [FileNotFoundError], whether or not [<base name>.tif]
    exists, and shows nothing. *)
Theorem load_pair_cuts_at_last_dot (name : string) (g : window) (w : world) :
  Py.truthy name = true →
  is_removed_pair (base_path g) name w = (Ok false, w) →
  exists_ (fs w) (resolve ((Py.splitext name).1 +:+ ".tif")) = false →
  load_pair name g w
  = (Failed (PyError (FileNotFoundError ("Image file not found for " +:+ name))), g, w).
Proof.
  intros Hname Hrem Hex. unfold load_pair. rewrite Hname.
  unfold gbind at 1. unfold this at 1.
  rewrite (gbind_done _ _ _ _ _ _ _ (lift_ok _ g _ _ _ Hrem)).
  cbn [negb]. cbv zeta. unfold gbind at 1. unfold lift at 1. unfold os_path_exists.
  rewrite Hex. by unfold gbind, gfail.
Qed.

End WindowDirectory.

Lemma choosing_directory_witness :
  file_base_names
    (set_ground_truth_base_path "/gt" (ToyWindow.showing 1 "second")
       (Toy.world_of Toy.paired)).1.2 = ["/gt/b"].
Proof.
  destruct (choosing_directory "/gt" (ToyWindow.showing 1 "second")
              (Toy.world_of Toy.paired) eq_refl eq_refl) as [Hok _].
  destruct Hok as (Hn & _).
  - rewrite toy_paired_entries.
    intros n [<- | [<- | []]]; vm_compute; reflexivity.
  - rewrite Hn. vm_compute. reflexivity.
Defined.

Lemma load_pair_cuts_at_last_dot_witness :
  exists_ ToyDotted.dotted (resolve "/gt/page.1.tif") = true
  ∧ load_pair "/gt/page.1" (ToyWindow.showing 0 "") (Toy.world_of ToyDotted.dotted)
    = (Failed (PyError (FileNotFoundError "Image file not found for /gt/page.1")),
       ToyWindow.showing 0 "", Toy.world_of ToyDotted.dotted).
Proof.
  split; [vm_compute; reflexivity |].
  apply (load_pair_cuts_at_last_dot "/gt/page.1" (ToyWindow.showing 0 "")
           (Toy.world_of ToyDotted.dotted)).
  - reflexivity.
  - vm_compute. reflexivity.
  - vm_compute. reflexivity.
Defined.
